(** * Range-request video streaming: [GET /api/videos/stream/:id]

    A shallow embedding of the streaming handler of
    [backend/routes/videos.js] together with the pieces of the JavaScript
    and Node.js runtime it calls ([String.prototype.replace],
    [String.prototype.split], [parseInt], number-to-string conversion,
    [fs.existsSync], [fs.statSync], [fs.createReadStream]), followed by
    the properties of the handler. *)

From Stdlib Require Import ZArith String Ascii List Lia Bool.
From stdpp Require Import base option list gmap strings pretty.

Local Open Scope string_scope.
Local Open Scope Z_scope.

(* ===================================================================== *)
(** ** The JavaScript values and string primitives the handler uses      *)
(* ===================================================================== *)

Module JS.

(** A JavaScript number as the handler meets it: [NaN], an integer that
    is a double, or an infinity. ([-0] is not told from [0]: the handler
    only prints, compares and bounds its numbers, and none of these
    does.) *)
Inductive number : Type :=
  | NaN
  | Num (z : Z)
  | Infinity
  | NegInfinity.

(** The double nearest to the integer [v >= 0], ties to even, as an
    integer; it is [2 ^ 1024] or more when [v] is too large for a
    double. *)
Definition nearest (v : Z) : Z :=
  let n := Z.log2 v + 1 in
  if n <=? 53 then v
  else
    let shift := n - 53 in
    let q := Z.shiftr v shift in
    let r := v - Z.shiftl q shift in
    let half := Z.shiftl 1 (shift - 1) in
    let q' := if (half <? r) || ((r =? half) && Z.odd q) then q + 1 else q in
    Z.shiftl q' shift.

Definition OVERFLOW : Z := Z.shiftl 1 1024.

(** The Number value of a mathematical integer. *)
Definition of_Z (v : Z) : number :=
  let m := nearest (Z.abs v) in
  if OVERFLOW <=? m
  then (if v <? 0 then NegInfinity else Infinity)
  else Num (Z.sgn v * m).

(** [a + b], [- a] and [a - b]. *)
Definition add (a b : number) : number :=
  match a, b with
  | NaN, _ | _, NaN => NaN
  | Num x, Num y => of_Z (x + y)
  | Infinity, NegInfinity | NegInfinity, Infinity => NaN
  | Infinity, _ | _, Infinity => Infinity
  | NegInfinity, _ | _, NegInfinity => NegInfinity
  end.

Definition neg (a : number) : number :=
  match a with
  | NaN => NaN
  | Num x => Num (- x)
  | Infinity => NegInfinity
  | NegInfinity => Infinity
  end.

Definition sub (a b : number) : number := add a (neg b).

(** [a > b]: any comparison with NaN is false. *)
Definition gt (a b : number) : bool :=
  match a, b with
  | Num x, Num y => y <? x
  | Infinity, Num _ | Infinity, NegInfinity | Num _, NegInfinity => true
  | _, _ => false
  end.

Definition MAX_SAFE_INTEGER : Z := 2 ^ 53 - 1.

(** Truthiness of an optional string ([undefined] and the empty string are falsy). *)
Definition truthy (o : option string) : bool :=
  match o with
  | Some (String _ _) => true
  | _ => false
  end.

(** [o || d] on an optional string. *)
Definition or_default (o : option string) (d : string) : string :=
  match o with
  | Some (String c s) => String c s
  | _ => d
  end.

(** *** [String.prototype.replace] with a literal, non-global pattern *)

Fixpoint strip_prefix (p s : string) : option string :=
  match p, s with
  | EmptyString, _ => Some s
  | String a p', String b s' => if Ascii.eqb a b then strip_prefix p' s' else None
  | String _ _, EmptyString => None
  end.

(** The first occurrence of [pat] (scanning from the left) is replaced by
    [repl]; a string without occurrence is returned unchanged. *)
Fixpoint replace (pat repl s : string) : string :=
  match strip_prefix pat s with
  | Some rest => String.append repl rest
  | None =>
      match s with
      | EmptyString => EmptyString
      | String c s' => String c (replace pat repl s')
      end
  end.

(** *** [String.prototype.split] on a one-character separator *)

Fixpoint split (sep : ascii) (s : string) : list string :=
  match s with
  | EmptyString => [EmptyString]
  | String c s' =>
      if Ascii.eqb c sep then EmptyString :: split sep s'
      else match split sep s' with
           | [] => [String c EmptyString]
           | p :: ps => String c p :: ps
           end
  end.

(** *** [parseInt(s, 10)] *)

(** White space of a header value (a Latin-1 string): TAB, LF, VT, FF, CR,
    SP and NBSP. *)
Definition is_white (c : ascii) : bool :=
  let n := N_of_ascii c in
  ((9 <=? n) && (n <=? 13) || (n =? 32) || (n =? 160))%N.

Fixpoint trim_start (s : string) : string :=
  match s with
  | String c s' => if is_white c then trim_start s' else s
  | EmptyString => s
  end.

Definition digit_of (c : ascii) : option Z :=
  let n := Z.of_N (N_of_ascii c) in
  if (48 <=? n) && (n <=? 57) then Some (n - 48) else None.

(** Value of the longest prefix of decimal digits, continuing from [a]. *)
Fixpoint digits_acc (s : string) (a : Z) : Z :=
  match s with
  | String c s' =>
      match digit_of c with
      | Some d => digits_acc s' (10 * a + d)
      | None => a
      end
  | EmptyString => a
  end.

(** [None] when the string does not start with a digit. *)
Definition parse_digits (s : string) : option Z :=
  match s with
  | String c _ =>
      match digit_of c with
      | Some _ => Some (digits_acc s 0)
      | None => None
      end
  | EmptyString => None
  end.

(** The longest prefix that reads as a signed decimal integer, as the
    nearest double; [NaN] when there is no digit. (An engine may round a
    numeral of more than 20 digits less exactly; every such numeral is
    above [2 ^ 53] whatever the rounding.) *)
Definition parseInt (s : string) : number :=
  let s1 := trim_start s in
  let '(sign, s2) :=
    match s1 with
    | String "-" r => (-1, r)
    | String "+" r => (1, r)
    | _ => (1, s1)
    end in
  match parse_digits s2 with
  | Some v => of_Z (sign * v)
  | None => NaN
  end.

(** *** Number to string, as in a template literal *)

Definition digit_char (d : Z) : ascii := ascii_of_N (Z.to_N (48 + d)).

Fixpoint decimal_go (fuel : nat) (n : Z) (acc : string) : string :=
  match fuel with
  | O => acc
  | S f =>
      let acc' := String (digit_char (n mod 10)) acc in
      if n / 10 =? 0 then acc' else decimal_go f (n / 10) acc'
  end.

(** Decimal digits of [n >= 0]; [n < 2 ^ (1 + log2 n)] bounds the number
    of digits. *)
Definition decimal (n : Z) : string :=
  decimal_go (S (Z.to_nat (Z.log2 n))) n EmptyString.

(** Integers below [10 ^ 21] print all their digits, which is how the
    handler meets them: it prints positions that passed the bound check
    of the read stream, file sizes, and [Infinity]. *)
Definition to_string (x : number) : string :=
  match x with
  | NaN => "NaN"
  | Num z => if z <? 0 then String.append "-" (decimal (- z)) else decimal z
  | Infinity => "Infinity"
  | NegInfinity => "-Infinity"
  end.

End JS.

(* ===================================================================== *)
(** ** Exceptions: the [try { ... } catch] of the handler                *)
(* ===================================================================== *)

Inductive result (A : Type) : Type :=
  | Ok (a : A)
  | Throw.
Arguments Ok {A} a.
Arguments Throw {A}.

Definition bind {A B : Type} (m : result A) (k : A -> result B) : result B :=
  match m with
  | Ok a => k a
  | Throw => Throw
  end.

Notation "'let!' x ':=' m 'in' k" := (bind m (fun x => k))
  (at level 10, x name, m at level 100, k at level 200).

(* ===================================================================== *)
(** ** The file system, as the handler reads it                          *)
(* ===================================================================== *)

Module Fs.

(** Regular files by absolute path. *)
Abbreviation t := (gmap string (list Byte.byte)).

Definition existsSync (fs : t) (path : string) : bool :=
  match fs !! path with
  | Some _ => true
  | None => false
  end.

(** [fs.statSync(path).size]; a missing path raises. (The length of a
    file is a double: no file has [2 ^ 53] bytes.) *)
Definition statSync_size (fs : t) (path : string) : result JS.number :=
  match fs !! path with
  | Some content => Ok (JS.Num (Z.of_nat (length content)))
  | None => Throw
  end.

(** Node checks an option [start] or [end] with
    [validateInteger(v, name, 0)]: an integer of [0, MAX_SAFE_INTEGER]. *)
Definition valid_position (n : JS.number) : bool :=
  match n with
  | JS.Num z => (0 <=? z) && (z <=? JS.MAX_SAFE_INTEGER)
  | _ => false
  end.

(** The bytes at offsets [s .. e], both inclusive, as far as the file has
    them: reading stops at the end of the file. *)
Definition slice (content : list Byte.byte) (s e : Z) : list Byte.byte :=
  take (Z.to_nat (e - s + 1)) (drop (Z.to_nat s) content).

(** [fs.createReadStream(path, { start, end })], as the bytes the stream
    delivers. The constructor raises at once when [start] is not a valid
    position; an [end] that is [Infinity] stands for no end and is not
    checked; any other [end] must be a valid position and not less than
    [start]. (An absent path fails later and delivers nothing; the
    handler opens only a path it has just seen to exist.) *)
Definition createReadStream_range (fs : t) (path : string)
    (start end_ : JS.number) : result (list Byte.byte) :=
  if negb (valid_position start) then Throw
  else
    match end_ with
    | JS.Infinity =>
        match start with
        | JS.Num s => Ok (drop (Z.to_nat s) (default [] (fs !! path)))
        | _ => Throw
        end
    | _ =>
        if negb (valid_position end_) then Throw
        else if JS.gt start end_ then Throw
        else
          match start, end_ with
          | JS.Num s, JS.Num e => Ok (slice (default [] (fs !! path)) s e)
          | _, _ => Throw
          end
    end.

(** [fs.createReadStream(path)]: the whole file. *)
Definition createReadStream (fs : t) (path : string) : result (list Byte.byte) :=
  Ok (default [] (fs !! path)).

End Fs.

(* ===================================================================== *)
(** ** The database collaborator                                         *)
(* ===================================================================== *)

Module Db.

(** Modelled from the spec: the Video schema ([models/Video.js]) is not
    among the sources. These are the fields the handler and the upload
    route of [routes/videos.js] read and write: the path of the backing
    file, the length and content type declared at upload, the id of the
    course, and the view counter. A content type that was never stored
    is [None]. *)
Record Video : Type := mkVideo {
  filePath : string;
  fileSize : Z;
  mimeType : option string;
  course : string;
  views : Z
}.

(** A course as [.populate('course', 'title enrolledStudents')] returns
    it: of [courseSchema] ([models/Course.js]) the title and the ids of
    the enrolled students, which are what the handler reads. *)
Record Course : Type := mkCourse {
  title : string;
  enrolledStudents : list string
}.

(** Modelled from the spec: the User schema ([models/User.js]) is not
    among the sources. The handler reads [req.user._id] and
    [req.user.role]. *)
Record User : Type := mkUser {
  _id : string;
  role : string
}.

(** The collections, and the strings that the driver casts to an id of
    a document (an [ObjectId]); which strings these are is the driver's
    business, and the ids of the stored documents are among them. *)
Record t : Type := mkDb {
  videos : gmap string Video;
  courses : gmap string Course;
  casts : string -> bool
}.

(** A video with its [course] reference populated; a reference to a
    course that is not stored populates to [null]. *)
Record PopulatedVideo : Type := mkPopulated {
  doc : Video;
  populated_course : option Course
}.

(** [Video.findById(id).populate('course', 'title enrolledStudents')]:
    the document stored under the id, [null] when the id is the id of no
    stored document, and a [CastError] when the string cannot be an
    id. *)
Definition findById_populate (db : t) (id : string) : result (option PopulatedVideo) :=
  match videos db !! id with
  | Some v => Ok (Some (mkPopulated v (courses db !! course v)))
  | None => if casts db id then Ok None else Throw
  end.

(** A write that the handler hands to the database. *)
Inductive update : Type :=
  | IncViews (id : string) (by_ : Z).

Definition inc_views (by_ : Z) (v : Video) : Video :=
  mkVideo (filePath v) (fileSize v) (mimeType v) (course v) (views v + by_).

(** [Video.findByIdAndUpdate(id, { $inc: { views: by } })]: an atomic
    update of the one document, nothing when the id is not stored. *)
Definition apply (u : update) (db : t) : t :=
  match u with
  | IncViews id by_ =>
      mkDb (alter (inc_views by_) id (videos db)) (courses db) (casts db)
  end.

Definition apply_all (us : list update) (db : t) : t :=
  fold_left (fun d u => apply u d) us db.

End Db.

(* ===================================================================== *)
(** ** Requests, responses and the handler                               *)
(* ===================================================================== *)

Module Http.

(** A header value as the handler writes it: a string or a number. *)
Inductive header_value : Type :=
  | HStr (s : string)
  | HNum (n : JS.number).

(** What the client receives: the status, the headers given to
    [writeHead], the object given to [res.json] if any, and the bytes of
    the file piped into the response. *)
Record Response : Type := mkResponse {
  status : Z;
  headers : list (string * header_value);
  json : option (bool * string);
  body : list Byte.byte
}.

(** A request that passed [authMiddleware]: [req.params.id], [req.user]
    and [req.headers.range]. *)
Record Request : Type := mkRequest {
  params_id : string;
  user : Db.User;
  range : option string
}.

(** The response together with the database writes that the handler
    starts without awaiting them. *)
Record Outcome : Type := mkOutcome {
  response : Response;
  detached : list Db.update
}.

(** [return res.status(code).json({ success: false, message })] *)
Definition fail_with (code : Z) (message : string) : Outcome :=
  mkOutcome (mkResponse code [] (Some (false, message)) []) [].

Fixpoint header (name : string) (hs : list (string * header_value)) : option header_value :=
  match hs with
  | [] => None
  | (n, v) :: hs' => if String.eqb n name then Some v else header name hs'
  end.

End Http.

Import Http.

(** Lines 143-145: [parts], [start] and [end] of a truthy [Range]
    header. *)
Definition parse_range (range : string) (fileSize : JS.number) : JS.number * JS.number :=
  let parts := JS.split "-" (JS.replace "bytes=" EmptyString range) in
  let start := JS.parseInt (default EmptyString (parts !! 0%nat)) in
  let end_ :=
    if JS.truthy (parts !! 1%nat)
    then JS.parseInt (default EmptyString (parts !! 1%nat))
    else JS.sub fileSize (JS.Num 1) in
  (start, end_).

(** [video.mimeType || 'video/mp4'] *)
Definition content_type (video : Db.Video) : string :=
  JS.or_default (Db.mimeType video) "video/mp4".

(** The body of the [try] block of [router.get('/stream/:id')]. *)
Definition stream_try (db : Db.t) (fs : Fs.t) (req : Request) : result Outcome :=
  let! found := Db.findById_populate db (params_id req) in
  match found with
  | None => Ok (fail_with 404 "Video no encontrado")
  | Some video =>
      let! course :=
        match Db.populated_course video with
        | Some c => Ok c
        | None => Throw
        end in
      let isEnrolled :=
        existsb (fun studentId => String.eqb studentId (Db._id (user req)))
                (Db.enrolledStudents course) in
      let isAdmin := String.eqb (Db.role (user req)) "admin" in
      if negb isEnrolled && negb isAdmin
      then Ok (fail_with 403 "No tienes acceso a este video")
      else
        let videoPath := Db.filePath (Db.doc video) in
        if negb (Fs.existsSync fs videoPath)
        then Ok (fail_with 404 "Archivo de video no encontrado")
        else
          let! fileSize := Fs.statSync_size fs videoPath in
          let range := range req in
          let! res :=
            if JS.truthy range then
              let '(start, end_) := parse_range (default EmptyString range) fileSize in
              let chunksize := JS.add (JS.sub end_ start) (JS.Num 1) in
              let! file := Fs.createReadStream_range fs videoPath start end_ in
              let head :=
                [ ("Content-Range",
                   HStr ("bytes " +:+ JS.to_string start +:+ "-" +:+ JS.to_string end_
                         +:+ "/" +:+ JS.to_string fileSize));
                  ("Accept-Ranges", HStr "bytes");
                  ("Content-Length", HNum chunksize);
                  ("Content-Type", HStr (content_type (Db.doc video))) ] in
              Ok (mkResponse 206 head None file)
            else
              let head :=
                [ ("Content-Length", HNum fileSize);
                  ("Content-Type", HStr (content_type (Db.doc video))) ] in
              let! file := Fs.createReadStream fs videoPath in
              Ok (mkResponse 200 head None file) in
          Ok (mkOutcome res [Db.IncViews (params_id req) 1])
  end.

(** [router.get('/stream/:id', authMiddleware, async (req, res) => ...)]:
    an exception raised in the [try] block is answered with 500. *)
Definition stream (db : Db.t) (fs : Fs.t) (req : Request) : Outcome :=
  match stream_try db fs req with
  | Ok o => o
  | Throw => fail_with 500 "Error del servidor"
  end.

(** One request served, and the database once its detached writes have
    been carried out. *)
Definition serve (db : Db.t) (fs : Fs.t) (req : Request) : Response * Db.t :=
  let o := stream db fs req in
  (response o, Db.apply_all (detached o) db).

(** Requests served one after the other. *)
Fixpoint serve_all (db : Db.t) (fs : Fs.t) (reqs : list Request) : list Response * Db.t :=
  match reqs with
  | [] => ([], db)
  | req :: rest =>
      let '(r, db1) := serve db fs req in
      let '(rs, db2) := serve_all db1 fs rest in
      (r :: rs, db2)
  end.

(* ===================================================================== *)
(** ** Vocabulary for the properties                                     *)
(* ===================================================================== *)

(** A string of decimal digits only. *)
Fixpoint all_digits (s : string) : bool :=
  match s with
  | EmptyString => true
  | String c s' =>
      match JS.digit_of c with
      | Some _ => all_digits s'
      | None => false
      end
  end.

(** [bytes=<start>-<end>] and [bytes=<start>-]. *)
Definition range_header (s : Z) (e : option Z) : string :=
  "bytes=" +:+ JS.decimal s +:+ "-" +:+
  match e with
  | Some e => JS.decimal e
  | None => EmptyString
  end.

(** [isEnrolled || isAdmin] *)
Definition granted (c : Db.Course) (u : Db.User) : bool :=
  existsb (fun studentId => String.eqb studentId (Db._id u)) (Db.enrolledStudents c)
  || String.eqb (Db.role u) "admin".

(** The headers of the two successful answers. *)
Definition head_206 (v : Db.Video) (start end_ size : JS.number) : list (string * header_value) :=
  [ ("Content-Range",
     HStr ("bytes " +:+ JS.to_string start +:+ "-" +:+ JS.to_string end_
           +:+ "/" +:+ JS.to_string size));
    ("Accept-Ranges", HStr "bytes");
    ("Content-Length", HNum (JS.add (JS.sub end_ start) (JS.Num 1)));
    ("Content-Type", HStr (content_type v)) ].

Definition head_200 (v : Db.Video) (size : JS.number) : list (string * header_value) :=
  [ ("Content-Length", HNum size);
    ("Content-Type", HStr (content_type v)) ].

(** [start] and [end] are accepted by [fs.createReadStream]. *)
Definition readable (start end_ : JS.number) : bool :=
  Fs.valid_position start
  && match end_ with
     | JS.Infinity => true
     | _ => Fs.valid_position end_ && negb (JS.gt start end_)
     end.

(** The last offset of a range of a file of [size] bytes: the [end] of
    the header, or [size - 1] when the header has none. *)
Definition resolve_end (size : Z) (e : option Z) : Z := default (size - 1) e.

(** The ranges [rs], in order, are non-empty, inside the file, and each
    starts where the previous one stopped, from [from] to the last byte. *)
Fixpoint partitions (size from : Z) (rs : list (Z * option Z)) : bool :=
  match rs with
  | [] => from =? size
  | (s, e) :: rest =>
      (s =? from) && (s <=? resolve_end size e) && (resolve_end size e <=? size - 1)
      && partitions size (resolve_end size e + 1) rest
  end.

Definition range_requests (id : string) (u : Db.User) (rs : list (Z * option Z)) : list Request :=
  map (fun '(s, e) => mkRequest id u (Some (range_header s e))) rs.


(** The nine ways through the handler, each with the conditions under
    which it is taken. *)
Inductive answer (db : Db.t) (fs : Fs.t) (req : Request) : Outcome -> Prop :=
  | answer_bad_id :
      Db.videos db !! params_id req = None ->
      Db.casts db (params_id req) = false ->
      answer db fs req (fail_with 500 "Error del servidor")
  | answer_unknown :
      Db.videos db !! params_id req = None ->
      Db.casts db (params_id req) = true ->
      answer db fs req (fail_with 404 "Video no encontrado")
  | answer_no_course v :
      Db.videos db !! params_id req = Some v ->
      Db.courses db !! Db.course v = None ->
      answer db fs req (fail_with 500 "Error del servidor")
  | answer_denied v c :
      Db.videos db !! params_id req = Some v ->
      Db.courses db !! Db.course v = Some c ->
      granted c (user req) = false ->
      answer db fs req (fail_with 403 "No tienes acceso a este video")
  | answer_no_file v c :
      Db.videos db !! params_id req = Some v ->
      Db.courses db !! Db.course v = Some c ->
      granted c (user req) = true ->
      fs !! Db.filePath v = None ->
      answer db fs req (fail_with 404 "Archivo de video no encontrado")
  | answer_full v c content :
      Db.videos db !! params_id req = Some v ->
      Db.courses db !! Db.course v = Some c ->
      granted c (user req) = true ->
      fs !! Db.filePath v = Some content ->
      JS.truthy (range req) = false ->
      answer db fs req
        (mkOutcome
           (mkResponse 200 (head_200 v (JS.Num (Z.of_nat (length content)))) None content)
           [Db.IncViews (params_id req) 1])
  | answer_partial v c content h s e :
      Db.videos db !! params_id req = Some v ->
      Db.courses db !! Db.course v = Some c ->
      granted c (user req) = true ->
      fs !! Db.filePath v = Some content ->
      range req = Some h -> h <> EmptyString ->
      parse_range h (JS.Num (Z.of_nat (length content))) = (JS.Num s, JS.Num e) ->
      0 <= s <= e -> e <= JS.MAX_SAFE_INTEGER ->
      answer db fs req
        (mkOutcome
           (mkResponse 206
              (head_206 v (JS.Num s) (JS.Num e) (JS.Num (Z.of_nat (length content))))
              None (Fs.slice content s e))
           [Db.IncViews (params_id req) 1])
  | answer_endless v c content h s :
      Db.videos db !! params_id req = Some v ->
      Db.courses db !! Db.course v = Some c ->
      granted c (user req) = true ->
      fs !! Db.filePath v = Some content ->
      range req = Some h -> h <> EmptyString ->
      parse_range h (JS.Num (Z.of_nat (length content))) = (JS.Num s, JS.Infinity) ->
      0 <= s <= JS.MAX_SAFE_INTEGER ->
      answer db fs req
        (mkOutcome
           (mkResponse 206
              (head_206 v (JS.Num s) JS.Infinity (JS.Num (Z.of_nat (length content))))
              None (drop (Z.to_nat s) content))
           [Db.IncViews (params_id req) 1])
  | answer_bad_range v c content h start end_ :
      Db.videos db !! params_id req = Some v ->
      Db.courses db !! Db.course v = Some c ->
      granted c (user req) = true ->
      fs !! Db.filePath v = Some content ->
      range req = Some h -> h <> EmptyString ->
      parse_range h (JS.Num (Z.of_nat (length content))) = (start, end_) ->
      readable start end_ = false ->
      answer db fs req (fail_with 500 "Error del servidor").

(* ===================================================================== *)
(** ** A small installation to run the handler on                        *)
(* ===================================================================== *)

Module Sample.

Definition bytes_upto (n : nat) : list Byte.byte :=
  map (fun i => default Byte.x00 (Byte.of_nat (i mod 256))) (seq 0 n).

Definition alice : Db.User := Db.mkUser "u1" "student".
Definition mallory : Db.User := Db.mkUser "u9" "student".
Definition root : Db.User := Db.mkUser "u0" "admin".

Definition db : Db.t :=
  Db.mkDb
    {[ "v1" := Db.mkVideo "/uploads/videos/a.mp4" 100 (Some "video/webm") "c1" 7;
       "v2" := Db.mkVideo "/uploads/videos/empty.mp4" 0 None "c1" 0;
       "v3" := Db.mkVideo "/uploads/videos/gone.mp4" 100 (Some EmptyString) "c1" 3;
       "v4" := Db.mkVideo "/uploads/videos/a.mp4" 100 None "c9" 0;
       "v5" := Db.mkVideo "/uploads/videos/a.mp4" 64 (Some EmptyString) "c1" 41 ]}
    {[ "c1" := Db.mkCourse "Rocq" ["u1"; "u2"] ]}
    (fun _ => true).

(** An installation behind a driver whose ids are 24 hexadecimal
    digits. *)
Definition is_hex (c : ascii) : bool :=
  let n := N_of_ascii c in
  ((48 <=? n) && (n <=? 57) || (65 <=? n) && (n <=? 70)
   || (97 <=? n) && (n <=? 102))%N.

Fixpoint all_hex (s : string) : bool :=
  match s with
  | EmptyString => true
  | String c s' => is_hex c && all_hex s'
  end.

Definition objectId (s : string) : bool :=
  (String.length s =? 24)%nat && all_hex s.

Definition mongo : Db.t :=
  Db.mkDb
    {[ "64b7f0c2a1d3e4f5a6b7c8d9" :=
         Db.mkVideo "/uploads/videos/a.mp4" 100 (Some "video/webm")
                    "64b7f0c2a1d3e4f5a6b7c8da" 7 ]}
    {[ "64b7f0c2a1d3e4f5a6b7c8da" := Db.mkCourse "Rocq" ["u1"; "u2"] ]}
    objectId.

Definition fs : Fs.t :=
  {[ "/uploads/videos/a.mp4" := bytes_upto 100;
     "/uploads/videos/empty.mp4" := [] ]}.

(** A numeral too large for a double: 1 followed by 309 zeros. *)
Fixpoint zeros (n : nat) : string :=
  match n with
  | O => EmptyString
  | S n' => String "0" (zeros n')
  end.

Definition huge : string := String "1" (zeros 309).

Definition get (id : string) (u : Db.User) (range : option string) : Request :=
  mkRequest id u range.

End Sample.

(* ===================================================================== *)
(** ** More of the JavaScript string library                             *)
(* ===================================================================== *)

Module JSString.

(** [s.includes(pat)] *)
Fixpoint includes (pat s : string) : bool :=
  match JS.strip_prefix pat s with
  | Some _ => true
  | None =>
      match s with
      | EmptyString => false
      | String _ s' => includes pat s'
      end
  end.

(** Lower case of a Latin-1 code unit: [A-Z] and the accented capitals
    [U+00C0 .. U+00DE] other than the multiplication sign move up by
    32. *)
Definition lower (c : ascii) : ascii :=
  let n := N_of_ascii c in
  if ((65 <=? n) && (n <=? 90)
      || (192 <=? n) && (n <=? 222) && negb (n =? 215))%N
  then ascii_of_N (n + 32)
  else c.

(** [s.toLowerCase()] on a string of Latin-1 code units. *)
Fixpoint toLowerCase (s : string) : string :=
  match s with
  | EmptyString => EmptyString
  | String c s' => String (lower c) (toLowerCase s')
  end.

(** [l.pop()] on the array a [split] returns. *)
Definition pop (l : list string) : string := List.last l EmptyString.

(** The one-character string of a code unit; the accented letters of the
    messages are written with it. *)
Definition chr (n : nat) : string := String (ascii_of_nat n) EmptyString.

End JSString.

(* ===================================================================== *)
(** ** The documents of the database                                     *)
(* ===================================================================== *)

(** [courseSchema] ([models/Course.js]): the fields that the routes
    modelled here read or write. *)
Module Course.
Record t : Type := mk {
  title : string;
  enrolledStudents : list string;
  videos : list string;
  files : list string;
  isActive : bool
}.
Definition set_enrolledStudents (l : list string) (c : t) : t :=
  mk (title c) l (videos c) (files c) (isActive c).
Definition set_videos (l : list string) (c : t) : t :=
  mk (title c) (enrolledStudents c) l (files c) (isActive c).
Definition set_isActive (b : bool) (c : t) : t :=
  mk (title c) (enrolledStudents c) (videos c) (files c) b.
Definition set_files (l : list string) (c : t) : t :=
  mk (title c) (enrolledStudents c) (videos c) l (isActive c).
End Course.

(** Modelled from the spec: the User schema ([models/User.js]) is not
    among the sources. These are the fields that the middleware and the
    routes modelled here read or write. *)
Module User.
Record t : Type := mk {
  role : string;
  isActive : bool;
  enrolledCourses : list string
}.
Definition set_enrolledCourses (l : list string) (u : t) : t :=
  mk (role u) (isActive u) l.
End User.

(** [fileSchema] ([models/File.js]): the fields that the download route
    reads or writes. *)
Module File.
Record t : Type := mk {
  originalName : string;
  filePath : string;
  fileSize : Z;
  mimeType : string;
  course : string;
  isActive : bool;
  downloads : Z
}.
Definition inc_downloads (n : Z) (f : t) : t :=
  mk (originalName f) (filePath f) (fileSize f) (mimeType f) (course f)
     (isActive f) (downloads f + n).
End File.

Module Store.

Record t : Type := mk {
  users : gmap string User.t;
  courses : gmap string Course.t;
  videos : gmap string Db.Video;
  files : gmap string File.t
}.

Definition set_users (m : gmap string User.t) (s : t) : t :=
  mk m (courses s) (videos s) (files s).
Definition set_courses (m : gmap string Course.t) (s : t) : t :=
  mk (users s) m (videos s) (files s).
Definition set_videos (m : gmap string Db.Video) (s : t) : t :=
  mk (users s) (courses s) m (files s).
Definition set_files (m : gmap string File.t) (s : t) : t :=
  mk (users s) (courses s) (videos s) m.

(** [{ $addToSet: { field: x } }] and [{ $pull: { field: x } }] on an
    array of ids. *)
Definition addToSet (x : string) (l : list string) : list string :=
  if existsb (String.eqb x) l then l else (l ++ [x])%list.

Definition pull (x : string) (l : list string) : list string :=
  List.filter (fun y => negb (String.eqb y x)) l.

(** What [.populate('course', 'title enrolledStudents')] keeps of a
    course. *)
Definition select_course (c : Course.t) : Db.Course :=
  Db.mkCourse (Course.title c) (Course.enrolledStudents c).

(** The database as the streaming handler reads it. The requests made
    on a store name ids of the shape of its documents' ids. *)
Definition to_db (s : t) : Db.t :=
  Db.mkDb (videos s) (select_course <$> courses s) (fun _ => true).

(** The writes a handler starts without awaiting them. *)
Inductive update : Type :=
  | IncViews (id : string) (by_ : Z)
  | IncDownloads (id : string) (by_ : Z).

Definition apply (u : update) (s : t) : t :=
  match u with
  | IncViews id n => set_videos (alter (Db.inc_views n) id (videos s)) s
  | IncDownloads id n => set_files (alter (File.inc_downloads n) id (files s)) s
  end.

End Store.

(** [res.json({ success: true, message })], status 200, and
    [res.status(code).json({ success: false, message })]. *)
Definition ok_json (message : string) : Response :=
  mkResponse 200 [] (Some (true, message)) [].

Definition error_json (code : Z) (message : string) : Response :=
  mkResponse code [] (Some (false, message)) [].

(** [.some(studentId => studentId.toString() === req.user._id.toString())] *)
Definition is_enrolled (students : list string) (u : Db.User) : bool :=
  existsb (fun studentId => String.eqb studentId (Db._id u)) students.

(* ===================================================================== *)
(** ** [middleware/upload.js]: removing an uploaded file                 *)
(* ===================================================================== *)

(** [deleteFile(filePath)]: [fs.unlink], where a path that does not
    exist ([ENOENT]) is not an error. On this file system of regular
    files [unlink] has no other way to fail. *)
Definition deleteFile (fs : Fs.t) (filePath : string) : Fs.t :=
  delete filePath fs.

(* ===================================================================== *)
(** ** [routes/courses.js]: enrolment                                    *)
(* ===================================================================== *)

Module Courses.

Definition msg_already : string :=
  "Ya est" +:+ JSString.chr 225 +:+ "s inscrito en este curso".

(** [router.post('/:id/enroll', authMiddleware, ...)] *)
Definition enroll (s : Store.t) (id : string) (u : Db.User) : Response * Store.t :=
  match Store.courses s !! id with
  | None => (error_json 404 "Curso no encontrado", s)
  | Some course =>
      if negb (Course.isActive course)
      then (error_json 404 "Curso no encontrado", s)
      else
        let isAlreadyEnrolled := is_enrolled (Course.enrolledStudents course) u in
        if isAlreadyEnrolled
        then (error_json 400 msg_already, s)
        else
          let course' :=
            Course.set_enrolledStudents
              (Course.enrolledStudents course ++ [Db._id u])%list course in
          let s1 := Store.set_courses (<[id := course']> (Store.courses s)) s in
          let s2 :=
            Store.set_users
              (alter (fun d => User.set_enrolledCourses
                                 (Store.addToSet id (User.enrolledCourses d)) d)
                     (Db._id u) (Store.users s1)) s1 in
          (ok_json "Te has inscrito exitosamente al curso", s2)
  end.

(** [router.delete('/:id/enroll', authMiddleware, ...)] *)
Definition unenroll (s : Store.t) (id : string) (u : Db.User) : Response * Store.t :=
  match Store.courses s !! id with
  | None => (error_json 404 "Curso no encontrado", s)
  | Some course =>
      let course' :=
        Course.set_enrolledStudents
          (List.filter (fun studentId => negb (String.eqb studentId (Db._id u)))
                       (Course.enrolledStudents course)) course in
      let s1 := Store.set_courses (<[id := course']> (Store.courses s)) s in
      let s2 :=
        Store.set_users
          (alter (fun d => User.set_enrolledCourses
                             (Store.pull id (User.enrolledCourses d)) d)
                 (Db._id u) (Store.users s1)) s1 in
      (ok_json "Te has desinscrito del curso exitosamente", s2)
  end.

(** The handler of [router.delete('/:id', authMiddleware,
    adminMiddleware, ...)]: the course is marked inactive, not removed. *)
Definition remove (s : Store.t) (id : string) : Response * Store.t :=
  match Store.courses s !! id with
  | None => (error_json 404 "Curso no encontrado", s)
  | Some course =>
      let course' := Course.set_isActive false course in
      (ok_json "Curso eliminado exitosamente",
       Store.set_courses (<[id := course']> (Store.courses s)) s)
  end.

End Courses.

(* ===================================================================== *)
(** ** [routes/videos.js]: removing a video                              *)
(* ===================================================================== *)

Module Videos.

(** The handler of [router.delete('/:id', authMiddleware,
    adminMiddleware, ...)]. A failure of [deleteFile] is only logged. *)
Definition remove (s : Store.t) (fs : Fs.t) (id : string) : Response * Store.t * Fs.t :=
  match Store.videos s !! id with
  | None => (error_json 404 "Video no encontrado", s, fs)
  | Some video =>
      let fs' := deleteFile fs (Db.filePath video) in
      let s1 := Store.set_videos (delete id (Store.videos s)) s in
      let s2 :=
        Store.set_courses
          (alter (fun c => Course.set_videos (Store.pull id (Course.videos c)) c)
                 (Db.course video) (Store.courses s1)) s1 in
      (ok_json "Video eliminado exitosamente", s2, fs')
  end.

(** The streaming handler on the store, and the store once the detached
    writes are carried out. *)
Definition stream (s : Store.t) (fs : Fs.t) (req : Request) : Outcome :=
  stream (Store.to_db s) fs req.

Definition settle (us : list Db.update) (s : Store.t) : Store.t :=
  fold_left (fun st u => match u with
                         | Db.IncViews id n => Store.apply (Store.IncViews id n) st
                         end) us s.

End Videos.

(* ===================================================================== *)
(** ** [middleware/auth.js]                                              *)
(* ===================================================================== *)

Module Auth.

(** What [jwt.verify(token, process.env.JWT_SECRET)] does with a token:
    it returns the payload, of which the middleware reads [id], or
    raises an error, of which the middleware reads [name]. *)
Inductive verified : Type :=
  | Decoded (id : string)
  | JsonWebTokenError
  | TokenExpiredError
  | OtherError.

(** A middleware either calls [next()], leaving [req.user] set or not,
    or answers the request itself. *)
Inductive outcome : Type :=
  | Next (user : option Db.User)
  | Reply (r : Response).

Definition msg_no_token : string :=
  "No se proporcion" +:+ JSString.chr 243 +:+ " token de acceso".
Definition msg_invalid : string :=
  "Token inv" +:+ JSString.chr 225 +:+ "lido".
Definition msg_unknown_user : string :=
  msg_invalid +:+ " - usuario no encontrado".
Definition msg_server : string :=
  "Error del servidor en autenticaci" +:+ JSString.chr 243 +:+ "n".

(** [req.header('Authorization')?.replace('Bearer ', '')] *)
Definition token_of (authorization : option string) : option string :=
  JS.replace "Bearer " EmptyString <$> authorization.

Section Jwt.

Variable verify : string -> verified.

(** [authMiddleware]. Tokens are signed by [generateToken] over the id
    of a user document, so the id of a verified token is one the
    database driver accepts, and the lookup finds the user or not. *)
Definition authMiddleware (users : gmap string User.t)
    (authorization : option string) : outcome :=
  let token := token_of authorization in
  if negb (JS.truthy token)
  then Reply (error_json 401 msg_no_token)
  else
    match verify (default EmptyString token) with
    | Decoded id =>
        match users !! id with
        | None => Reply (error_json 401 msg_unknown_user)
        | Some user =>
            if negb (User.isActive user)
            then Reply (error_json 401 "Usuario inactivo")
            else Next (Some (Db.mkUser id (User.role user)))
        end
    | JsonWebTokenError => Reply (error_json 401 msg_invalid)
    | TokenExpiredError => Reply (error_json 401 "Token expirado")
    | OtherError => Reply (error_json 500 msg_server)
    end.

(** [optionalAuth]: whatever goes wrong is swallowed and the request
    goes on without a user. *)
Definition optionalAuth (users : gmap string User.t)
    (authorization : option string) : outcome :=
  let token := token_of authorization in
  if JS.truthy token then
    match verify (default EmptyString token) with
    | Decoded id =>
        match users !! id with
        | Some user =>
            if User.isActive user
            then Next (Some (Db.mkUser id (User.role user)))
            else Next None
        | None => Next None
        end
    | _ => Next None
    end
  else Next None.

End Jwt.

Definition adminMiddleware (user : option Db.User) : outcome :=
  match user with
  | None => Reply (error_json 401 "No autenticado")
  | Some u =>
      if negb (String.eqb (Db.role u) "admin")
      then Reply (error_json 403
                    "Acceso denegado - Se requieren privilegios de administrador")
      else Next user
  end.

(** A route declared with [authMiddleware, adminMiddleware]: the second
    runs when the first calls [next()]. *)
Definition admin_only (verify : string -> verified) (users : gmap string User.t)
    (authorization : option string) : outcome :=
  match authMiddleware verify users authorization with
  | Next user => adminMiddleware user
  | Reply r => Reply r
  end.

End Auth.

(* ===================================================================== *)
(** ** [models/File.js] and [routes/files.js]                            *)
(* ===================================================================== *)

Module Files.

(** [fileSchema.statics.getFileType] *)
Definition getFileType (filename mimeType : string) : string :=
  let extension := JSString.pop (JS.split "." (JSString.toLowerCase filename)) in
  if JSString.includes "pdf" mimeType || String.eqb extension "pdf" then "pdf"
  else if JSString.includes "word" mimeType
          || existsb (String.eqb extension) ["doc"; "docx"] then "doc"
  else if JSString.includes "text" mimeType || String.eqb extension "txt" then "txt"
  else if JSString.includes "presentation" mimeType
          || existsb (String.eqb extension) ["ppt"; "pptx"] then "ppt"
  else if JSString.includes "spreadsheet" mimeType
          || existsb (String.eqb extension) ["xls"; "xlsx"] then "xls"
  else if JSString.includes "zip" mimeType
          || existsb (String.eqb extension) ["zip"; "rar"; "7z"] then "zip"
  else if JSString.includes "image" mimeType
          || existsb (String.eqb extension) ["jpg"; "jpeg"; "png"; "gif"; "webp"]
       then "image"
  else "other".

(** The [enum] of the [fileType] path of [fileSchema]. *)
Definition fileType_enum : list string :=
  ["pdf"; "doc"; "docx"; "txt"; "ppt"; "pptx"; "xls"; "xlsx"; "zip"; "image"; "other"].

Definition msg_physical : string :=
  "Archivo f" +:+ JSString.chr 237 +:+ "sico no encontrado".

Section Download.

(** The JavaScript built-in, taken as it is. *)
Variable encodeURIComponent : string -> string.

(** The body of the [try] block of [router.get('/download/:id')]. *)
Definition download_try (s : Store.t) (fs : Fs.t) (req : Request)
    : result (Response * list Store.update) :=
  match Store.files s !! params_id req with
  | None => Ok (error_json 404 "Archivo no encontrado", [])
  | Some file =>
      if negb (File.isActive file)
      then Ok (error_json 404 "Archivo no encontrado", [])
      else
        let! course :=
          match Store.courses s !! File.course file with
          | Some c => Ok c
          | None => Throw
          end in
        let isEnrolled := is_enrolled (Course.enrolledStudents course) (user req) in
        let isAdmin := String.eqb (Db.role (user req)) "admin" in
        if negb isEnrolled && negb isAdmin
        then Ok (error_json 403 "No tienes acceso a este archivo", [])
        else
          let filePath := File.filePath file in
          if negb (Fs.existsSync fs filePath)
          then Ok (error_json 404 msg_physical, [])
          else
            let head :=
              [ ("Content-Disposition",
                 HStr ("attachment; filename=" +:+ JSString.chr 34
                       +:+ encodeURIComponent (File.originalName file)
                       +:+ JSString.chr 34));
                ("Content-Type", HStr (File.mimeType file));
                ("Content-Length", HNum (JS.Num (File.fileSize file))) ] in
            let! fileStream := Fs.createReadStream fs filePath in
            Ok (mkResponse 200 head None fileStream,
                [Store.IncDownloads (params_id req) 1])
  end.

Definition download (s : Store.t) (fs : Fs.t) (req : Request)
    : Response * list Store.update :=
  match download_try s fs req with
  | Ok o => o
  | Throw => (error_json 500 "Error del servidor", [])
  end.

End Download.

(** The handler of [router.delete('/:id', authMiddleware,
    adminMiddleware, ...)] of [routes/files.js]. A failure of
    [deleteFile] is only logged. *)
Definition remove (s : Store.t) (fs : Fs.t) (id : string) : Response * Store.t * Fs.t :=
  match Store.files s !! id with
  | None => (error_json 404 "Archivo no encontrado", s, fs)
  | Some file =>
      let fs' := deleteFile fs (File.filePath file) in
      let s1 := Store.set_files (delete id (Store.files s)) s in
      let s2 :=
        Store.set_courses
          (alter (fun c => Course.set_files (Store.pull id (Course.files c)) c)
                 (File.course file) (Store.courses s1)) s1 in
      (ok_json "Archivo eliminado exitosamente", s2, fs')
  end.

End Files.

(* ===================================================================== *)
(** ** Invariants of the enrolment records                               *)
(* ===================================================================== *)

(** No course lists a student twice. *)
Definition students_distinct (s : Store.t) : Prop :=
  forall id c, Store.courses s !! id = Some c -> List.NoDup (Course.enrolledStudents c).

(** The two sides of an enrolment agree: a stored course lists a stored
    user exactly when the user lists the course. *)
Definition enrolment_agrees (s : Store.t) : Prop :=
  forall uid cid d c,
    Store.users s !! uid = Some d ->
    Store.courses s !! cid = Some c ->
    (In uid (Course.enrolledStudents c) <-> In cid (User.enrolledCourses d)).

(* ===================================================================== *)
(** ** Counting stream starts                                            *)
(* ===================================================================== *)


(* ===================================================================== *)
(** ** A second installation, with all its documents                     *)
(* ===================================================================== *)

Module Demo.

Definition store : Store.t :=
  Store.mk
    {[ "u0" := User.mk "admin" true [];
       "u1" := User.mk "student" true ["c1"; "c2"];
       "u3" := User.mk "student" true [];
       "u7" := User.mk "student" false [] ]}
    {[ "c1" := Course.mk "Rocq" ["u1"; "u2"] ["v1"; "v2"] ["f1"] true;
       "c2" := Course.mk "Old" ["u1"] [] [] false ]}
    {[ "v1" := Db.mkVideo "/uploads/videos/a.mp4" 100 (Some "video/webm") "c1" 7;
       "v2" := Db.mkVideo "/uploads/videos/empty.mp4" 0 None "c1" 0 ]}
    {[ "f1" := File.mk "notes.pdf" "/uploads/files/notes.pdf" 12 "application/pdf" "c1" true 4;
       "f2" := File.mk "old.txt" "/uploads/files/old.txt" 3 "text/plain" "c1" false 0 ]}.

Definition fs : Fs.t :=
  {[ "/uploads/videos/a.mp4" := Sample.bytes_upto 100;
     "/uploads/videos/empty.mp4" := [];
     "/uploads/files/notes.pdf" := Sample.bytes_upto 20 ]}.

Definition carol : Db.User := Db.mkUser "u3" "student".

(** Tokens are the ids of their users, [expired] and [forged] apart. *)
Definition verify (token : string) : Auth.verified :=
  if String.eqb token "expired" then Auth.TokenExpiredError
  else if String.eqb token "forged" then Auth.JsonWebTokenError
  else Auth.Decoded token.

Definition encode (s : string) : string := s.

End Demo.

(* ===================================================================== *)
(** ** The primitives and the handler on examples                        *)
(* ===================================================================== *)

(** Closes a side condition on the sample installation by evaluation. *)
Ltac sample :=
  first [ reflexivity
        | vm_compute; reflexivity
        | vm_compute; discriminate
        | vm_compute; intuition discriminate ].

(** Walks through the entries of a map written out in full. *)
Ltac each_entry H tac :=
  repeat (apply lookup_insert_Some in H as [[<- <-] | [_ H]]; [tac |]);
  apply lookup_singleton_Some in H as [<- <-]; tac.

Example parseInt_ex1 : JS.parseInt "50" = JS.Num 50. Proof. reflexivity. Qed.
Example parseInt_ex2 : JS.parseInt EmptyString = JS.NaN. Proof. reflexivity. Qed.
Example parseInt_ex3 : JS.parseInt " +12ab" = JS.Num 12. Proof. reflexivity. Qed.
Example parseInt_ex4 : JS.parseInt "abc" = JS.NaN. Proof. reflexivity. Qed.
Example parseInt_ex5 : JS.parseInt "9007199254740993" = JS.Num 9007199254740992.
Proof. reflexivity. Qed.
Example parseInt_ex6 : JS.parseInt Sample.huge = JS.Infinity.
Proof. vm_compute. reflexivity. Qed.
Example parseInt_ex7 : JS.parseInt (String "1" (Sample.zeros 308)) <> JS.Infinity.
Proof. vm_compute. discriminate. Qed.
Example of_Z_ex1 : JS.of_Z (2 ^ 53 + 1) = JS.Num (2 ^ 53). Proof. reflexivity. Qed.
Example of_Z_ex2 : JS.of_Z (2 ^ 53 + 3) = JS.Num (2 ^ 53 + 4). Proof. reflexivity. Qed.
Example of_Z_ex3 : JS.of_Z (2 ^ 1024 - 2 ^ 970 - 1) = JS.Num (2 ^ 1024 - 2 ^ 971).
Proof. vm_compute. reflexivity. Qed.
Example of_Z_ex4 : JS.of_Z (2 ^ 1024 - 2 ^ 970) = JS.Infinity.
Proof. vm_compute. reflexivity. Qed.
Example of_Z_ex5 : JS.of_Z (- (2 ^ 53 + 1)) = JS.Num (- 2 ^ 53). Proof. reflexivity. Qed.
Example stream_ex_Infinity :
  status (response (stream Sample.db Sample.fs
                      (Sample.get "v1" Sample.alice (Some ("bytes=0-" +:+ Sample.huge)))))
  = 206.
Proof. vm_compute. reflexivity. Qed.
Example stream_ex_CastError :
  stream Sample.mongo Sample.fs (Sample.get "v1" Sample.alice None)
  = fail_with 500 "Error del servidor".
Proof. vm_compute. reflexivity. Qed.
Example split_ex1 : JS.split "-" "50-149" = ["50"; "149"]. Proof. reflexivity. Qed.
Example split_ex2 : JS.split "-" "50-" = ["50"; EmptyString]. Proof. reflexivity. Qed.
Example split_ex3 : JS.split "-" "-500" = [EmptyString; "500"]. Proof. reflexivity. Qed.
Example split_ex4 : JS.split "-" EmptyString = [EmptyString]. Proof. reflexivity. Qed.
Example replace_ex1 : JS.replace "bytes=" EmptyString "bytes=0-1" = "0-1". Proof. reflexivity. Qed.
Example replace_ex2 : JS.replace "bytes=" EmptyString "x bytes=0-1" = "x 0-1". Proof. reflexivity. Qed.
Example to_string_ex1 : JS.to_string (JS.Num 1050) = "1050". Proof. reflexivity. Qed.
Example to_string_ex2 : JS.to_string (JS.Num 0) = "0". Proof. reflexivity. Qed.
Example to_string_ex3 : JS.to_string (JS.Num (-1)) = "-1". Proof. reflexivity. Qed.

Example stream_ex_200 :
  let r := response (stream Sample.db Sample.fs (Sample.get "v1" Sample.alice None)) in
  status r = 200 /\ body r = Sample.bytes_upto 100
  /\ headers r = [("Content-Length", HNum (JS.Num 100)); ("Content-Type", HStr "video/webm")].
Proof. vm_compute. auto. Qed.

Example stream_ex_206 :
  let r := response (stream Sample.db Sample.fs (Sample.get "v1" Sample.alice (Some "bytes=10-19"))) in
  status r = 206 /\ body r = Fs.slice (Sample.bytes_upto 100) 10 19
  /\ header "Content-Range" (headers r) = Some (HStr "bytes 10-19/100")
  /\ header "Content-Length" (headers r) = Some (HNum (JS.Num 10)).
Proof. vm_compute. auto. Qed.

Example stream_ex_500 :
  status (response (stream Sample.db Sample.fs (Sample.get "v4" Sample.root None))) = 500.
Proof. vm_compute. reflexivity. Qed.

(* ===================================================================== *)
(** ** Printing a number and reading it back                             *)
(* ===================================================================== *)

Section Doubles.

(** The integers up to [2 ^ 53] in absolute value are doubles. *)
Lemma nearest_safe v : 0 <= v <= JS.MAX_SAFE_INTEGER -> JS.nearest v = v.
Proof.
  intros Hv. unfold JS.nearest.
  assert (Z.log2 v + 1 <= 53) as Hn.
  { destruct (Z.eq_dec v 0) as [-> | Hne]; [simpl; lia |].
    assert (Z.log2 v < 53); [| lia].
    apply Z.log2_lt_pow2; [lia |]. unfold JS.MAX_SAFE_INTEGER in Hv. lia. }
  replace (Z.log2 v + 1 <=? 53) with true by lia. reflexivity.
Qed.

Lemma of_Z_safe v : Z.abs v <= JS.MAX_SAFE_INTEGER -> JS.of_Z v = JS.Num v.
Proof.
  intros Hv. unfold JS.of_Z. rewrite nearest_safe by lia.
  assert ((JS.OVERFLOW <=? Z.abs v) = false) as ->.
  { apply Z.leb_gt. unfold JS.MAX_SAFE_INTEGER in Hv.
    assert (2 ^ 53 < JS.OVERFLOW) by (vm_compute; reflexivity). lia. }
  f_equal. lia.
Qed.

(** [2 ^ 53] is a double too. *)
Lemma of_Z_exact v : Z.abs v <= 2 ^ 53 -> JS.of_Z v = JS.Num v.
Proof.
  intros Hv.
  destruct (Z_le_gt_dec (Z.abs v) JS.MAX_SAFE_INTEGER) as [Hs | Hs];
    [now apply of_Z_safe |].
  unfold JS.MAX_SAFE_INTEGER in Hs.
  assert (v = 2 ^ 53 \/ v = - 2 ^ 53) as [-> | ->] by lia; reflexivity.
Qed.

Lemma add_safe x y :
  Z.abs (x + y) <= JS.MAX_SAFE_INTEGER -> JS.add (JS.Num x) (JS.Num y) = JS.Num (x + y).
Proof. intros H. simpl. now apply of_Z_safe. Qed.

Lemma sub_safe x y :
  Z.abs (x - y) <= JS.MAX_SAFE_INTEGER -> JS.sub (JS.Num x) (JS.Num y) = JS.Num (x - y).
Proof.
  intros H. unfold JS.sub. simpl JS.neg. rewrite <- Z.add_opp_r in *.
  now apply add_safe.
Qed.

(** The length of a range the read stream accepts. *)
Lemma chunksize_safe s e :
  0 <= s <= e -> e <= JS.MAX_SAFE_INTEGER ->
  JS.add (JS.sub (JS.Num e) (JS.Num s)) (JS.Num 1) = JS.Num (e - s + 1).
Proof.
  intros Hse He. rewrite sub_safe by lia. simpl. apply of_Z_exact.
  unfold JS.MAX_SAFE_INTEGER in He. lia.
Qed.

Lemma chunksize_endless s :
  JS.add (JS.sub JS.Infinity (JS.Num s)) (JS.Num 1) = JS.Infinity.
Proof. reflexivity. Qed.

End Doubles.

Section Decimal.

Lemma digit_of_digit_char d :
  0 <= d < 10 -> JS.digit_of (JS.digit_char d) = Some d.
Proof.
  intros Hd.
  assert (d = 0 \/ d = 1 \/ d = 2 \/ d = 3 \/ d = 4 \/ d = 5 \/ d = 6
          \/ d = 7 \/ d = 8 \/ d = 9) as Hcases by lia.
  repeat (destruct Hcases as [-> | Hcases]; [reflexivity |]).
  subst d. reflexivity.
Qed.

Lemma digit_of_range c d : JS.digit_of c = Some d -> 0 <= d < 10.
Proof.
  unfold JS.digit_of. intros H.
  destruct (_ && _) eqn:E; [| discriminate].
  apply andb_true_iff in E as [E1 E2].
  injection H as <-. lia.
Qed.

Lemma digit_not_dash c d : JS.digit_of c = Some d -> Ascii.eqb c "-" = false.
Proof.
  intros H. destruct (Ascii.eqb c "-") eqn:E; [| reflexivity].
  apply Ascii.eqb_eq in E. subst c. discriminate H.
Qed.

Lemma digit_not_plus c d : JS.digit_of c = Some d -> c <> "+"%char.
Proof. intros H ->. discriminate H. Qed.

Lemma digit_not_white c d : JS.digit_of c = Some d -> JS.is_white c = false.
Proof.
  destruct c as [[] [] [] [] [] [] [] []]; vm_compute; intros H;
    (reflexivity || discriminate H).
Qed.

Lemma decimal_go_all_digits f n acc :
  all_digits acc = true -> all_digits (JS.decimal_go f n acc) = true.
Proof.
  revert n acc. induction f as [| f IH]; intros n acc Hacc; simpl; [assumption |].
  assert (all_digits (String (JS.digit_char (n mod 10)) acc) = true) as Hd.
  { simpl. rewrite digit_of_digit_char; [assumption |].
    apply Z.mod_pos_bound. lia. }
  destruct (n / 10 =? 0); [exact Hd | apply IH, Hd].
Qed.

Lemma decimal_go_nonempty f n acc :
  acc <> EmptyString -> JS.decimal_go f n acc <> EmptyString.
Proof.
  revert n acc. induction f as [| f IH]; intros n acc Hacc; simpl; [assumption |].
  destruct (n / 10 =? 0); [discriminate | apply IH; discriminate].
Qed.

Lemma decimal_all_digits n : all_digits (JS.decimal n) = true.
Proof. apply decimal_go_all_digits. reflexivity. Qed.

Lemma decimal_nonempty n : JS.decimal n <> EmptyString.
Proof.
  unfold JS.decimal. simpl.
  destruct (n / 10 =? 0); [discriminate | apply decimal_go_nonempty; discriminate].
Qed.

(** Reading the digits [decimal_go] puts in front of [acc] shifts the
    accumulator by that many places and adds [n]. *)
Lemma digits_acc_decimal_go f n acc :
  0 <= n < 2 ^ Z.of_nat f ->
  exists k, 0 <= k /\
    forall a, JS.digits_acc (JS.decimal_go f n acc) a = JS.digits_acc acc (a * 10 ^ k + n).
Proof.
  revert n acc. induction f as [| f IH]; intros n acc Hn.
  - exists 0. split; [lia |]. intros a. simpl in *. f_equal. lia.
  - simpl JS.decimal_go.
    assert (0 <= n mod 10 < 10) as Hm by (apply Z.mod_pos_bound; lia).
    pose proof (Z.div_mod n 10 ltac:(lia)) as Hdm.
    destruct (n / 10 =? 0) eqn:E.
    + apply Z.eqb_eq in E. exists 1. split; [lia |]. intros a.
      simpl. rewrite digit_of_digit_char by assumption. f_equal. lia.
    + assert (0 <= n / 10 < 2 ^ Z.of_nat f) as Hq.
      { split; [apply Z.div_pos; lia |].
        apply Z.div_lt_upper_bound; [lia |].
        rewrite Nat2Z.inj_succ, Z.pow_succ_r in Hn by lia. lia. }
      destruct (IH (n / 10) (String (JS.digit_char (n mod 10)) acc) Hq) as (k & Hk & Hrd).
      exists (Z.succ k). split; [lia |]. intros a.
      rewrite Hrd. simpl. rewrite digit_of_digit_char by assumption.
      f_equal. rewrite Z.pow_succ_r by assumption. lia.
Qed.

Lemma digits_acc_decimal n : 0 <= n -> JS.digits_acc (JS.decimal n) 0 = n.
Proof.
  intros Hn. unfold JS.decimal.
  destruct (digits_acc_decimal_go (S (Z.to_nat (Z.log2 n))) n EmptyString) as (k & _ & Hrd).
  - split; [assumption |].
    rewrite Nat2Z.inj_succ, Z2Nat.id by apply Z.log2_nonneg.
    destruct (Z.eq_dec n 0) as [-> | Hne]; [reflexivity |].
    apply Z.log2_spec. lia.
  - rewrite Hrd. simpl. lia.
Qed.

Lemma parseInt_all_digits s :
  all_digits s = true -> s <> EmptyString -> JS.parseInt s = JS.of_Z (JS.digits_acc s 0).
Proof.
  intros Hs Hne. destruct s as [| c s]; [congruence |].
  simpl in Hs. destruct (JS.digit_of c) as [d |] eqn:Hc; [| discriminate].
  unfold JS.parseInt. simpl JS.trim_start.
  rewrite (digit_not_white _ _ Hc).
  assert (c <> "-"%char) as Hd.
  { intros ->. discriminate Hc. }
  assert (c <> "+"%char) as Hp by (eapply digit_not_plus; eauto).
  assert ((match String c s with
           | String "-" r => (-1, r)
           | String "+" r => (1, r)
           | _ => (1, String c s)
           end) = (1, String c s)) as ->.
  { destruct c as [[] [] [] [] [] [] [] []]; try reflexivity; congruence. }
  unfold JS.parse_digits. rewrite Hc.
  f_equal. destruct (JS.digits_acc (String c s) 0); reflexivity.
Qed.

Lemma parseInt_decimal_any n : 0 <= n -> JS.parseInt (JS.decimal n) = JS.of_Z n.
Proof.
  intros Hn.
  rewrite parseInt_all_digits by (apply decimal_all_digits || apply decimal_nonempty).
  now rewrite digits_acc_decimal.
Qed.

Lemma parseInt_decimal n :
  0 <= n <= JS.MAX_SAFE_INTEGER -> JS.parseInt (JS.decimal n) = JS.Num n.
Proof.
  intros Hn. rewrite parseInt_decimal_any by lia. apply of_Z_safe. lia.
Qed.

Lemma to_string_nonneg n : 0 <= n -> JS.to_string (JS.Num n) = JS.decimal n.
Proof. intros Hn. simpl. destruct (n <? 0) eqn:E; [lia | reflexivity]. Qed.

(** The digits the handler prints are the decimal numeral of the
    number, as [pretty] writes it. *)
Lemma digit_char_pretty n :
  0 <= n -> JS.digit_char (n mod 10) = pretty_N_char (Z.to_N n `mod` 10).
Proof.
  intros Hn.
  assert (Z.to_N n `mod` 10 = Z.to_N (n mod 10))%N as ->.
  { rewrite Z2N.inj_mod by lia. reflexivity. }
  assert (0 <= n mod 10 < 10) as Hm by (apply Z.mod_pos_bound; lia).
  assert (n mod 10 = 0 \/ n mod 10 = 1 \/ n mod 10 = 2 \/ n mod 10 = 3 \/ n mod 10 = 4
          \/ n mod 10 = 5 \/ n mod 10 = 6 \/ n mod 10 = 7 \/ n mod 10 = 8
          \/ n mod 10 = 9) as Hcases by lia.
  repeat (destruct Hcases as [-> | Hcases]; [reflexivity |]).
  rewrite Hcases. reflexivity.
Qed.

Lemma decimal_go_pretty f n acc :
  0 < n < 2 ^ Z.of_nat f ->
  JS.decimal_go f n acc = pretty_N_go (Z.to_N n) acc.
Proof.
  revert n acc. induction f as [| f IH]; intros n acc Hn.
  - simpl in Hn. lia.
  - simpl JS.decimal_go. rewrite pretty_N_go_step by lia.
    rewrite <- digit_char_pretty by lia.
    assert (Z.to_N n `div` 10 = Z.to_N (n / 10))%N as ->.
    { rewrite Z2N.inj_div by lia. reflexivity. }
    destruct (n / 10 =? 0) eqn:E.
    + apply Z.eqb_eq in E. rewrite E. reflexivity.
    + apply Z.eqb_neq in E.
      assert (0 <= n / 10) by (apply Z.div_pos; lia).
      apply IH. split; [lia |].
      apply Z.div_lt_upper_bound; [lia |].
      rewrite Nat2Z.inj_succ, Z.pow_succ_r in Hn by lia. lia.
Qed.

Lemma decimal_pretty n : 0 <= n -> JS.decimal n = pretty (Z.to_N n).
Proof.
  intros Hn. destruct (Z.eq_dec n 0) as [-> | Hne]; [reflexivity |].
  unfold JS.decimal. rewrite decimal_go_pretty.
  - unfold pretty, pretty_N. destruct (decide (Z.to_N n = 0%N)); [lia | reflexivity].
  - split; [lia |].
    rewrite Nat2Z.inj_succ, Z2Nat.id by apply Z.log2_nonneg.
    apply Z.log2_spec. lia.
Qed.

Lemma to_string_pretty n : JS.to_string (JS.Num n) = pretty n.
Proof.
  destruct n as [| p | p]; [reflexivity | |].
  - rewrite to_string_nonneg, decimal_pretty by lia. reflexivity.
  - unfold JS.to_string. change (Z.neg p <? 0) with true. cbv iota.
    rewrite decimal_pretty by lia. reflexivity.
Qed.

(** [split] on a string of digits, and on digits followed by a dash. *)
Lemma split_all_digits s : all_digits s = true -> JS.split "-" s = [s].
Proof.
  induction s as [| c s IH]; intros Hs; [reflexivity |].
  simpl in Hs. destruct (JS.digit_of c) as [d |] eqn:Hc; [| discriminate].
  simpl. rewrite (digit_not_dash _ _ Hc), (IH Hs). reflexivity.
Qed.

Lemma split_digits_dash s rest :
  all_digits s = true ->
  JS.split "-" (s +:+ String "-" rest) = s :: JS.split "-" rest.
Proof.
  induction s as [| c s IH]; intros Hs; [reflexivity |].
  simpl in Hs. destruct (JS.digit_of c) as [d |] eqn:Hc; [| discriminate].
  simpl. rewrite (digit_not_dash _ _ Hc), (IH Hs). reflexivity.
Qed.

End Decimal.

(* ===================================================================== *)
(** ** The [Range] headers a player sends                                *)
(* ===================================================================== *)

Lemma truthy_nonempty s : s <> EmptyString -> JS.truthy (Some s) = true.
Proof. destruct s; [congruence | reflexivity]. Qed.

Lemma range_header_truthy s e : JS.truthy (Some (range_header s e)) = true.
Proof. reflexivity. Qed.

Lemma parse_range_closed_any s e size :
  0 <= s -> 0 <= e ->
  parse_range (range_header s (Some e)) size = (JS.of_Z s, JS.of_Z e).
Proof.
  intros Hs He. unfold parse_range, range_header.
  change (JS.replace "bytes=" EmptyString ("bytes=" +:+ JS.decimal s +:+ "-" +:+ JS.decimal e))
    with (JS.decimal s +:+ String "-" (JS.decimal e)).
  rewrite split_digits_dash by apply decimal_all_digits.
  rewrite split_all_digits by apply decimal_all_digits.
  simpl lookup. simpl default.
  rewrite truthy_nonempty by apply decimal_nonempty.
  now rewrite !parseInt_decimal_any.
Qed.

Lemma parse_range_closed s e size :
  0 <= s <= JS.MAX_SAFE_INTEGER -> 0 <= e <= JS.MAX_SAFE_INTEGER ->
  parse_range (range_header s (Some e)) size = (JS.Num s, JS.Num e).
Proof.
  intros Hs He. unfold parse_range, range_header.
  change (JS.replace "bytes=" EmptyString ("bytes=" +:+ JS.decimal s +:+ "-" +:+ JS.decimal e))
    with (JS.decimal s +:+ String "-" (JS.decimal e)).
  rewrite split_digits_dash by apply decimal_all_digits.
  rewrite split_all_digits by apply decimal_all_digits.
  simpl lookup. simpl default.
  rewrite truthy_nonempty by apply decimal_nonempty.
  now rewrite !parseInt_decimal.
Qed.

Lemma parse_range_open s size :
  0 <= s <= JS.MAX_SAFE_INTEGER ->
  parse_range (range_header s None) size = (JS.Num s, JS.sub size (JS.Num 1)).
Proof.
  intros Hs. unfold parse_range, range_header.
  change (JS.replace "bytes=" EmptyString ("bytes=" +:+ JS.decimal s +:+ "-" +:+ EmptyString))
    with (JS.decimal s +:+ String "-" EmptyString).
  rewrite split_digits_dash by apply decimal_all_digits.
  simpl. now rewrite parseInt_decimal.
Qed.

(* ===================================================================== *)
(** ** The handler, path by path                                         *)
(* ===================================================================== *)

Lemma stream_unknown_id db fs req :
  Db.videos db !! params_id req = None ->
  Db.casts db (params_id req) = true ->
  stream db fs req = fail_with 404 "Video no encontrado".
Proof.
  intros Hv Hc. unfold stream, stream_try, Db.findById_populate. now rewrite Hv, Hc.
Qed.

Lemma stream_bad_id db fs req :
  Db.videos db !! params_id req = None ->
  Db.casts db (params_id req) = false ->
  stream db fs req = fail_with 500 "Error del servidor".
Proof.
  intros Hv Hc. unfold stream, stream_try, Db.findById_populate. now rewrite Hv, Hc.
Qed.

Lemma stream_course_missing db fs req v :
  Db.videos db !! params_id req = Some v ->
  Db.courses db !! Db.course v = None ->
  stream db fs req = fail_with 500 "Error del servidor".
Proof.
  intros Hv Hc. unfold stream, stream_try, Db.findById_populate.
  rewrite Hv. simpl. now rewrite Hc.
Qed.

Lemma stream_denied db fs req v c :
  Db.videos db !! params_id req = Some v ->
  Db.courses db !! Db.course v = Some c ->
  granted c (user req) = false ->
  stream db fs req = fail_with 403 "No tienes acceso a este video".
Proof.
  intros Hv Hc Hg. unfold stream, stream_try, Db.findById_populate.
  rewrite Hv. simpl. rewrite Hc. simpl.
  unfold granted in Hg. apply orb_false_iff in Hg as [-> ->]. reflexivity.
Qed.

(** The read stream is created exactly for the readable pairs. *)
Lemma readable_Num s e :
  readable (JS.Num s) (JS.Num e) = true <-> 0 <= s <= e /\ e <= JS.MAX_SAFE_INTEGER.
Proof.
  unfold readable, Fs.valid_position, JS.gt.
  rewrite !andb_true_iff, negb_true_iff. lia.
Qed.

Lemma readable_Infinity s :
  readable (JS.Num s) JS.Infinity = true <-> 0 <= s <= JS.MAX_SAFE_INTEGER.
Proof.
  unfold readable, Fs.valid_position. rewrite !andb_true_iff. lia.
Qed.

Lemma readable_cases start end_ :
  readable start end_ = true ->
  exists s, start = JS.Num s /\ 0 <= s <= JS.MAX_SAFE_INTEGER
    /\ (end_ = JS.Infinity \/ exists e, end_ = JS.Num e /\ s <= e <= JS.MAX_SAFE_INTEGER).
Proof.
  intros H. destruct start as [| s | |]; try discriminate H.
  exists s. split; [reflexivity |].
  destruct end_ as [| e | |].
  - unfold readable in H. simpl in H. rewrite andb_false_r in H. discriminate.
  - apply readable_Num in H. split; [lia |]. right. exists e. split; [reflexivity | lia].
  - apply readable_Infinity in H. split; [lia | now left].
  - unfold readable in H. simpl in H. rewrite andb_false_r in H. discriminate.
Qed.

Lemma createReadStream_range_Ok fs path start end_ file :
  Fs.createReadStream_range fs path start end_ = Ok file <->
  exists s, start = JS.Num s /\ 0 <= s <= JS.MAX_SAFE_INTEGER /\
    ((end_ = JS.Infinity /\ file = drop (Z.to_nat s) (default [] (fs !! path)))
     \/ exists e, end_ = JS.Num e /\ s <= e <= JS.MAX_SAFE_INTEGER
                  /\ file = Fs.slice (default [] (fs !! path)) s e).
Proof.
  unfold Fs.createReadStream_range, Fs.valid_position, JS.gt. split.
  - destruct start as [| s | |]; try discriminate.
    destruct ((0 <=? s) && (s <=? JS.MAX_SAFE_INTEGER)) eqn:E1; [| discriminate].
    apply andb_true_iff in E1 as [? ?]. cbn [negb].
    destruct end_ as [| e | |]; try discriminate.
    + destruct ((0 <=? e) && (e <=? JS.MAX_SAFE_INTEGER)) eqn:E2; [| discriminate].
      destruct (e <? s) eqn:E3; [discriminate |]. cbn [negb].
      intros [= <-]. exists s. apply andb_true_iff in E2 as [? ?].
      split; [reflexivity |]. split; [lia |]. right. exists e.
      split; [reflexivity |]. split; [lia | reflexivity].
    + intros [= <-]. exists s. split; [reflexivity |]. split; [lia |]. now left.
  - intros (s & -> & Hs & [[-> ->] | (e & -> & He & ->)]).
    + replace (0 <=? s) with true by lia.
      replace (s <=? JS.MAX_SAFE_INTEGER) with true by lia. reflexivity.
    + replace (0 <=? s) with true by lia. replace (s <=? JS.MAX_SAFE_INTEGER) with true by lia.
      replace (0 <=? e) with true by lia. replace (e <=? JS.MAX_SAFE_INTEGER) with true by lia.
      replace (e <? s) with false by lia. reflexivity.
Qed.

Section Granted.

Variables (db : Db.t) (fs : Fs.t) (req : Request).
Variables (v : Db.Video) (c : Db.Course).
Hypothesis Hvideo : Db.videos db !! params_id req = Some v.
Hypothesis Hcourse : Db.courses db !! Db.course v = Some c.
Hypothesis Hgranted : granted c (user req) = true.

Lemma stream_file_missing :
  fs !! Db.filePath v = None ->
  stream db fs req = fail_with 404 "Archivo de video no encontrado".
Proof.
  intros Hf. unfold stream, stream_try, Db.findById_populate.
  rewrite Hvideo. simpl. rewrite Hcourse. simpl.
  unfold granted in Hgranted.
  destruct (existsb _ _); destruct (String.eqb (Db.role (user req)) "admin");
    try discriminate Hgranted; simpl; unfold Fs.existsSync; now rewrite Hf.
Qed.

Variable content : list Byte.byte.
Hypothesis Hfile : fs !! Db.filePath v = Some content.

Let size : JS.number := JS.Num (Z.of_nat (length content)).

(** Past the guards, the handler is its streaming part. *)
Lemma stream_granted :
  stream db fs req =
  if JS.truthy (range req) then
    let '(start, end_) := parse_range (default EmptyString (range req)) size in
    match Fs.createReadStream_range fs (Db.filePath v) start end_ with
    | Ok file =>
        mkOutcome (mkResponse 206 (head_206 v start end_ size) None file)
                  [Db.IncViews (params_id req) 1]
    | Throw => fail_with 500 "Error del servidor"
    end
  else
    mkOutcome (mkResponse 200 (head_200 v size) None content)
              [Db.IncViews (params_id req) 1].
Proof.
  unfold stream, stream_try, Db.findById_populate.
  rewrite Hvideo. cbn [Db.populated_course Db.doc bind]. rewrite Hcourse. cbn [bind].
  assert (negb (existsb (fun studentId => String.eqb studentId (Db._id (user req)))
                        (Db.enrolledStudents c))
          && negb (String.eqb (Db.role (user req)) "admin") = false) as ->.
  { unfold granted in Hgranted. rewrite <- negb_orb, Hgranted. reflexivity. }
  unfold Fs.existsSync, Fs.statSync_size. rewrite Hfile. cbn [negb bind].
  fold size. destruct (JS.truthy (range req)).
  - destruct (parse_range _ size) as [start end_].
    destruct (Fs.createReadStream_range _ _ _ _); reflexivity.
  - unfold Fs.createReadStream. rewrite Hfile. reflexivity.
Qed.

Lemma stream_no_range :
  JS.truthy (range req) = false ->
  stream db fs req =
  mkOutcome (mkResponse 200 (head_200 v size) None content)
            [Db.IncViews (params_id req) 1].
Proof. intros Hr. rewrite stream_granted, Hr. reflexivity. Qed.

Lemma stream_range_ok h s e :
  range req = Some h -> h <> EmptyString ->
  parse_range h size = (JS.Num s, JS.Num e) ->
  0 <= s <= e -> e <= JS.MAX_SAFE_INTEGER ->
  stream db fs req =
  mkOutcome (mkResponse 206 (head_206 v (JS.Num s) (JS.Num e) size) None
                        (Fs.slice content s e))
            [Db.IncViews (params_id req) 1].
Proof.
  intros Hr Hne Hp Hse Hmax.
  rewrite stream_granted, Hr, truthy_nonempty by assumption.
  simpl default. rewrite Hp.
  unfold Fs.createReadStream_range, Fs.valid_position, JS.gt.
  rewrite Hfile.
  replace (0 <=? s) with true by lia. replace (s <=? JS.MAX_SAFE_INTEGER) with true by lia.
  replace (0 <=? e) with true by lia. replace (e <=? JS.MAX_SAFE_INTEGER) with true by lia.
  replace (e <? s) with false by lia.
  reflexivity.
Qed.

(** An [end] that is [Infinity] is no end: the stream reads from [start]
    to the end of the file. *)
Lemma stream_range_endless h s :
  range req = Some h -> h <> EmptyString ->
  parse_range h size = (JS.Num s, JS.Infinity) ->
  0 <= s <= JS.MAX_SAFE_INTEGER ->
  stream db fs req =
  mkOutcome (mkResponse 206 (head_206 v (JS.Num s) JS.Infinity size) None
                        (drop (Z.to_nat s) content))
            [Db.IncViews (params_id req) 1].
Proof.
  intros Hr Hne Hp Hs.
  rewrite stream_granted, Hr, truthy_nonempty by assumption.
  simpl default. rewrite Hp.
  unfold Fs.createReadStream_range, Fs.valid_position.
  rewrite Hfile.
  replace (0 <=? s) with true by lia. replace (s <=? JS.MAX_SAFE_INTEGER) with true by lia.
  reflexivity.
Qed.

Lemma stream_range_throw h start end_ :
  range req = Some h -> h <> EmptyString ->
  parse_range h size = (start, end_) ->
  readable start end_ = false ->
  stream db fs req = fail_with 500 "Error del servidor".
Proof.
  intros Hr Hne Hp Hbad.
  rewrite stream_granted, Hr, truthy_nonempty by assumption.
  simpl default. rewrite Hp.
  destruct (Fs.createReadStream_range fs (Db.filePath v) start end_) as [file |] eqn:E;
    [| reflexivity].
  apply createReadStream_range_Ok in E as (s & -> & Hs & [[-> _] | (e & -> & He & _)]).
  - apply readable_Infinity in Hs. congruence.
  - assert (readable (JS.Num s) (JS.Num e) = true) by (apply readable_Num; lia).
    congruence.
Qed.

End Granted.

(* ===================================================================== *)
(** ** Byte ranges of a file                                             *)
(* ===================================================================== *)

Section Slice.

Variable content : list Byte.byte.

Lemma slice_length s e :
  0 <= s <= e -> e <= Z.of_nat (length content) - 1 ->
  Z.of_nat (length (Fs.slice content s e)) = e - s + 1.
Proof.
  intros Hse He. unfold Fs.slice.
  rewrite length_take, length_drop. lia.
Qed.

Lemma slice_lookup s e (i : nat) :
  0 <= s -> Z.of_nat i <= e - s ->
  Fs.slice content s e !! i = content !! (Z.to_nat s + i)%nat.
Proof.
  intros Hs Hi. unfold Fs.slice.
  rewrite lookup_take_lt by lia. apply lookup_drop.
Qed.

(** Nothing is read at or after the end of the file. *)
Lemma slice_past_end s e :
  Z.of_nat (length content) <= s -> Fs.slice content s e = [].
Proof.
  intros Hs. unfold Fs.slice. rewrite drop_ge by lia. apply take_nil.
Qed.

(** A range that ends at or after the last byte reads to the end. *)
Lemma slice_to_end s e :
  0 <= s -> Z.of_nat (length content) - 1 <= e ->
  Fs.slice content s e = drop (Z.to_nat s) content.
Proof.
  intros Hs He. unfold Fs.slice. apply take_ge. rewrite length_drop. lia.
Qed.

Lemma slice_whole :
  Fs.slice content 0 (Z.of_nat (length content) - 1) = content.
Proof. rewrite slice_to_end by lia. reflexivity. Qed.

(** A range followed by the rest of the file. *)
Lemma slice_then_rest s e :
  0 <= s <= e ->
  (Fs.slice content s e ++ drop (Z.to_nat (e + 1)) content)%list = drop (Z.to_nat s) content.
Proof.
  intros Hse. unfold Fs.slice.
  replace (Z.to_nat (e + 1)) with (Z.to_nat s + Z.to_nat (e - s + 1))%nat by lia.
  rewrite <- drop_drop. apply take_drop.
Qed.

End Slice.

(* ===================================================================== *)
(** ** Every answer of the handler                                       *)
(* ===================================================================== *)

Lemma truthy_Some o : JS.truthy o = true -> exists h, o = Some h /\ h <> EmptyString.
Proof.
  destruct o as [[| c s] |]; try discriminate. intros _. eexists. split; [reflexivity | discriminate].
Qed.

Lemma stream_answer db fs req : answer db fs req (stream db fs req).
Proof.
  destruct (Db.videos db !! params_id req) as [v |] eqn:Hv.
  2:{ destruct (Db.casts db (params_id req)) eqn:Hid.
      - rewrite stream_unknown_id by assumption. now apply answer_unknown.
      - rewrite stream_bad_id by assumption. now apply answer_bad_id. }
  destruct (Db.courses db !! Db.course v) as [c |] eqn:Hc.
  2:{ erewrite stream_course_missing by eassumption. eapply answer_no_course; eassumption. }
  destruct (granted c (user req)) eqn:Hg.
  2:{ erewrite stream_denied by eassumption. econstructor; eassumption. }
  destruct (fs !! Db.filePath v) as [content |] eqn:Hf.
  2:{ erewrite stream_file_missing by eassumption. econstructor; eassumption. }
  destruct (JS.truthy (range req)) eqn:Hr.
  2:{ erewrite stream_no_range by eassumption. econstructor; eassumption. }
  destruct (truthy_Some _ Hr) as (h & Hh & Hne).
  destruct (parse_range h (JS.Num (Z.of_nat (length content)))) as [start end_] eqn:Hp.
  destruct (readable start end_) eqn:Hok.
  - destruct (readable_cases _ _ Hok) as (s & -> & Hs & [-> | (e & -> & He)]).
    + erewrite stream_range_endless; try eassumption.
      eapply answer_endless; eassumption.
    + erewrite stream_range_ok; try eassumption; try lia.
      eapply answer_partial; try eassumption; lia.
  - erewrite stream_range_throw by eassumption.
    eapply answer_bad_range; eassumption.
Qed.

(** The status of an answer is one of five; 416 is not among them. *)
Lemma answer_status db fs req o :
  answer db fs req o ->
  let st := status (response o) in
  st = 200 \/ st = 206 \/ st = 403 \/ st = 404 \/ st = 500.
Proof. intros H. destruct H; simpl; auto 6. Qed.

(* ===================================================================== *)
(** ** Full content: requests without a [Range] header                   *)
(* ===================================================================== *)

(** C4. A request without a [Range] header, for a video whose record,
    course and backing file resolve and whose caller is enrolled or an
    administrator, is answered with status 200, with [Content-Length]
    the length of the file on disk (whatever it is, 0 included) and
    [Content-Type] the content type of the record (['video/mp4'] when the
    record has none), and the body is the whole file. *)
Theorem full_content_without_range db fs req v c content :
  Db.videos db !! params_id req = Some v ->
  Db.courses db !! Db.course v = Some c ->
  granted c (user req) = true ->
  fs !! Db.filePath v = Some content ->
  range req = None ->
  let r := response (stream db fs req) in
  status r = 200
  /\ headers r = [ ("Content-Length", HNum (JS.Num (Z.of_nat (length content))));
                   ("Content-Type", HStr (content_type v)) ]
  /\ (forall m, Db.mimeType v = Some m -> m <> EmptyString ->
        header "Content-Type" (headers r) = Some (HStr m))
  /\ body r = content.
Proof.
  intros Hv Hc Hg Hf Hr r. subst r.
  rewrite (stream_no_range db fs req v c Hv Hc Hg content Hf) by (rewrite Hr; reflexivity).
  cbn [response status headers body head_200].
  split; [reflexivity |]. split; [reflexivity |]. split; [| reflexivity].
  intros m Hm Hne. unfold head_200, content_type. rewrite Hm.
  destruct m; [congruence | reflexivity].
Qed.

Lemma full_content_without_range_witness :
  let r := response (stream Sample.db Sample.fs (Sample.get "v1" Sample.alice None)) in
  status r = 200
  /\ headers r = [ ("Content-Length", HNum (JS.Num (Z.of_nat (length (Sample.bytes_upto 100)))));
                   ("Content-Type", HStr (content_type
                      (Db.mkVideo "/uploads/videos/a.mp4" 100 (Some "video/webm") "c1" 7))) ]
  /\ (forall m, Db.mimeType (Db.mkVideo "/uploads/videos/a.mp4" 100 (Some "video/webm") "c1" 7)
                = Some m -> m <> EmptyString ->
        header "Content-Type" (headers r) = Some (HStr m))
  /\ body r = Sample.bytes_upto 100.
Proof.
  apply (full_content_without_range Sample.db Sample.fs
           (Sample.get "v1" Sample.alice None)
           (Db.mkVideo "/uploads/videos/a.mp4" 100 (Some "video/webm") "c1" 7)
           (Db.mkCourse "Rocq" ["u1"; "u2"])
           (Sample.bytes_upto 100)); reflexivity.
Defined.

(* ===================================================================== *)
(** ** Partial content: ranges inside the file                           *)
(* ===================================================================== *)

Lemma parse_range_empty size s e : parse_range EmptyString size <> (JS.Num s, JS.Num e).
Proof. discriminate. Qed.

(** The headers of a 206 answer whose positions are inside the safe
    integers, with the numbers written out in decimal. *)
Lemma head_206_in_bounds v s e size :
  0 <= s <= e -> e <= JS.MAX_SAFE_INTEGER ->
  head_206 v (JS.Num s) (JS.Num e) (JS.Num size) =
  [ ("Content-Range",
     HStr ("bytes " +:+ pretty s +:+ "-" +:+ pretty e +:+ "/" +:+ pretty size));
    ("Accept-Ranges", HStr "bytes");
    ("Content-Length", HNum (JS.Num (e - s + 1)));
    ("Content-Type", HStr (content_type v)) ].
Proof.
  intros Hse He. unfold head_206.
  rewrite chunksize_safe, !to_string_pretty by lia. reflexivity.
Qed.

(** The headers of a 206 answer to a range without end. *)
Lemma head_206_endless v s size :
  head_206 v (JS.Num s) JS.Infinity (JS.Num size) =
  [ ("Content-Range", HStr ("bytes " +:+ pretty s +:+ "-Infinity/" +:+ pretty size));
    ("Accept-Ranges", HStr "bytes");
    ("Content-Length", HNum JS.Infinity);
    ("Content-Type", HStr (content_type v)) ].
Proof. unfold head_206. rewrite chunksize_endless, !to_string_pretty. reflexivity. Qed.

Lemma content_type_given v m :
  Db.mimeType v = Some m -> m <> EmptyString -> content_type v = m.
Proof.
  intros Hm Hne. unfold content_type. rewrite Hm. destruct m; [congruence | reflexivity].
Qed.

Lemma content_type_default v :
  Db.mimeType v = None \/ Db.mimeType v = Some EmptyString ->
  content_type v = "video/mp4".
Proof. unfold content_type. intros [-> | ->]; reflexivity. Qed.

(** C3. A request whose [Range] header parses to [start] and [end] with
    [0 <= start <= end <= length - 1] ([end] being [length - 1] when the
    header omits it) is answered with status 206 and the headers
    [Content-Range: bytes <start>-<end>/<length>], the three numbers in
    decimal, [Accept-Ranges: bytes], [Content-Length: end - start + 1]
    and [Content-Type], the content type of the record (['video/mp4']
    when it has none or an empty one); the body is exactly the bytes at
    offsets [start .. end] of the file, and a range of one byte
    ([start = end]) has [Content-Length] 1. *)
Theorem partial_content_in_bounds db fs req v c content h s e :
  Db.videos db !! params_id req = Some v ->
  Db.courses db !! Db.course v = Some c ->
  granted c (user req) = true ->
  fs !! Db.filePath v = Some content ->
  Z.of_nat (length content) <= JS.MAX_SAFE_INTEGER ->
  range req = Some h ->
  parse_range h (JS.Num (Z.of_nat (length content))) = (JS.Num s, JS.Num e) ->
  0 <= s <= e -> e <= Z.of_nat (length content) - 1 ->
  let r := response (stream db fs req) in
  status r = 206
  /\ headers r =
       [ ("Content-Range",
          HStr ("bytes " +:+ pretty s +:+ "-" +:+ pretty e
                +:+ "/" +:+ pretty (Z.of_nat (length content))));
         ("Accept-Ranges", HStr "bytes");
         ("Content-Length", HNum (JS.Num (e - s + 1)));
         ("Content-Type",
          HStr match Db.mimeType v with
               | Some (String a m) => String a m
               | _ => "video/mp4"
               end) ]
  /\ body r = Fs.slice content s e
  /\ Z.of_nat (length (body r)) = e - s + 1
  /\ (forall i : nat, Z.of_nat i <= e - s -> body r !! i = content !! (Z.to_nat s + i)%nat)
  /\ (s = e -> header "Content-Length" (headers r) = Some (HNum (JS.Num 1)))
  /\ (forall m, Db.mimeType v = Some m -> m <> EmptyString ->
        header "Content-Type" (headers r) = Some (HStr m)).
Proof.
  intros Hv Hc Hg Hf Hmax Hr Hp Hse He r. subst r.
  assert (h <> EmptyString) as Hne.
  { intros ->. exact (parse_range_empty _ _ _ Hp). }
  rewrite (stream_range_ok db fs req v c Hv Hc Hg content Hf h s e Hr Hne Hp Hse) by lia.
  cbn [response status headers body].
  rewrite head_206_in_bounds by lia.
  split; [reflexivity |].
  split.
  { unfold content_type, JS.or_default, JS.truthy.
    destruct (Db.mimeType v) as [[| a m] |]; reflexivity. }
  split; [reflexivity |]. split; [apply slice_length; lia |].
  split; [intros i Hi; apply slice_lookup; lia |].
  split; [intros ->; cbn; do 3 f_equal; lia |].
  intros m Hm Hne'. cbn. now rewrite (content_type_given v m).
Qed.

Lemma partial_content_in_bounds_witness :
  let r := response (stream Sample.db Sample.fs
                       (Sample.get "v1" Sample.alice (Some "bytes=10-19"))) in
  let r1 := response (stream Sample.db Sample.fs
                        (Sample.get "v5" Sample.root (Some "bytes=0-0"))) in
  let r2 := response (stream Sample.db Sample.fs
                        (Sample.get "v1" Sample.alice (Some "bytes=90-"))) in
  (status r = 206
   /\ headers r = [ ("Content-Range", HStr "bytes 10-19/100");
                    ("Accept-Ranges", HStr "bytes");
                    ("Content-Length", HNum (JS.Num 10));
                    ("Content-Type", HStr "video/webm") ]
   /\ body r = Fs.slice (Sample.bytes_upto 100) 10 19
   /\ length (body r) = 10%nat)
  /\ (status r1 = 206
      /\ headers r1 = [ ("Content-Range", HStr "bytes 0-0/100");
                        ("Accept-Ranges", HStr "bytes");
                        ("Content-Length", HNum (JS.Num 1));
                        ("Content-Type", HStr "video/mp4") ]
      /\ header "Content-Length" (headers r1) = Some (HNum (JS.Num 1))
      /\ length (body r1) = 1%nat)
  /\ (status r2 = 206
      /\ headers r2 = [ ("Content-Range", HStr "bytes 90-99/100");
                        ("Accept-Ranges", HStr "bytes");
                        ("Content-Length", HNum (JS.Num 10));
                        ("Content-Type", HStr "video/webm") ]
      /\ body r2 = Fs.slice (Sample.bytes_upto 100) 90 99).
Proof.
  pose (v := Db.mkVideo "/uploads/videos/a.mp4" 100 (Some "video/webm") "c1" 7).
  pose (v5 := Db.mkVideo "/uploads/videos/a.mp4" 64 (Some EmptyString) "c1" 41).
  pose (c := Db.mkCourse "Rocq" ["u1"; "u2"]).
  split; [| split].
  - destruct (partial_content_in_bounds Sample.db Sample.fs
                (Sample.get "v1" Sample.alice (Some "bytes=10-19"))
                v c (Sample.bytes_upto 100) "bytes=10-19" 10 19)
      as (Hst & Hh & Hb & Hlen & _); [sample .. |].
    split; [exact Hst |]. split; [exact Hh |]. split; [exact Hb |].
    apply Nat2Z.inj. exact Hlen.
  - destruct (partial_content_in_bounds Sample.db Sample.fs
                (Sample.get "v5" Sample.root (Some "bytes=0-0"))
                v5 c (Sample.bytes_upto 100) "bytes=0-0" 0 0)
      as (Hst & Hh & _ & Hlen & _ & Hone & _); [sample .. |].
    split; [exact Hst |]. split; [exact Hh |].
    split; [apply Hone; reflexivity |].
    apply Nat2Z.inj. exact Hlen.
  - destruct (partial_content_in_bounds Sample.db Sample.fs
                (Sample.get "v1" Sample.alice (Some "bytes=90-"))
                v c (Sample.bytes_upto 100) "bytes=90-" 90 99)
      as (Hst & Hh & Hb & _); [sample .. |].
    split; [exact Hst |]. split; [exact Hh |]. exact Hb.
Defined.

(* ===================================================================== *)
(** ** Reassembling a file from consecutive ranges                       *)
(* ===================================================================== *)

Lemma parse_range_header size s e :
  0 <= s <= resolve_end size e -> resolve_end size e <= JS.MAX_SAFE_INTEGER ->
  parse_range (range_header s e) (JS.Num size) = (JS.Num s, JS.Num (resolve_end size e)).
Proof.
  intros Hse Hmax. destruct e as [e |]; simpl in *.
  - apply parse_range_closed; lia.
  - rewrite parse_range_open, sub_safe by lia. reflexivity.
Qed.

Lemma serve_all_cons db fs req rest :
  fst (serve_all db fs (req :: rest)) =
  response (stream db fs req)
    :: fst (serve_all (Db.apply_all (detached (stream db fs req)) db) fs rest).
Proof.
  simpl. unfold serve. destruct (serve_all _ fs rest). reflexivity.
Qed.

Lemma inc_views_lookup db id n v :
  Db.videos db !! id = Some v ->
  Db.videos (Db.apply (Db.IncViews id n) db) !! id = Some (Db.inc_views n v).
Proof. intros Hv. simpl. rewrite lookup_alter_eq, Hv. reflexivity. Qed.

Lemma inc_views_lookup_ne db id id' n :
  id <> id' ->
  Db.videos (Db.apply (Db.IncViews id n) db) !! id' = Db.videos db !! id'.
Proof. intros Hne. simpl. now rewrite lookup_alter_ne. Qed.

Section Reassemble.

Variables (fs : Fs.t) (id : string) (u : Db.User) (c : Db.Course).
Variables (path : string) (content : list Byte.byte).
Hypothesis Hgranted : granted c u = true.
Hypothesis Hfile : fs !! path = Some content.
Hypothesis Hsize : Z.of_nat (length content) <= JS.MAX_SAFE_INTEGER.

Let size : Z := Z.of_nat (length content).

Lemma serve_ranges rs : forall db v from,
  Db.videos db !! id = Some v ->
  Db.courses db !! Db.course v = Some c ->
  Db.filePath v = path ->
  0 <= from ->
  partitions size from rs = true ->
  let resps := fst (serve_all db fs (range_requests id u rs)) in
  Forall (fun r => status r = 206) resps
  /\ length resps = length rs
  /\ concat (map body resps) = drop (Z.to_nat from) content.
Proof.
  induction rs as [| [s e] rest IH]; intros db v from Hv Hc Hp Hfrom Hpart.
  - simpl in *. apply Z.eqb_eq in Hpart. subst from.
    split; [constructor |]. split; [reflexivity |].
    subst size. rewrite Nat2Z.id, drop_all. reflexivity.
  - cbn [partitions] in Hpart.
    repeat (apply andb_true_iff in Hpart as [Hpart ?]).
    apply Z.eqb_eq in Hpart. subst s.
    set (e' := resolve_end size e) in *.
    assert (from <= e') by lia. assert (e' <= size - 1) by lia.
    cbn [range_requests map]. cbv zeta. rewrite serve_all_cons.
    set (req := mkRequest id u (Some (range_header from e))).
    assert (stream db fs req =
            mkOutcome (mkResponse 206
                         (head_206 v (JS.Num from) (JS.Num e') (JS.Num size))
                         None (Fs.slice content from e'))
                      [Db.IncViews id 1]) as Hstream.
    { apply (stream_range_ok db fs req v c Hv Hc Hgranted content
               ltac:(rewrite Hp; exact Hfile) (range_header from e) from e').
      - reflexivity.
      - discriminate.
      - apply parse_range_header; subst e' size; lia.
      - lia.
      - subst size. lia. }
    rewrite Hstream. cbn [response detached Db.apply_all fold_left].
    destruct (IH (Db.apply (Db.IncViews id 1) db) (Db.inc_views 1 v) (e' + 1))
      as (Hall & Hlen & Hcat).
    + now apply inc_views_lookup.
    + exact Hc.
    + exact Hp.
    + lia.
    + assumption.
    + split; [constructor; [reflexivity | exact Hall] |].
      split; [simpl; f_equal; exact Hlen |].
      cbn [map concat body]. fold (range_requests id u rest). rewrite Hcat.
      apply slice_then_rest. lia.
Qed.

End Reassemble.

(** C6. For a file of length L and consecutive requests whose ranges,
    in order, are inside the file, do not overlap and cover [0, L-1]
    (the header of each giving its end, or leaving it out to mean the
    last byte), every request is answered 206 and the bodies,
    concatenated in that order, are exactly the bytes of the file. The
    requests are served one after the other, each on the database the
    previous one left. *)
Theorem range_bodies_reassemble db fs id u v c content rs :
  Db.videos db !! id = Some v ->
  Db.courses db !! Db.course v = Some c ->
  granted c u = true ->
  fs !! Db.filePath v = Some content ->
  Z.of_nat (length content) <= JS.MAX_SAFE_INTEGER ->
  partitions (Z.of_nat (length content)) 0 rs = true ->
  let resps := fst (serve_all db fs (range_requests id u rs)) in
  Forall (fun r => status r = 206) resps
  /\ length resps = length rs
  /\ concat (map body resps) = content.
Proof.
  intros Hv Hc Hg Hf Hmax Hpart.
  exact (serve_ranges fs id u c (Db.filePath v) content Hg Hf Hmax rs db v 0
           Hv Hc eq_refl ltac:(lia) Hpart).
Qed.

Lemma range_bodies_reassemble_witness :
  let rs := [(0, Some 0); (1, Some 49); (50, Some 98); (99, None)] in
  let resps := fst (serve_all Sample.db Sample.fs (range_requests "v1" Sample.alice rs)) in
  Forall (fun r => status r = 206) resps
  /\ length resps = length rs
  /\ concat (map body resps) = Sample.bytes_upto 100.
Proof.
  apply (range_bodies_reassemble Sample.db Sample.fs "v1" Sample.alice
           (Db.mkVideo "/uploads/videos/a.mp4" 100 (Some "video/webm") "c1" 7)
           (Db.mkCourse "Rocq" ["u1"; "u2"])
           (Sample.bytes_upto 100)); sample.
Defined.

(* ===================================================================== *)
(** ** Not found                                                         *)
(* ===================================================================== *)




(* ===================================================================== *)
(** ** Access denied                                                     *)
(* ===================================================================== *)

Lemma some_student_In x l :
  existsb (fun studentId => String.eqb studentId x) l = true <-> In x l.
Proof.
  rewrite existsb_exists. split.
  - intros (y & Hy & Heq). apply String.eqb_eq in Heq. now subst y.
  - intros Hx. exists x. split; [assumption | apply String.eqb_refl].
Qed.

Lemma not_granted c u :
  ~ In (Db._id u) (Db.enrolledStudents c) -> Db.role u <> "admin" ->
  granted c u = false.
Proof.
  intros Hin Hrole. unfold granted. apply orb_false_iff. split.
  - destruct (existsb _ _) eqn:E; [| reflexivity].
    apply some_student_In in E. contradiction.
  - now apply String.eqb_neq.
Qed.

(** C10. A request of an authenticated user who is not among the
    enrolled students of the video's course and whose role is not
    ['admin'] is answered 403; no bytes of the file are streamed, no
    write is started, and the database, view counter included, is as it
    was. *)
Theorem neither_enrolled_nor_admin_is_403 db fs req v c :
  Db.videos db !! params_id req = Some v ->
  Db.courses db !! Db.course v = Some c ->
  ~ In (Db._id (user req)) (Db.enrolledStudents c) ->
  Db.role (user req) <> "admin" ->
  let o := stream db fs req in
  status (response o) = 403
  /\ body (response o) = []
  /\ detached o = []
  /\ snd (serve db fs req) = db
  /\ Db.videos (snd (serve db fs req)) !! params_id req = Some v.
Proof.
  intros Hv Hc Hin Hrole o. subst o. unfold serve. cbn [snd].
  rewrite (stream_denied db fs req v c Hv Hc (not_granted c (user req) Hin Hrole)).
  cbn. repeat split. exact Hv.
Qed.

Lemma neither_enrolled_nor_admin_is_403_witness :
  let req := Sample.get "v1" Sample.mallory (Some "bytes=0-9") in
  let o := stream Sample.db Sample.fs req in
  status (response o) = 403
  /\ body (response o) = []
  /\ detached o = []
  /\ snd (serve Sample.db Sample.fs req) = Sample.db
  /\ Db.videos (snd (serve Sample.db Sample.fs req)) !! params_id req
     = Some (Db.mkVideo "/uploads/videos/a.mp4" 100 (Some "video/webm") "c1" 7).
Proof.
  apply (neither_enrolled_nor_admin_is_403 Sample.db Sample.fs
           (Sample.get "v1" Sample.mallory (Some "bytes=0-9"))
           (Db.mkVideo "/uploads/videos/a.mp4" 100 (Some "video/webm") "c1" 7)
           (Db.mkCourse "Rocq" ["u1"; "u2"])).
  - reflexivity.
  - reflexivity.
  - simpl. intros [H | [H | []]]; discriminate H.
  - discriminate.
Defined.

(* ===================================================================== *)
(** ** The default content type                                          *)
(* ===================================================================== *)

(** C9. When the record of the video has no content type, or an empty
    one, both successful answers, 200 and 206, carry
    [Content-Type: video/mp4]. *)
Theorem default_content_type db fs req v :
  Db.videos db !! params_id req = Some v ->
  Db.mimeType v = None \/ Db.mimeType v = Some EmptyString ->
  let r := response (stream db fs req) in
  status r = 200 \/ status r = 206 ->
  header "Content-Type" (headers r) = Some (HStr "video/mp4").
Proof.
  intros Hv Hm r Hst. subst r.
  assert (content_type v = "video/mp4") as Hct.
  { unfold content_type. destruct Hm as [-> | ->]; reflexivity. }
  destruct (stream_answer db fs req) as
    [ | | | | | v' c content Hv' | v' c content h s e Hv' | v' c content h s Hv' | ];
    cbn in Hst; try (destruct Hst; discriminate).
  - assert (v' = v) as -> by congruence.
    cbn [response headers]. unfold head_200. cbn. now rewrite Hct.
  - assert (v' = v) as -> by congruence.
    cbn [response headers]. unfold head_206. cbn. now rewrite Hct.
  - assert (v' = v) as -> by congruence.
    cbn [response headers]. unfold head_206. cbn. now rewrite Hct.
Qed.

Lemma default_content_type_witness :
  header "Content-Type"
    (headers (response (stream Sample.db Sample.fs (Sample.get "v5" Sample.alice None))))
  = Some (HStr "video/mp4")
  /\ header "Content-Type"
       (headers (response (stream Sample.db Sample.fs
                             (Sample.get "v5" Sample.root (Some "bytes=3-8")))))
     = Some (HStr "video/mp4")
  /\ header "Content-Type"
       (headers (response (stream Sample.db Sample.fs (Sample.get "v2" Sample.alice None))))
     = Some (HStr "video/mp4").
Proof.
  split; [| split].
  - apply (default_content_type Sample.db Sample.fs (Sample.get "v5" Sample.alice None)
             (Db.mkVideo "/uploads/videos/a.mp4" 64 (Some EmptyString) "c1" 41)).
    + reflexivity.
    + right. reflexivity.
    + left. reflexivity.
  - apply (default_content_type Sample.db Sample.fs
             (Sample.get "v5" Sample.root (Some "bytes=3-8"))
             (Db.mkVideo "/uploads/videos/a.mp4" 64 (Some EmptyString) "c1" 41)).
    + reflexivity.
    + right. reflexivity.
    + right. reflexivity.
  - apply (default_content_type Sample.db Sample.fs (Sample.get "v2" Sample.alice None)
             (Db.mkVideo "/uploads/videos/empty.mp4" 0 None "c1" 0)).
    + reflexivity.
    + left. reflexivity.
    + left. reflexivity.
Defined.

(* ===================================================================== *)
(** ** The view counter                                                  *)
(* ===================================================================== *)

Lemma serve_db db fs req :
  snd (serve db fs req) = Db.apply_all (detached (stream db fs req)) db.
Proof. reflexivity. Qed.

(** Increments are atomic updates of one field, so any number of them,
    whatever the order in which the database carries them out, add up. *)
Lemma inc_views_many (n : nat) db id v :
  Db.videos db !! id = Some v ->
  Db.videos (Db.apply_all (repeat (Db.IncViews id 1) n) db) !! id
  = Some (Db.inc_views (Z.of_nat n) v).
Proof.
  revert db v. induction n as [| n IH]; intros db v Hv.
  - simpl. rewrite Hv. destruct v; unfold Db.inc_views; simpl. do 2 f_equal. lia.
  - cbn [repeat Db.apply_all fold_left].
    change (fold_left (fun d u => Db.apply u d) (repeat (Db.IncViews id 1) n)
              (Db.apply (Db.IncViews id 1) db))
      with (Db.apply_all (repeat (Db.IncViews id 1) n) (Db.apply (Db.IncViews id 1) db)).
    rewrite (IH _ (Db.inc_views 1 v)) by now apply inc_views_lookup.
    destruct v; unfold Db.inc_views; simpl. do 2 f_equal. lia.
Qed.

(** C8. A request answered 200 or 206 starts exactly one write, the
    increment by 1 of the views of the requested video; the answer is
    complete without it, and once it is carried out the counter of that
    video is one more than before and no other record has changed. A
    request answered with any other status (404, 403, 416, 500) starts
    no write and leaves the database as it was. *)
Theorem view_counter db fs req :
  let o := stream db fs req in
  let db' := snd (serve db fs req) in
  (status (response o) = 200 \/ status (response o) = 206 ->
     detached o = [Db.IncViews (params_id req) 1]
     /\ exists v,
          Db.videos db !! params_id req = Some v
          /\ Db.videos db' !! params_id req = Some (Db.inc_views 1 v)
          /\ Db.views (Db.inc_views 1 v) = Db.views v + 1
          /\ (forall id', id' <> params_id req ->
                Db.videos db' !! id' = Db.videos db !! id')
          /\ Db.courses db' = Db.courses db)
  /\ (status (response o) <> 200 /\ status (response o) <> 206 ->
        detached o = [] /\ db' = db).
Proof.
  intros o db'. subst o db'. rewrite serve_db.
  assert (forall v,
            Db.videos db !! params_id req = Some v ->
            exists v0,
              Db.videos db !! params_id req = Some v0
              /\ Db.videos (Db.apply_all [Db.IncViews (params_id req) 1] db) !! params_id req
                 = Some (Db.inc_views 1 v0)
              /\ Db.views (Db.inc_views 1 v0) = Db.views v0 + 1
              /\ (forall id', id' <> params_id req ->
                    Db.videos (Db.apply_all [Db.IncViews (params_id req) 1] db) !! id'
                    = Db.videos db !! id')
              /\ Db.courses (Db.apply_all [Db.IncViews (params_id req) 1] db)
                 = Db.courses db) as Hinc.
  { intros v Hv. cbn [Db.apply_all fold_left]. exists v.
    split; [exact Hv |]. split; [now apply inc_views_lookup |].
    split; [reflexivity |]. split; [| reflexivity].
    intros id' Hne. apply inc_views_lookup_ne. congruence. }
  destruct (stream_answer db fs req) as
    [ | | | | | v c content Hv | v c content h s e Hv | v c content h s Hv | ];
    (split; [intros Hst | intros [Hn200 Hn206]]);
    cbn [fail_with response status detached] in *;
    try (destruct Hst; discriminate);
    try (split; reflexivity);
    try congruence.
  - split; [reflexivity | exact (Hinc v Hv)].
  - split; [reflexivity | exact (Hinc v Hv)].
  - split; [reflexivity | exact (Hinc v Hv)].
Qed.

Lemma view_counter_witness :
  let req := Sample.get "v1" Sample.alice (Some "bytes=0-9") in
  let db' := snd (serve Sample.db Sample.fs req) in
  detached (stream Sample.db Sample.fs req) = [Db.IncViews "v1" 1]
  /\ (Db.views <$> Db.videos Sample.db !! "v1") = Some 7
  /\ (Db.views <$> Db.videos db' !! "v1") = Some 8
  /\ detached (stream Sample.db Sample.fs (Sample.get "v1" Sample.mallory None)) = [].
Proof.
  intros req db'.
  destruct (view_counter Sample.db Sample.fs req) as [Hok _].
  destruct (Hok ltac:(right; reflexivity)) as (Hd & v & Hv & Hv' & Hviews & _).
  destruct (view_counter Sample.db Sample.fs (Sample.get "v1" Sample.mallory None))
    as [_ Herr].
  destruct (Herr ltac:(split; discriminate)) as [Hnone _].
  split; [exact Hd |]. split; [reflexivity |]. split; [| exact Hnone].
  subst db' req. cbn [params_id Sample.get] in Hv, Hv'. rewrite Hv'.
  assert (v = Db.mkVideo "/uploads/videos/a.mp4" 100 (Some "video/webm") "c1" 7) as ->.
  { vm_compute in Hv. congruence. }
  reflexivity.
Defined.

(* ===================================================================== *)
(** ** Ranges outside the file                                           *)
(* ===================================================================== *)

Lemma decimal_head n :
  exists ch rest d, JS.decimal n = String ch rest /\ JS.digit_of ch = Some d.
Proof.
  pose proof (decimal_all_digits n) as Hd. pose proof (decimal_nonempty n) as Hne.
  destruct (JS.decimal n) as [| ch rest]; [congruence |].
  simpl in Hd. destruct (JS.digit_of ch) as [d |] eqn:E; [| discriminate].
  now exists ch, rest, d.
Qed.

Lemma header_head name x hs : header name ((name, x) :: hs) = Some x.
Proof. simpl. now rewrite String.eqb_refl. Qed.

(** A [Content-Range] that announces a range never reads [bytes */...]. *)
Lemma content_range_not_star s tail tail' :
  0 <= s ->
  "bytes " +:+ pretty s +:+ tail <> "bytes */" +:+ tail'.
Proof.
  intros Hs. rewrite <- to_string_pretty, to_string_nonneg by assumption.
  destruct (decimal_head s) as (ch & rest & d & -> & Hd).
  simpl. intros [= ->]. discriminate Hd.
Qed.

(** What a non-empty [Range] header is answered once the record, the
    course and the file are found and the caller has access: 206 with
    the range as parsed when the read stream takes it, whether it has an
    end or not, and 500 when it does not. *)
Lemma range_verdict db fs req v c content h start end_ :
  Db.videos db !! params_id req = Some v ->
  Db.courses db !! Db.course v = Some c ->
  granted c (user req) = true ->
  fs !! Db.filePath v = Some content ->
  Z.of_nat (length content) <= JS.MAX_SAFE_INTEGER ->
  range req = Some h -> h <> EmptyString ->
  parse_range h (JS.Num (Z.of_nat (length content))) = (start, end_) ->
  let o := stream db fs req in
  let r := response o in
  (forall s e, start = JS.Num s -> end_ = JS.Num e ->
     0 <= s <= e -> e <= JS.MAX_SAFE_INTEGER ->
     status r = 206
     /\ header "Content-Range" (headers r)
        = Some (HStr ("bytes " +:+ pretty s +:+ "-" +:+ pretty e
                      +:+ "/" +:+ pretty (Z.of_nat (length content))))
     /\ header "Content-Length" (headers r) = Some (HNum (JS.Num (e - s + 1)))
     /\ body r = Fs.slice content s e
     /\ detached o = [Db.IncViews (params_id req) 1])
  /\ (forall s, start = JS.Num s -> end_ = JS.Infinity ->
        0 <= s <= JS.MAX_SAFE_INTEGER ->
        status r = 206
        /\ header "Content-Range" (headers r)
           = Some (HStr ("bytes " +:+ pretty s +:+ "-Infinity/"
                         +:+ pretty (Z.of_nat (length content))))
        /\ header "Content-Length" (headers r) = Some (HNum JS.Infinity)
        /\ body r = drop (Z.to_nat s) content
        /\ detached o = [Db.IncViews (params_id req) 1])
  /\ (readable start end_ = false ->
        status r = 500
        /\ json r = Some (false, "Error del servidor")
        /\ body r = []
        /\ detached o = [])
  /\ status r <> 416
  /\ header "Content-Range" (headers r)
     <> Some (HStr ("bytes */" +:+ pretty (Z.of_nat (length content)))).
Proof.
  intros Hv Hc Hg Hf _ Hr Hne Hp o r. subst r o.
  destruct (readable start end_) eqn:Hok.
  - destruct (readable_cases _ _ Hok) as (s & -> & Hs & [-> | (e & -> & He)]).
    + rewrite (stream_range_endless db fs req v c Hv Hc Hg content Hf h s Hr Hne Hp Hs).
      cbn [response status headers body detached json].
      rewrite head_206_endless, header_head.
      split; [intros s' e' _ He'; discriminate He' |].
      split; [intros s' [= <-] _ _; repeat split; reflexivity |].
      split; [discriminate |]. split; [discriminate |].
      intros Heq.
      apply (content_range_not_star s
               ("-Infinity/" +:+ pretty (Z.of_nat (length content)))
               (pretty (Z.of_nat (length content)))); [lia | congruence].
    + rewrite (stream_range_ok db fs req v c Hv Hc Hg content Hf h s e Hr Hne Hp)
        by lia.
      cbn [response status headers body detached json].
      rewrite head_206_in_bounds, header_head by lia.
      split; [intros s' e' [= <-] [= <-] _ _; repeat split; reflexivity |].
      split; [intros s' _ He'; discriminate He' |].
      split; [discriminate |]. split; [discriminate |].
      intros Heq.
      apply (content_range_not_star s
               ("-" +:+ pretty e +:+ "/" +:+ pretty (Z.of_nat (length content)))
               (pretty (Z.of_nat (length content)))); [lia | congruence].
  - rewrite (stream_range_throw db fs req v c Hv Hc Hg content Hf h start end_
               Hr Hne Hp Hok).
    cbn [fail_with response status headers body detached json header].
    split.
    { intros s e -> -> Hse He.
      assert (readable (JS.Num s) (JS.Num e) = true) by (apply readable_Num; lia).
      congruence. }
    split.
    { intros s -> -> Hs.
      assert (readable (JS.Num s) JS.Infinity = true) by (apply readable_Infinity; lia).
      congruence. }
    split; [intros _; repeat split; reflexivity |].
    split; discriminate.
Qed.

(** A [start] that is unparsable, greater than [end], or at or past the
    length of the file leaves nothing to read. *)
Lemma nothing_to_read content start end_ :
  (start = JS.NaN \/ JS.gt start end_ = true \/ start = JS.Infinity
   \/ exists s, start = JS.Num s /\ Z.of_nat (length content) <= s) ->
  (forall s e, start = JS.Num s -> end_ = JS.Num e -> 0 <= s <= e ->
     Fs.slice content s e = [])
  /\ (forall s, start = JS.Num s -> end_ = JS.Infinity -> 0 <= s ->
        drop (Z.to_nat s) content = []).
Proof.
  intros Hbad. split.
  - intros s e -> -> Hse. apply slice_past_end.
    destruct Hbad as [H | [H | [H | (s' & [= <-] & H)]]];
      [discriminate | simpl in H; lia | discriminate | assumption].
  - intros s -> -> Hs. apply drop_ge.
    destruct Hbad as [H | [H | [H | (s' & [= <-] & H)]]];
      [discriminate | discriminate | discriminate | lia].
Qed.

(** C1, as the code has it. The handler has no 416 answer. For a
    non-empty [Range] header whose [start] is unparsable, or greater
    than [end], or at or past the length of the file, no bytes of the
    file are streamed, the status is never 416 and no
    [Content-Range: bytes */<length>] is sent. When [start] is an
    integer of [0, 2^53-1] (so it is at or past the length) and [end] is
    an integer of [start, 2^53-1], the answer is 206 with
    [Content-Range: bytes <start>-<end>/<length>] and
    [Content-Length: end - start + 1]; when [end] is so large that it
    parses to [Infinity], the answer is 206 with
    [Content-Range: bytes <start>-Infinity/<length>] and
    [Content-Length: Infinity]; both count a view. In every other case
    the read stream cannot be created: the answer is 500 with the
    message [Error del servidor], and no view is counted. (The file
    has fewer than 2^53 bytes.) *)
Theorem unsatisfiable_range_is_not_rejected db fs req v c content h start end_ :
  Db.videos db !! params_id req = Some v ->
  Db.courses db !! Db.course v = Some c ->
  granted c (user req) = true ->
  fs !! Db.filePath v = Some content ->
  Z.of_nat (length content) <= JS.MAX_SAFE_INTEGER ->
  range req = Some h -> h <> EmptyString ->
  parse_range h (JS.Num (Z.of_nat (length content))) = (start, end_) ->
  (start = JS.NaN \/ JS.gt start end_ = true \/ start = JS.Infinity
   \/ exists s, start = JS.Num s /\ Z.of_nat (length content) <= s) ->
  let o := stream db fs req in
  let r := response o in
  status r <> 416
  /\ header "Content-Range" (headers r)
     <> Some (HStr ("bytes */" +:+ pretty (Z.of_nat (length content))))
  /\ body r = []
  /\ (forall s e, start = JS.Num s -> end_ = JS.Num e ->
        0 <= s <= e -> e <= JS.MAX_SAFE_INTEGER ->
        status r = 206
        /\ header "Content-Range" (headers r)
           = Some (HStr ("bytes " +:+ pretty s +:+ "-" +:+ pretty e
                         +:+ "/" +:+ pretty (Z.of_nat (length content))))
        /\ header "Content-Length" (headers r) = Some (HNum (JS.Num (e - s + 1)))
        /\ detached o = [Db.IncViews (params_id req) 1])
  /\ (forall s, start = JS.Num s -> end_ = JS.Infinity ->
        0 <= s <= JS.MAX_SAFE_INTEGER ->
        status r = 206
        /\ header "Content-Range" (headers r)
           = Some (HStr ("bytes " +:+ pretty s +:+ "-Infinity/"
                         +:+ pretty (Z.of_nat (length content))))
        /\ header "Content-Length" (headers r) = Some (HNum JS.Infinity)
        /\ detached o = [Db.IncViews (params_id req) 1])
  /\ (readable start end_ = false ->
        status r = 500
        /\ json r = Some (false, "Error del servidor")
        /\ detached o = []).
Proof.
  intros Hv Hc Hg Hf Hsize Hr Hne Hp Hbad o r.
  destruct (range_verdict db fs req v c content h start end_ Hv Hc Hg Hf Hsize Hr Hne Hp)
    as (Hclosed & Hendless & Hthrow & H416 & Hstar).
  destruct (nothing_to_read content start end_ Hbad) as [Hslice Hdrop].
  fold o in Hclosed, Hendless, Hthrow, H416, Hstar.
  fold r in Hclosed, Hendless, Hthrow, H416, Hstar.
  split; [exact H416 |]. split; [exact Hstar |].
  split.
  { destruct (readable start end_) eqn:Hok.
    - destruct (readable_cases _ _ Hok) as (s & -> & Hs & [-> | (e & -> & He)]).
      + destruct (Hendless s eq_refl eq_refl Hs) as (_ & _ & _ & -> & _).
        apply (Hdrop s); [reflexivity | reflexivity | lia].
      + destruct (Hclosed s e eq_refl eq_refl ltac:(lia) ltac:(lia))
          as (_ & _ & _ & -> & _).
        apply (Hslice s e); [reflexivity | reflexivity | lia].
    - now destruct (Hthrow eq_refl) as (_ & _ & -> & _). }
  split.
  { intros s e Hs He Hse Hmax.
    destruct (Hclosed s e Hs He Hse Hmax) as (? & ? & ? & _ & ?). auto. }
  split.
  { intros s Hs He Hmax.
    destruct (Hendless s Hs He Hmax) as (? & ? & ? & _ & ?). auto. }
  intros Hok. destruct (Hthrow Hok) as (? & ? & _ & ?). auto.
Qed.

Lemma unsatisfiable_range_is_not_rejected_witness :
  let past := stream Sample.db Sample.fs
                (Sample.get "v1" Sample.alice (Some "bytes=100-105")) in
  let endless := stream Sample.db Sample.fs
                   (Sample.get "v1" Sample.alice (Some ("bytes=100-" +:+ Sample.huge))) in
  let unparsable := stream Sample.db Sample.fs
                      (Sample.get "v1" Sample.alice (Some "bytes=abc-5")) in
  let backwards := stream Sample.db Sample.fs
                     (Sample.get "v1" Sample.alice (Some "bytes=9-5")) in
  let unsafe := stream Sample.db Sample.fs
                  (Sample.get "v1" Sample.alice (Some "bytes=100-9007199254740992")) in
  (status (response past) = 206
   /\ header "Content-Range" (headers (response past)) = Some (HStr "bytes 100-105/100")
   /\ header "Content-Length" (headers (response past)) = Some (HNum (JS.Num 6))
   /\ body (response past) = []
   /\ detached past = [Db.IncViews "v1" 1])
  /\ (status (response endless) = 206
      /\ header "Content-Range" (headers (response endless))
         = Some (HStr "bytes 100-Infinity/100")
      /\ header "Content-Length" (headers (response endless)) = Some (HNum JS.Infinity)
      /\ body (response endless) = []
      /\ detached endless = [Db.IncViews "v1" 1])
  /\ (status (response unparsable) = 500
      /\ json (response unparsable) = Some (false, "Error del servidor")
      /\ body (response unparsable) = [] /\ detached unparsable = [])
  /\ (status (response backwards) = 500
      /\ json (response backwards) = Some (false, "Error del servidor")
      /\ body (response backwards) = [] /\ detached backwards = [])
  /\ (status (response unsafe) = 500
      /\ json (response unsafe) = Some (false, "Error del servidor")
      /\ body (response unsafe) = [] /\ detached unsafe = []).
Proof.
  pose (v := Db.mkVideo "/uploads/videos/a.mp4" 100 (Some "video/webm") "c1" 7).
  pose (c := Db.mkCourse "Rocq" ["u1"; "u2"]).
  split; [| split; [| split; [| split]]].
  - destruct (unsatisfiable_range_is_not_rejected Sample.db Sample.fs
                (Sample.get "v1" Sample.alice (Some "bytes=100-105"))
                v c (Sample.bytes_upto 100) "bytes=100-105" (JS.Num 100) (JS.Num 105))
      as (_ & _ & Hb & Hclosed & _);
      [ reflexivity | reflexivity | reflexivity | reflexivity
      | vm_compute; discriminate | reflexivity | discriminate | reflexivity
      | right; right; right; exists 100; split; [reflexivity | vm_compute; discriminate] |].
    destruct (Hclosed 100 105) as (Hst & Hcr & Hcl & Hd);
      [reflexivity | reflexivity | lia | vm_compute; discriminate |].
    split; [exact Hst |]. split; [exact Hcr |]. split; [exact Hcl |].
    split; [exact Hb | exact Hd].
  - destruct (unsatisfiable_range_is_not_rejected Sample.db Sample.fs
                (Sample.get "v1" Sample.alice (Some ("bytes=100-" +:+ Sample.huge)))
                v c (Sample.bytes_upto 100) ("bytes=100-" +:+ Sample.huge)
                (JS.Num 100) JS.Infinity)
      as (_ & _ & Hb & _ & Hendless & _);
      [ reflexivity | reflexivity | reflexivity | reflexivity
      | vm_compute; discriminate | reflexivity | discriminate | vm_compute; reflexivity
      | right; right; right; exists 100; split; [reflexivity | vm_compute; discriminate] |].
    destruct (Hendless 100) as (Hst & Hcr & Hcl & Hd);
      [reflexivity | reflexivity | vm_compute; intuition discriminate |].
    split; [exact Hst |]. split; [exact Hcr |]. split; [exact Hcl |].
    split; [exact Hb | exact Hd].
  - destruct (unsatisfiable_range_is_not_rejected Sample.db Sample.fs
                (Sample.get "v1" Sample.alice (Some "bytes=abc-5"))
                v c (Sample.bytes_upto 100) "bytes=abc-5" JS.NaN (JS.Num 5))
      as (_ & _ & Hb & _ & _ & Hthrow);
      [ reflexivity | reflexivity | reflexivity | reflexivity
      | vm_compute; discriminate | reflexivity | discriminate | reflexivity | left; reflexivity |].
    destruct Hthrow as (Hst & Hj & Hd); [reflexivity |].
    split; [exact Hst |]. split; [exact Hj |]. split; [exact Hb | exact Hd].
  - destruct (unsatisfiable_range_is_not_rejected Sample.db Sample.fs
                (Sample.get "v1" Sample.alice (Some "bytes=9-5"))
                v c (Sample.bytes_upto 100) "bytes=9-5" (JS.Num 9) (JS.Num 5))
      as (_ & _ & Hb & _ & _ & Hthrow);
      [ reflexivity | reflexivity | reflexivity | reflexivity
      | vm_compute; discriminate | reflexivity | discriminate | reflexivity | right; left; reflexivity |].
    destruct Hthrow as (Hst & Hj & Hd); [reflexivity |].
    split; [exact Hst |]. split; [exact Hj |]. split; [exact Hb | exact Hd].
  - destruct (unsatisfiable_range_is_not_rejected Sample.db Sample.fs
                (Sample.get "v1" Sample.alice (Some "bytes=100-9007199254740992"))
                v c (Sample.bytes_upto 100) "bytes=100-9007199254740992"
                (JS.Num 100) (JS.Num 9007199254740992))
      as (_ & _ & Hb & _ & _ & Hthrow);
      [ reflexivity | reflexivity | reflexivity | reflexivity
      | vm_compute; discriminate | reflexivity | discriminate | vm_compute; reflexivity
      | right; right; right; exists 100; split; [reflexivity | vm_compute; discriminate] |].
    destruct Hthrow as (Hst & Hj & Hd); [reflexivity |].
    split; [exact Hst |]. split; [exact Hj |]. split; [exact Hb | exact Hd].
Defined.

(** C1 as stated does not hold: for the file of 100 bytes and
    [Range: bytes=100-105], where [start >= length], the answer is 206
    with [Content-Range: bytes 100-105/100], not 416 with
    [Content-Range: bytes */100]. *)
Lemma start_past_end_is_not_416 :
  let r := response (stream Sample.db Sample.fs
                       (Sample.get "v1" Sample.alice (Some "bytes=100-105"))) in
  Sample.fs !! "/uploads/videos/a.mp4" = Some (Sample.bytes_upto 100)
  /\ length (Sample.bytes_upto 100) = 100%nat
  /\ parse_range "bytes=100-105" (JS.Num 100) = (JS.Num 100, JS.Num 105)
  /\ status r = 206
  /\ header "Content-Range" (headers r) = Some (HStr "bytes 100-105/100")
  /\ header "Content-Length" (headers r) = Some (HNum (JS.Num 6))
  /\ ~ (status r = 416 /\ header "Content-Range" (headers r) = Some (HStr "bytes */100")).
Proof.
  vm_compute. repeat split; try reflexivity. intros [H _]. discriminate H.
Qed.

(* ===================================================================== *)
(** ** Ranges that run past the end of the file                          *)
(* ===================================================================== *)

(** C2, as the code has it. A range that starts inside the file and
    ends past its last byte is not clamped, and only the read is cut at
    the end of the file. For an [end] up to 2^53-1 the answer is 206,
    its body is the bytes from [start] to the last one, and the headers
    keep the [end] of the request:
    [Content-Range: bytes <start>-<end>/<length>] and
    [Content-Length: end - start + 1]. An [end] so large that it parses
    to [Infinity] is answered in the same way, with
    [Content-Range: bytes <start>-Infinity/<length>] and
    [Content-Length: Infinity]. Any other [end] above 2^53-1 cannot be
    given to the read stream: the answer is 500 with the message
    [Error del servidor], nothing is streamed and no view is counted. *)
Theorem overlong_range_is_read_to_the_end db fs req v c content h s end_ :
  Db.videos db !! params_id req = Some v ->
  Db.courses db !! Db.course v = Some c ->
  granted c (user req) = true ->
  fs !! Db.filePath v = Some content ->
  Z.of_nat (length content) <= JS.MAX_SAFE_INTEGER ->
  range req = Some h ->
  parse_range h (JS.Num (Z.of_nat (length content))) = (JS.Num s, end_) ->
  0 <= s < Z.of_nat (length content) ->
  let o := stream db fs req in
  let r := response o in
  (forall e, end_ = JS.Num e ->
     Z.of_nat (length content) - 1 < e -> e <= JS.MAX_SAFE_INTEGER ->
     status r = 206
     /\ header "Content-Range" (headers r)
        = Some (HStr ("bytes " +:+ pretty s +:+ "-" +:+ pretty e
                      +:+ "/" +:+ pretty (Z.of_nat (length content))))
     /\ header "Content-Length" (headers r) = Some (HNum (JS.Num (e - s + 1)))
     /\ body r = Fs.slice content s (Z.of_nat (length content) - 1)
     /\ Z.of_nat (length (body r)) = Z.of_nat (length content) - s
     /\ Z.of_nat (length (body r)) < e - s + 1
     /\ detached o = [Db.IncViews (params_id req) 1])
  /\ (end_ = JS.Infinity ->
        status r = 206
        /\ header "Content-Range" (headers r)
           = Some (HStr ("bytes " +:+ pretty s +:+ "-Infinity/"
                         +:+ pretty (Z.of_nat (length content))))
        /\ header "Content-Length" (headers r) = Some (HNum JS.Infinity)
        /\ body r = Fs.slice content s (Z.of_nat (length content) - 1)
        /\ Z.of_nat (length (body r)) = Z.of_nat (length content) - s
        /\ detached o = [Db.IncViews (params_id req) 1])
  /\ (forall e, end_ = JS.Num e -> JS.MAX_SAFE_INTEGER < e ->
        status r = 500
        /\ json r = Some (false, "Error del servidor")
        /\ body r = []
        /\ detached o = []).
Proof.
  intros Hv Hc Hg Hf Hmax Hr Hp Hs o r.
  assert (h <> EmptyString) as Hne.
  { intros ->. revert Hp. unfold parse_range. simpl. discriminate. }
  destruct (range_verdict db fs req v c content h (JS.Num s) end_
              Hv Hc Hg Hf Hmax Hr Hne Hp)
    as (Hclosed & Hendless & Hthrow & _).
  fold o in Hclosed, Hendless, Hthrow. fold r in Hclosed, Hendless, Hthrow.
  split; [| split].
  - intros e He Hpast Hsafe.
    destruct (Hclosed s e eq_refl He ltac:(lia) Hsafe) as (Hst & Hcr & Hcl & Hb & Hd).
    rewrite Hb, !slice_to_end, length_drop by lia.
    repeat split; try assumption; lia.
  - intros He.
    destruct (Hendless s eq_refl He ltac:(lia)) as (Hst & Hcr & Hcl & Hb & Hd).
    rewrite Hb, slice_to_end, length_drop by lia.
    repeat split; try assumption; lia.
  - intros e -> He. apply Hthrow.
    unfold readable, Fs.valid_position.
    replace (e <=? JS.MAX_SAFE_INTEGER) with false by lia.
    rewrite andb_false_r, andb_false_l, andb_false_r. reflexivity.
Qed.

Lemma overlong_range_is_read_to_the_end_witness :
  let o := stream Sample.db Sample.fs
             (Sample.get "v1" Sample.alice (Some "bytes=50-149")) in
  let endless := stream Sample.db Sample.fs
                   (Sample.get "v1" Sample.alice (Some ("bytes=50-" +:+ Sample.huge))) in
  let unsafe := stream Sample.db Sample.fs
                  (Sample.get "v1" Sample.alice (Some "bytes=50-9007199254740992")) in
  (status (response o) = 206
   /\ header "Content-Range" (headers (response o)) = Some (HStr "bytes 50-149/100")
   /\ header "Content-Length" (headers (response o)) = Some (HNum (JS.Num 100))
   /\ body (response o) = Fs.slice (Sample.bytes_upto 100) 50 99
   /\ length (body (response o)) = 50%nat
   /\ detached o = [Db.IncViews "v1" 1])
  /\ (status (response endless) = 206
      /\ header "Content-Range" (headers (response endless))
         = Some (HStr "bytes 50-Infinity/100")
      /\ header "Content-Length" (headers (response endless)) = Some (HNum JS.Infinity)
      /\ body (response endless) = Fs.slice (Sample.bytes_upto 100) 50 99
      /\ length (body (response endless)) = 50%nat
      /\ detached endless = [Db.IncViews "v1" 1])
  /\ (status (response unsafe) = 500
      /\ json (response unsafe) = Some (false, "Error del servidor")
      /\ body (response unsafe) = []
      /\ detached unsafe = []).
Proof.
  pose (v := Db.mkVideo "/uploads/videos/a.mp4" 100 (Some "video/webm") "c1" 7).
  pose (c := Db.mkCourse "Rocq" ["u1"; "u2"]).
  split; [| split].
  - destruct (overlong_range_is_read_to_the_end Sample.db Sample.fs
                (Sample.get "v1" Sample.alice (Some "bytes=50-149"))
                v c (Sample.bytes_upto 100) "bytes=50-149" 50 (JS.Num 149))
      as (Hok & _ & _);
      [ reflexivity | reflexivity | reflexivity | reflexivity | vm_compute; discriminate
      | reflexivity | reflexivity | vm_compute; intuition discriminate |].
    destruct (Hok 149) as (Hst & Hcr & Hcl & Hb & Hlen & _ & Hd);
      [reflexivity | vm_compute; reflexivity | vm_compute; discriminate |].
    split; [exact Hst |]. split; [exact Hcr |]. split; [exact Hcl |].
    split; [exact Hb |]. split; [apply Nat2Z.inj; exact Hlen | exact Hd].
  - destruct (overlong_range_is_read_to_the_end Sample.db Sample.fs
                (Sample.get "v1" Sample.alice (Some ("bytes=50-" +:+ Sample.huge)))
                v c (Sample.bytes_upto 100) ("bytes=50-" +:+ Sample.huge) 50 JS.Infinity)
      as (_ & Hok & _);
      [ reflexivity | reflexivity | reflexivity | reflexivity | vm_compute; discriminate
      | reflexivity | vm_compute; reflexivity | vm_compute; intuition discriminate |].
    destruct Hok as (Hst & Hcr & Hcl & Hb & Hlen & Hd); [reflexivity |].
    split; [exact Hst |]. split; [exact Hcr |]. split; [exact Hcl |].
    split; [exact Hb |]. split; [apply Nat2Z.inj; exact Hlen | exact Hd].
  - destruct (overlong_range_is_read_to_the_end Sample.db Sample.fs
                (Sample.get "v1" Sample.alice (Some "bytes=50-9007199254740992"))
                v c (Sample.bytes_upto 100) "bytes=50-9007199254740992" 50
                (JS.Num 9007199254740992))
      as (_ & _ & Hbad);
      [ reflexivity | reflexivity | reflexivity | reflexivity | vm_compute; discriminate
      | reflexivity | vm_compute; reflexivity | vm_compute; intuition discriminate |].
    apply (Hbad 9007199254740992); [reflexivity | vm_compute; reflexivity].
Defined.

(** C2 as stated does not hold: for the file of 100 bytes and
    [Range: bytes=50-149] the answer is 206 with the 50 bytes 50..99,
    but with [Content-Range: bytes 50-149/100] and [Content-Length: 100],
    not [bytes 50-99/100] and 50. *)
Lemma overlong_end_is_not_clamped :
  let r := response (stream Sample.db Sample.fs
                       (Sample.get "v1" Sample.alice (Some "bytes=50-149"))) in
  Sample.fs !! "/uploads/videos/a.mp4" = Some (Sample.bytes_upto 100)
  /\ length (Sample.bytes_upto 100) = 100%nat
  /\ parse_range "bytes=50-149" (JS.Num 100) = (JS.Num 50, JS.Num 149)
  /\ status r = 206
  /\ header "Content-Range" (headers r) = Some (HStr "bytes 50-149/100")
  /\ header "Content-Length" (headers r) = Some (HNum (JS.Num 100))
  /\ length (body r) = 50%nat
  /\ ~ (header "Content-Range" (headers r) = Some (HStr "bytes 50-99/100")
        /\ header "Content-Length" (headers r) = Some (HNum (JS.Num 50))).
Proof.
  vm_compute. repeat split; try reflexivity. intros [H _]. discriminate H.
Qed.

(* ===================================================================== *)
(** ** Range requests on an empty file                                   *)
(* ===================================================================== *)

(** C5, as the code has it. On a stored file of length 0 a request
    with a [Range] header gets no bytes of body and never a 416. With a
    non-empty header the answer is 206 when [start] is an integer of
    [0, 2^53-1] and [end] is an integer of [start, 2^53-1], announcing
    [Content-Range: bytes <start>-<end>/0] and
    [Content-Length: end - start + 1], or is so large that it parses to
    [Infinity], announcing [Content-Range: bytes <start>-Infinity/0] and
    [Content-Length: Infinity]; both count a view. In every other case
    (an omitted [end] is [-1] here) the answer is 500 with the message
    [Error del servidor] and no view is counted. An empty header value
    counts as no header and is answered 200. *)
Theorem empty_file_range_is_not_416 db fs req v c h :
  Db.videos db !! params_id req = Some v ->
  Db.courses db !! Db.course v = Some c ->
  granted c (user req) = true ->
  fs !! Db.filePath v = Some [] ->
  range req = Some h ->
  let o := stream db fs req in
  let r := response o in
  status r <> 416
  /\ body r = []
  /\ (h = EmptyString ->
        status r = 200
        /\ header "Content-Length" (headers r) = Some (HNum (JS.Num 0))
        /\ detached o = [Db.IncViews (params_id req) 1])
  /\ (h <> EmptyString ->
      forall start end_, parse_range h (JS.Num 0) = (start, end_) ->
        (forall s e, start = JS.Num s -> end_ = JS.Num e ->
           0 <= s <= e -> e <= JS.MAX_SAFE_INTEGER ->
           status r = 206
           /\ header "Content-Range" (headers r)
              = Some (HStr ("bytes " +:+ pretty s +:+ "-" +:+ pretty e +:+ "/0"))
           /\ header "Content-Length" (headers r) = Some (HNum (JS.Num (e - s + 1)))
           /\ detached o = [Db.IncViews (params_id req) 1])
        /\ (forall s, start = JS.Num s -> end_ = JS.Infinity ->
              0 <= s <= JS.MAX_SAFE_INTEGER ->
              status r = 206
              /\ header "Content-Range" (headers r)
                 = Some (HStr ("bytes " +:+ pretty s +:+ "-Infinity/0"))
              /\ header "Content-Length" (headers r) = Some (HNum JS.Infinity)
              /\ detached o = [Db.IncViews (params_id req) 1])
        /\ (readable start end_ = false ->
              status r = 500
              /\ json r = Some (false, "Error del servidor")
              /\ detached o = [])).
Proof.
  intros Hv Hc Hg Hf Hr o r.
  destruct h as [| ch h'].
  - subst r o.
    rewrite (stream_no_range db fs req v c Hv Hc Hg [] Hf) by (rewrite Hr; reflexivity).
    cbn [response status body headers detached head_200 length].
    split; [discriminate |]. split; [reflexivity |].
    split; [intros _; repeat split; reflexivity | congruence].
  - set (h := String ch h') in *.
    assert (h <> EmptyString) as Hne by discriminate.
    destruct (parse_range h (JS.Num 0)) as [start end_] eqn:Hp.
    destruct (range_verdict db fs req v c [] h start end_ Hv Hc Hg Hf
                ltac:(vm_compute; discriminate) Hr Hne Hp)
      as (Hclosed & Hendless & Hthrow & H416 & _).
    fold o in Hclosed, Hendless, Hthrow, H416.
    fold r in Hclosed, Hendless, Hthrow, H416.
    split; [exact H416 |].
    split.
    { destruct (readable start end_) eqn:Hok.
      - destruct (readable_cases _ _ Hok) as (s & -> & Hs & [-> | (e & -> & He)]).
        + destruct (Hendless s eq_refl eq_refl Hs) as (_ & _ & _ & -> & _).
          apply drop_nil.
        + destruct (Hclosed s e eq_refl eq_refl ltac:(lia) ltac:(lia))
            as (_ & _ & _ & -> & _).
          apply (slice_past_end []). simpl. lia.
      - now destruct (Hthrow eq_refl) as (_ & _ & -> & _). }
    split; [discriminate |].
    intros _ start' end' [= <- <-].
    split.
    { intros s e Hs He Hse Hmax.
      destruct (Hclosed s e Hs He Hse Hmax) as (? & ? & ? & _ & ?). auto. }
    split.
    { intros s Hs He Hmax.
      destruct (Hendless s Hs He Hmax) as (? & ? & ? & _ & ?). auto. }
    intros Hok. destruct (Hthrow Hok) as (? & ? & _ & ?). auto.
Qed.

Lemma empty_file_range_is_not_416_witness :
  let closed := stream Sample.db Sample.fs
                  (Sample.get "v2" Sample.alice (Some "bytes=0-0")) in
  let endless := stream Sample.db Sample.fs
                   (Sample.get "v2" Sample.alice (Some ("bytes=0-" +:+ Sample.huge))) in
  let open := stream Sample.db Sample.fs
                (Sample.get "v2" Sample.alice (Some "bytes=0-")) in
  let none := stream Sample.db Sample.fs
                (Sample.get "v2" Sample.alice (Some EmptyString)) in
  (status (response closed) = 206
   /\ header "Content-Range" (headers (response closed)) = Some (HStr "bytes 0-0/0")
   /\ header "Content-Length" (headers (response closed)) = Some (HNum (JS.Num 1))
   /\ body (response closed) = []
   /\ detached closed = [Db.IncViews "v2" 1])
  /\ (status (response endless) = 206
      /\ header "Content-Range" (headers (response endless))
         = Some (HStr "bytes 0-Infinity/0")
      /\ header "Content-Length" (headers (response endless)) = Some (HNum JS.Infinity)
      /\ body (response endless) = []
      /\ detached endless = [Db.IncViews "v2" 1])
  /\ (status (response open) = 500
      /\ json (response open) = Some (false, "Error del servidor")
      /\ body (response open) = []
      /\ detached open = [])
  /\ (status (response none) = 200
      /\ header "Content-Length" (headers (response none)) = Some (HNum (JS.Num 0))
      /\ body (response none) = []
      /\ detached none = [Db.IncViews "v2" 1]).
Proof.
  pose (v := Db.mkVideo "/uploads/videos/empty.mp4" 0 None "c1" 0).
  pose (c := Db.mkCourse "Rocq" ["u1"; "u2"]).
  split; [| split; [| split]].
  - destruct (empty_file_range_is_not_416 Sample.db Sample.fs
                (Sample.get "v2" Sample.alice (Some "bytes=0-0")) v c "bytes=0-0")
      as (_ & Hb & _ & Hrange);
      [reflexivity | reflexivity | reflexivity | reflexivity | reflexivity |].
    destruct (Hrange ltac:(discriminate) (JS.Num 0) (JS.Num 0) eq_refl) as (Hclosed & _).
    destruct (Hclosed 0 0) as (Hst & Hcr & Hcl & Hd);
      [reflexivity | reflexivity | lia | vm_compute; discriminate |].
    split; [exact Hst |]. split; [exact Hcr |]. split; [exact Hcl |].
    split; [exact Hb | exact Hd].
  - destruct (empty_file_range_is_not_416 Sample.db Sample.fs
                (Sample.get "v2" Sample.alice (Some ("bytes=0-" +:+ Sample.huge)))
                v c ("bytes=0-" +:+ Sample.huge))
      as (_ & Hb & _ & Hrange);
      [reflexivity | reflexivity | reflexivity | reflexivity | reflexivity |].
    destruct (Hrange ltac:(discriminate) (JS.Num 0) JS.Infinity
                ltac:(vm_compute; reflexivity)) as (_ & Hendless & _).
    destruct (Hendless 0) as (Hst & Hcr & Hcl & Hd);
      [reflexivity | reflexivity | vm_compute; intuition discriminate |].
    split; [exact Hst |]. split; [exact Hcr |]. split; [exact Hcl |].
    split; [exact Hb | exact Hd].
  - destruct (empty_file_range_is_not_416 Sample.db Sample.fs
                (Sample.get "v2" Sample.alice (Some "bytes=0-")) v c "bytes=0-")
      as (_ & Hb & _ & Hrange);
      [reflexivity | reflexivity | reflexivity | reflexivity | reflexivity |].
    destruct (Hrange ltac:(discriminate) (JS.Num 0) (JS.Num (-1)) eq_refl)
      as (_ & _ & Hthrow).
    destruct Hthrow as (Hst & Hj & Hd); [reflexivity |].
    split; [exact Hst |]. split; [exact Hj |]. split; [exact Hb | exact Hd].
  - destruct (empty_file_range_is_not_416 Sample.db Sample.fs
                (Sample.get "v2" Sample.alice (Some EmptyString)) v c EmptyString)
      as (_ & Hb & Hnone & _);
      [reflexivity | reflexivity | reflexivity | reflexivity | reflexivity |].
    destruct Hnone as (Hst & Hcl & Hd); [reflexivity |].
    split; [exact Hst |]. split; [exact Hcl |]. split; [exact Hb | exact Hd].
Defined.

(** C5 as stated does not hold: on the empty file,
    [Range: bytes=0-0] is answered 206 with
    [Content-Range: bytes 0-0/0], and [Range: bytes=0-] is answered
    500; neither is a 416. *)
Lemma empty_file_range_answers :
  let r := response (stream Sample.db Sample.fs
                       (Sample.get "v2" Sample.alice (Some "bytes=0-0"))) in
  let r' := response (stream Sample.db Sample.fs
                        (Sample.get "v2" Sample.alice (Some "bytes=0-"))) in
  Sample.fs !! "/uploads/videos/empty.mp4" = Some []
  /\ status r = 206
  /\ header "Content-Range" (headers r) = Some (HStr "bytes 0-0/0")
  /\ status r' = 500
  /\ status r <> 416
  /\ status r' <> 416.
Proof.
  vm_compute. repeat split; try reflexivity; discriminate.
Qed.

(* ===================================================================== *)
(** ** Enrolment and what it does to streaming                           *)
(* ===================================================================== *)

Section StoreFacts.

Lemma to_db_video (s : Store.t) id :
  Db.videos (Store.to_db s) !! id = Store.videos s !! id.
Proof. reflexivity. Qed.

Lemma to_db_course (s : Store.t) id :
  Db.courses (Store.to_db s) !! id = Store.select_course <$> (Store.courses s !! id).
Proof. unfold Store.to_db. cbn [Db.courses]. apply lookup_fmap. Qed.

Lemma granted_select c u :
  granted (Store.select_course c) u
  = is_enrolled (Course.enrolledStudents c) u || String.eqb (Db.role u) "admin".
Proof. reflexivity. Qed.

Lemma is_enrolled_In l u : is_enrolled l u = true <-> In (Db._id u) l.
Proof. apply some_student_In. Qed.

Lemma is_enrolled_snoc l u : is_enrolled (l ++ [Db._id u])%list u = true.
Proof. apply is_enrolled_In, List.in_or_app. right. now left. Qed.

Lemma is_enrolled_filter l u :
  is_enrolled
    (List.filter (fun studentId => negb (String.eqb studentId (Db._id u))) l) u = false.
Proof.
  destruct (is_enrolled _ u) eqn:E; [| reflexivity].
  apply is_enrolled_In, List.filter_In in E as [_ E].
  now rewrite String.eqb_refl in E.
Qed.

Lemma filter_out_absent x l :
  ~ In x l -> List.filter (fun y => negb (String.eqb y x)) l = l.
Proof.
  induction l as [| y l IH]; intros Hx; [reflexivity |].
  simpl. destruct (String.eqb y x) eqn:E.
  - apply String.eqb_eq in E. subst y. exfalso. apply Hx. now left.
  - simpl. f_equal. apply IH. intros H. apply Hx. now right.
Qed.

Lemma filter_out_snoc x l :
  ~ In x l -> List.filter (fun y => negb (String.eqb y x)) (l ++ [x])%list = l.
Proof.
  intros Hx. rewrite List.filter_app, filter_out_absent by assumption.
  simpl. rewrite String.eqb_refl. apply List.app_nil_r.
Qed.

End StoreFacts.

(** What a successful enrolment found and what it left. *)
Lemma enroll_ok s id u r s' :
  Courses.enroll s id u = (r, s') -> status r = 200 ->
  exists course,
    Store.courses s !! id = Some course
    /\ Course.isActive course = true
    /\ is_enrolled (Course.enrolledStudents course) u = false
    /\ r = ok_json "Te has inscrito exitosamente al curso"
    /\ Store.courses s' =
       <[id := Course.set_enrolledStudents
                 (Course.enrolledStudents course ++ [Db._id u])%list course]>
         (Store.courses s)
    /\ Store.videos s' = Store.videos s
    /\ Store.files s' = Store.files s
    /\ Store.users s' =
       alter (fun d => User.set_enrolledCourses
                         (Store.addToSet id (User.enrolledCourses d)) d)
             (Db._id u) (Store.users s).
Proof.
  unfold Courses.enroll. intros H Hst.
  destruct (Store.courses s !! id) as [course |] eqn:Hc.
  2:{ injection H as <- <-. discriminate Hst. }
  destruct (Course.isActive course) eqn:Ha; cbn [negb] in H.
  2:{ injection H as <- <-. discriminate Hst. }
  destruct (is_enrolled (Course.enrolledStudents course) u) eqn:He.
  { injection H as <- <-. discriminate Hst. }
  injection H as <- <-. exists course. repeat split; try reflexivity; assumption.
Qed.

(** X1. Enrolment opens the videos of the course. *)
Theorem enroll_opens_streaming s id u r s' fs vid v content :
  Courses.enroll s id u = (r, s') -> status r = 200 ->
  Db.role u <> "admin" ->
  Store.videos s !! vid = Some v -> Db.course v = id ->
  fs !! Db.filePath v = Some content ->
  status (response (Videos.stream s fs (mkRequest vid u None))) = 403
  /\ status (response (Videos.stream s' fs (mkRequest vid u None))) = 200
  /\ body (response (Videos.stream s' fs (mkRequest vid u None))) = content.
Proof.
  intros H Hst Hrole Hv Hcv Hf.
  destruct (enroll_ok s id u r s' H Hst)
    as (course & Hc & Ha & He & _ & Hcs & Hvs & _ & _).
  unfold Videos.stream. split.
  - rewrite (stream_denied (Store.to_db s) fs (mkRequest vid u None) v
               (Store.select_course course)).
    + reflexivity.
    + exact Hv.
    + rewrite to_db_course, Hcv, Hc. reflexivity.
    + rewrite granted_select. cbn [user]. rewrite He.
      apply String.eqb_neq in Hrole. now rewrite Hrole.
  - set (course' := Course.set_enrolledStudents
                      (Course.enrolledStudents course ++ [Db._id u])%list course).
    assert (Db.videos (Store.to_db s') !! params_id (mkRequest vid u None) = Some v) as Hv'.
    { rewrite to_db_video, Hvs. exact Hv. }
    assert (Db.courses (Store.to_db s') !! Db.course v
            = Some (Store.select_course course')) as Hc'.
    { rewrite to_db_course, Hcs, Hcv, lookup_insert_eq. reflexivity. }
    assert (granted (Store.select_course course') (user (mkRequest vid u None)) = true) as Hg'.
    { rewrite granted_select. cbn [user]. unfold course'.
      cbn [Course.enrolledStudents Course.set_enrolledStudents].
      now rewrite is_enrolled_snoc. }
    rewrite (stream_no_range _ fs _ v _ Hv' Hc' Hg' content Hf) by reflexivity.
    split; reflexivity.
Qed.

Lemma enroll_opens_streaming_witness :
  let s' := snd (Courses.enroll Demo.store "c1" Demo.carol) in
  status (response (Videos.stream Demo.store Demo.fs (mkRequest "v1" Demo.carol None))) = 403
  /\ status (response (Videos.stream s' Demo.fs (mkRequest "v1" Demo.carol None))) = 200
  /\ body (response (Videos.stream s' Demo.fs (mkRequest "v1" Demo.carol None)))
     = Sample.bytes_upto 100.
Proof.
  apply (enroll_opens_streaming Demo.store "c1" Demo.carol
           (fst (Courses.enroll Demo.store "c1" Demo.carol))
           (snd (Courses.enroll Demo.store "c1" Demo.carol))
           Demo.fs "v1"
           (Db.mkVideo "/uploads/videos/a.mp4" 100 (Some "video/webm") "c1" 7)).
  - reflexivity.
  - reflexivity.
  - discriminate.
  - reflexivity.
  - reflexivity.
  - reflexivity.
Defined.

(** X2. Enrolling a second time is refused and changes nothing. *)
Theorem enroll_twice_is_refused s id u r s' :
  Courses.enroll s id u = (r, s') -> status r = 200 ->
  Courses.enroll s' id u = (error_json 400 Courses.msg_already, s').
Proof.
  intros H Hst.
  destruct (enroll_ok s id u r s' H Hst) as (course & Hc & Ha & He & _ & Hcs & _).
  unfold Courses.enroll at 1. rewrite Hcs, lookup_insert_eq.
  cbn [Course.isActive Course.set_enrolledStudents Course.enrolledStudents].
  rewrite Ha, is_enrolled_snoc. reflexivity.
Qed.

Lemma enroll_twice_is_refused_witness :
  Courses.enroll (snd (Courses.enroll Demo.store "c1" Demo.carol)) "c1" Demo.carol
  = (error_json 400 Courses.msg_already, snd (Courses.enroll Demo.store "c1" Demo.carol)).
Proof.
  apply (enroll_twice_is_refused Demo.store "c1" Demo.carol
           (fst (Courses.enroll Demo.store "c1" Demo.carol))); reflexivity.
Defined.

Lemma addToSet_absent x l : ~ In x l -> Store.addToSet x l = (l ++ [x])%list.
Proof.
  intros Hx. unfold Store.addToSet.
  destruct (existsb (String.eqb x) l) eqn:E; [| reflexivity].
  apply existsb_exists in E as (y & Hy & Heq).
  apply String.eqb_eq in Heq. subst y. contradiction.
Qed.

Lemma pull_snoc x l : ~ In x l -> Store.pull x (l ++ [x])%list = l.
Proof. apply filter_out_snoc. Qed.

(** X3. Enrolling and then leaving the course puts the store back. *)
Theorem enroll_then_unenroll s id u r s' :
  Courses.enroll s id u = (r, s') -> status r = 200 ->
  (forall d, Store.users s !! Db._id u = Some d -> ~ In id (User.enrolledCourses d)) ->
  Courses.unenroll s' id u
  = (ok_json "Te has desinscrito del curso exitosamente", s).
Proof.
  intros H Hst Hfresh.
  destruct (enroll_ok s id u r s' H Hst)
    as (course & Hc & Ha & He & _ & Hcs & Hvs & Hfs & Hus).
  assert (~ In (Db._id u) (Course.enrolledStudents course)) as Hnot.
  { intros Hin. apply is_enrolled_In in Hin. congruence. }
  unfold Courses.unenroll. rewrite Hcs, lookup_insert_eq. f_equal.
  destruct s as [us cs vs fls], s' as [us' cs' vs' fls'].
  cbn [Store.courses Store.users Store.videos Store.files Store.set_courses
       Store.set_users] in *.
  subst cs' vs' fls' us'. unfold Store.set_users, Store.set_courses.
  cbn [Store.courses Store.users Store.videos Store.files]. f_equal.
  - apply map_eq. intros k. destruct (decide (Db._id u = k)) as [<- | Hne].
    + rewrite !lookup_alter_eq. destruct (us !! Db._id u) as [d |] eqn:Hd; [| reflexivity].
      specialize (Hfresh d eq_refl).
      destruct d as [rl act ec]. unfold User.set_enrolledCourses.
      cbn [fmap option_fmap option_map User.role User.isActive User.enrolledCourses] in *.
      now rewrite addToSet_absent, pull_snoc.
    + now rewrite !lookup_alter_ne.
  - rewrite insert_insert_eq. apply insert_id. rewrite Hc. f_equal.
    destruct course as [t es vds fl act]. unfold Course.set_enrolledStudents.
    cbn [Course.title Course.enrolledStudents Course.videos Course.files Course.isActive] in *.
    now rewrite filter_out_snoc.
Qed.

Lemma enroll_then_unenroll_witness :
  Courses.unenroll (snd (Courses.enroll Demo.store "c1" Demo.carol)) "c1" Demo.carol
  = (ok_json "Te has desinscrito del curso exitosamente", Demo.store).
Proof.
  apply (enroll_then_unenroll Demo.store "c1" Demo.carol
           (fst (Courses.enroll Demo.store "c1" Demo.carol))).
  - reflexivity.
  - reflexivity.
  - intros d Hd. vm_compute in Hd. injection Hd as <-. intros [].
Defined.

(** X4. Leaving a course closes its videos to the student, whatever the
    [Range] header; leaving a course one is not enrolled in is answered
    200 as well. *)
Theorem unenroll_closes_streaming s id u course fs vid v range :
  Store.courses s !! id = Some course ->
  Db.role u <> "admin" ->
  Store.videos s !! vid = Some v -> Db.course v = id ->
  let '(r, s') := Courses.unenroll s id u in
  status r = 200
  /\ Videos.stream s' fs (mkRequest vid u range)
     = fail_with 403 "No tienes acceso a este video".
Proof.
  intros Hc Hrole Hv Hcv. unfold Courses.unenroll. rewrite Hc.
  split; [reflexivity |]. unfold Videos.stream.
  apply (stream_denied _ fs _ v
           (Store.select_course
              (Course.set_enrolledStudents
                 (List.filter (fun studentId => negb (String.eqb studentId (Db._id u)))
                              (Course.enrolledStudents course)) course))).
  - exact Hv.
  - rewrite to_db_course, Hcv. cbn [Store.courses Store.set_users Store.set_courses].
    rewrite lookup_insert_eq. reflexivity.
  - rewrite granted_select. cbn [user Course.enrolledStudents Course.set_enrolledStudents].
    rewrite is_enrolled_filter. apply String.eqb_neq in Hrole. now rewrite Hrole.
Qed.

Lemma unenroll_closes_streaming_witness :
  let '(r, s') := Courses.unenroll Demo.store "c1" (Db.mkUser "u1" "student") in
  status r = 200
  /\ Videos.stream s' Demo.fs (mkRequest "v1" (Db.mkUser "u1" "student") (Some "bytes=0-9"))
     = fail_with 403 "No tienes acceso a este video".
Proof.
  apply (unenroll_closes_streaming Demo.store "c1" (Db.mkUser "u1" "student")
           (Course.mk "Rocq" ["u1"; "u2"] ["v1"; "v2"] ["f1"] true)
           Demo.fs "v1"
           (Db.mkVideo "/uploads/videos/a.mp4" 100 (Some "video/webm") "c1" 7)
           (Some "bytes=0-9")).
  - reflexivity.
  - discriminate.
  - reflexivity.
  - reflexivity.
Defined.

(** X5. Removing a course only marks it inactive: every streaming
    request is answered as before, enrolled students keep their access,
    and only new enrolments are turned away. *)
Theorem removed_course_still_streams s id r s' :
  Courses.remove s id = (r, s') ->
  (forall fs req, Videos.stream s' fs req = Videos.stream s fs req)
  /\ (status r = 200 ->
      forall u, Courses.enroll s' id u = (error_json 404 "Curso no encontrado", s')).
Proof.
  unfold Courses.remove. intros H.
  destruct (Store.courses s !! id) as [course |] eqn:Hc.
  - injection H as <- <-. split.
    + intros fs req. unfold Videos.stream. f_equal.
      unfold Store.to_db. cbn [Store.videos Store.courses Store.set_courses]. f_equal.
      rewrite fmap_insert. apply insert_id. rewrite lookup_fmap, Hc. reflexivity.
    + intros _ u. unfold Courses.enroll. cbn [Store.courses Store.set_courses].
      rewrite lookup_insert_eq. reflexivity.
  - injection H as <- <-. split; [reflexivity | discriminate].
Qed.

Lemma removed_course_still_streams_witness :
  let s' := snd (Courses.remove Demo.store "c1") in
  (forall fs req, Videos.stream s' fs req = Videos.stream Demo.store fs req)
  /\ (status (fst (Courses.remove Demo.store "c1")) = 200 ->
      forall u, Courses.enroll s' "c1" u = (error_json 404 "Curso no encontrado", s')).
Proof.
  apply (removed_course_still_streams Demo.store "c1"
           (fst (Courses.remove Demo.store "c1"))).
  reflexivity.
Defined.

(* ===================================================================== *)
(** ** Removing a video                                                  *)
(* ===================================================================== *)



Lemma select_course_set_videos l c :
  Store.select_course (Course.set_videos l c) = Store.select_course c.
Proof. reflexivity. Qed.

Lemma not_In_pull x l : ~ In x (Store.pull x l).
Proof.
  unfold Store.pull. intros H. apply List.filter_In in H as [_ H].
  now rewrite String.eqb_refl in H.
Qed.

Lemma remove_video_ok s fs id v :
  Store.videos s !! id = Some v ->
  Videos.remove s fs id =
  (ok_json "Video eliminado exitosamente",
   Store.mk (Store.users s)
            (alter (fun c => Course.set_videos (Store.pull id (Course.videos c)) c)
                   (Db.course v) (Store.courses s))
            (delete id (Store.videos s))
            (Store.files s),
   delete (Db.filePath v) fs).
Proof. intros Hv. unfold Videos.remove. rewrite Hv. reflexivity. Qed.


(** X6. Once a video is removed, its record is gone, its file is off
    the disk, its course no longer lists it, every streaming request
    for it is answered 404 whoever asks, and removing it again is
    answered 404 without touching anything. *)
Theorem removed_video_is_gone s fs id v :
  Store.videos s !! id = Some v ->
  let '(r, s', fs') := Videos.remove s fs id in
  status r = 200
  /\ Store.videos s' !! id = None
  /\ fs' !! Db.filePath v = None
  /\ (forall c, Store.courses s' !! Db.course v = Some c -> ~ In id (Course.videos c))
  /\ (forall u range,
        Videos.stream s' fs' (mkRequest id u range)
        = fail_with 404 "Video no encontrado")
  /\ Videos.remove s' fs' id = (error_json 404 "Video no encontrado", s', fs').
Proof.
  intros Hv. rewrite (remove_video_ok s fs id v Hv).
  split; [reflexivity |].
  split; [apply lookup_delete_eq |].
  split; [apply lookup_delete_eq |].
  split.
  { intros c. cbn [Store.courses]. rewrite lookup_alter_eq.
    destruct (Store.courses s !! Db.course v) as [c0 |]; [| discriminate].
    intros [= <-]. cbn [Course.videos Course.set_videos]. apply not_In_pull. }
  split.
  - intros u range. unfold Videos.stream.
    apply stream_unknown_id; [| reflexivity].
    rewrite to_db_video. apply lookup_delete_eq.
  - unfold Videos.remove. cbn [Store.videos]. now rewrite lookup_delete_eq.
Qed.

Lemma removed_video_is_gone_witness :
  let '(r, s', fs') := Videos.remove Demo.store Demo.fs "v1" in
  status r = 200
  /\ Store.videos s' !! "v1" = None
  /\ fs' !! "/uploads/videos/a.mp4" = None
  /\ (forall c, Store.courses s' !! "c1" = Some c -> ~ In "v1" (Course.videos c))
  /\ (forall u range,
        Videos.stream s' fs' (mkRequest "v1" u range)
        = fail_with 404 "Video no encontrado")
  /\ Videos.remove s' fs' "v1" = (error_json 404 "Video no encontrado", s', fs').
Proof.
  apply (removed_video_is_gone Demo.store Demo.fs "v1"
           (Db.mkVideo "/uploads/videos/a.mp4" 100 (Some "video/webm") "c1" 7)).
  reflexivity.
Defined.



(* ===================================================================== *)
(** ** Authentication                                                    *)
(* ===================================================================== *)

Lemma replace_absent pat repl s :
  JSString.includes pat s = false -> JS.replace pat repl s = s.
Proof.
  induction s as [| c s IH]; intros H.
  - cbn [JS.replace JSString.includes] in *.
    destruct (JS.strip_prefix pat EmptyString); [discriminate | reflexivity].
  - cbn [JS.replace JSString.includes] in *.
    destruct (JS.strip_prefix pat (String c s)); [discriminate |].
    now rewrite IH.
Qed.

Lemma token_of_bearer t :
  Auth.token_of (Some ("Bearer " +:+ t)) = Some t.
Proof. reflexivity. Qed.

Lemma token_of_bare t :
  JSString.includes "Bearer " t = false -> Auth.token_of (Some t) = Some t.
Proof. intros H. unfold Auth.token_of. cbn. now rewrite replace_absent. Qed.

Lemma authMiddleware_lets_through_aux verify users authorization :
  Auth.authMiddleware verify users authorization <> Auth.Next None.
Proof.
  unfold Auth.authMiddleware.
  destruct (JS.truthy (Auth.token_of authorization)); cbn [negb]; [| discriminate].
  destruct (verify _) as [id | | |]; try discriminate.
  destruct (users !! id) as [doc |]; [| discriminate].
  destruct (User.isActive doc); discriminate.
Qed.

(** X8. [authMiddleware] hands the request on exactly when the header
    carries a non-empty token that verifies to the id of a stored,
    active user, and the user it attaches is that one, with the role
    stored for it. It never hands a request on without a user, and what
    it refuses it answers with 401, or with 500 when verification failed
    for another reason than an invalid or expired token. *)
Theorem authMiddleware_lets_through verify users authorization :
  (forall u,
     Auth.authMiddleware verify users authorization = Auth.Next (Some u) <->
     exists h doc,
       authorization = Some h
       /\ JS.replace "Bearer " EmptyString h <> EmptyString
       /\ verify (JS.replace "Bearer " EmptyString h) = Auth.Decoded (Db._id u)
       /\ users !! Db._id u = Some doc
       /\ User.isActive doc = true
       /\ Db.role u = User.role doc)
  /\ Auth.authMiddleware verify users authorization <> Auth.Next None
  /\ (forall r,
        Auth.authMiddleware verify users authorization = Auth.Reply r ->
        status r = 401
        \/ (status r = 500
            /\ exists h, authorization = Some h
                 /\ verify (JS.replace "Bearer " EmptyString h) = Auth.OtherError)).
Proof.
  unfold Auth.authMiddleware, Auth.token_of.
  destruct authorization as [h |]; cbn [fmap option_fmap option_map default].
  2:{ split; [| split].
      - intros u. split; [discriminate | intros (h & doc & [=] & _)].
      - discriminate.
      - intros r [= <-]. now left. }
  remember (JS.replace "Bearer " EmptyString h) as token eqn:Htok.
  unfold Datatypes.id.
  assert (forall u : Db.User,
            (exists h' doc,
               Some h = Some h'
               /\ JS.replace "Bearer " EmptyString h' <> EmptyString
               /\ verify (JS.replace "Bearer " EmptyString h') = Auth.Decoded (Db._id u)
               /\ users !! Db._id u = Some doc
               /\ User.isActive doc = true
               /\ Db.role u = User.role doc) ->
            exists doc,
              token <> EmptyString /\ verify token = Auth.Decoded (Db._id u)
              /\ users !! Db._id u = Some doc /\ User.isActive doc = true
              /\ Db.role u = User.role doc) as Hback.
  { intros u (h' & doc & [= <-] & Hne & Hver & Hdoc & Hact & Hrole).
    rewrite <- Htok in *. now exists doc. }
  destruct (JS.truthy (Some token)) eqn:Htr; cbn [negb].
  2:{ assert (token = EmptyString) as Hempty by (destruct token; [reflexivity | discriminate]).
      split; [| split]; [| discriminate | intros r [= <-]; now left].
      intros u. split; [discriminate |].
      intros H. destruct (Hback u H) as (doc & Hne & _). contradiction. }
  assert (token <> EmptyString) as Hne by (destruct token; [discriminate | congruence]).
  destruct (verify token) as [id | | |] eqn:Hver.
  - destruct (users !! id) as [doc |] eqn:Hdoc.
    + destruct (User.isActive doc) eqn:Hact; cbn [negb].
      * split; [| split]; [| discriminate | discriminate].
        intros u. split.
        -- intros [= <-]. exists h, doc. cbn [Db._id Db.role].
           rewrite <- Htok. repeat split; assumption.
        -- intros H. destruct (Hback u H) as (doc' & _ & Hver' & Hdoc' & _ & Hrole).
           destruct u as [uid urole]. cbn [Db._id Db.role] in *.
           injection Hver' as <-. rewrite Hdoc in Hdoc'. injection Hdoc' as <-.
           now subst urole.
      * split; [| split]; [| discriminate | intros r [= <-]; now left].
        intros u. split; [discriminate |].
        intros H. destruct (Hback u H) as (doc' & _ & Hver' & Hdoc' & Hact' & _).
        congruence.
    + split; [| split]; [| discriminate | intros r [= <-]; now left].
      intros u. split; [discriminate |].
      intros H. destruct (Hback u H) as (doc' & _ & Hver' & Hdoc' & _).
      congruence.
  - split; [| split]; [| discriminate | intros r [= <-]; now left].
    intros u. split; [discriminate |].
    intros H. destruct (Hback u H) as (doc' & _ & Hver' & _). discriminate.
  - split; [| split]; [| discriminate | intros r [= <-]; now left].
    intros u. split; [discriminate |].
    intros H. destruct (Hback u H) as (doc' & _ & Hver' & _). discriminate.
  - split; [| split]; [| discriminate |].
    + intros u. split; [discriminate |].
      intros H. destruct (Hback u H) as (doc' & _ & Hver' & _). discriminate.
    + intros r [= <-]. right. split; [reflexivity |]. exists h.
      rewrite <- Htok. now split.
Qed.

Lemma authMiddleware_lets_through_witness :
  Auth.authMiddleware Demo.verify (Store.users Demo.store) (Some "Bearer u1")
  = Auth.Next (Some (Db.mkUser "u1" "student"))
  /\ forall u, Auth.authMiddleware Demo.verify (Store.users Demo.store) (Some "Bearer u7")
                <> Auth.Next (Some u).
Proof.
  split.
  - apply (proj2 (proj1 (authMiddleware_lets_through Demo.verify (Store.users Demo.store)
                           (Some "Bearer u1")) (Db.mkUser "u1" "student"))).
    exists "Bearer u1", (User.mk "student" true ["c1"; "c2"]).
    repeat split; try reflexivity. discriminate.
  - intros u H.
    apply (proj1 (proj1 (authMiddleware_lets_through Demo.verify (Store.users Demo.store)
                           (Some "Bearer u7")) u)) in H.
    destruct H as (h & doc & [= <-] & _ & Hver & Hdoc & Hact & _).
    destruct u as [uid urole]. cbn [Db._id] in Hver, Hdoc.
    vm_compute in Hver. injection Hver as <-.
    vm_compute in Hdoc. injection Hdoc as <-. discriminate Hact.
Defined.

(** X9. [optionalAuth] attaches exactly the user [authMiddleware] would
    attach, and lets every request that [authMiddleware] would refuse
    go on without a user. *)
Theorem optionalAuth_agrees verify users authorization :
  Auth.optionalAuth verify users authorization =
  match Auth.authMiddleware verify users authorization with
  | Auth.Next user => Auth.Next user
  | Auth.Reply _ => Auth.Next None
  end.
Proof.
  unfold Auth.optionalAuth, Auth.authMiddleware.
  destruct (JS.truthy (Auth.token_of authorization)); cbn [negb]; [| reflexivity].
  destruct (verify _) as [id | | |]; try reflexivity.
  destruct (users !! id) as [doc |]; [| reflexivity].
  destruct (User.isActive doc); reflexivity.
Qed.

(** X10. The [Bearer ] prefix is optional: a header that is the bare
    token is treated as the same token with the prefix. *)
Theorem bearer_prefix_is_optional verify users t :
  JSString.includes "Bearer " t = false ->
  Auth.authMiddleware verify users (Some t)
  = Auth.authMiddleware verify users (Some ("Bearer " +:+ t)).
Proof.
  intros H. unfold Auth.authMiddleware.
  now rewrite token_of_bearer, token_of_bare.
Qed.

Lemma bearer_prefix_is_optional_witness :
  Auth.authMiddleware Demo.verify (Store.users Demo.store) (Some "u1")
  = Auth.authMiddleware Demo.verify (Store.users Demo.store) (Some ("Bearer " +:+ "u1")).
Proof.
  apply (bearer_prefix_is_optional Demo.verify (Store.users Demo.store) "u1").
  reflexivity.
Defined.

(** X11. A route behind [authMiddleware, adminMiddleware] is reached
    exactly by the users [authMiddleware] lets through whose role is
    ['admin']; the 403 answer goes exactly to the users it lets through
    with another role, and every other refusal is the one of
    [authMiddleware]. *)
Theorem admin_only_lets_admins_through verify users authorization :
  (forall user,
     Auth.admin_only verify users authorization = Auth.Next user <->
     exists u, user = Some u
       /\ Auth.authMiddleware verify users authorization = Auth.Next (Some u)
       /\ Db.role u = "admin")
  /\ (forall r,
        Auth.admin_only verify users authorization = Auth.Reply r ->
        (status r = 403 /\
         exists u, Auth.authMiddleware verify users authorization = Auth.Next (Some u)
                   /\ Db.role u <> "admin")
        \/ Auth.authMiddleware verify users authorization = Auth.Reply r).
Proof.
  pose proof (authMiddleware_lets_through_aux verify users authorization) as Hnone.
  unfold Auth.admin_only.
  destruct (Auth.authMiddleware verify users authorization) as [[u |] | r0] eqn:Hauth.
  - cbn [Auth.adminMiddleware].
    destruct (String.eqb (Db.role u) "admin") eqn:Hrole; cbn [negb].
    + apply String.eqb_eq in Hrole. split.
      * intros user. split.
        -- intros [= <-]. now exists u.
        -- intros (u' & -> & [= <-] & _). reflexivity.
      * discriminate.
    + apply String.eqb_neq in Hrole. split.
      * intros user. split; [discriminate |].
        intros (u' & -> & [= <-] & Hadm). contradiction.
      * intros r [= <-]. left. split; [reflexivity |]. now exists u.
  - contradiction.
  - split.
    + intros user. split; [discriminate | intros (u' & _ & [=] & _)].
    + intros r [= <-]. now right.
Qed.

(* ===================================================================== *)
(** ** Downloading a file                                                *)
(* ===================================================================== *)

(** X12. A download that passes the guards answers 200 with the whole
    file as it is on disk, whatever [Range] header the request carries;
    [Content-Length] is the length stored in the record, not the length
    on disk, and [Content-Type] the type stored in the record. It
    starts one write, the increment by 1 of the download counter of the
    file, which leaves every other field and record as it was. *)
Theorem download_sends_the_file encodeURIComponent s fs req file course content :
  Store.files s !! params_id req = Some file ->
  File.isActive file = true ->
  Store.courses s !! File.course file = Some course ->
  is_enrolled (Course.enrolledStudents course) (user req)
  || String.eqb (Db.role (user req)) "admin" = true ->
  fs !! File.filePath file = Some content ->
  let '(r, writes) := Files.download encodeURIComponent s fs req in
  status r = 200
  /\ body r = content
  /\ header "Content-Length" (headers r) = Some (HNum (JS.Num (File.fileSize file)))
  /\ header "Content-Type" (headers r) = Some (HStr (File.mimeType file))
  /\ header "Content-Disposition" (headers r)
     = Some (HStr ("attachment; filename=" +:+ JSString.chr 34
                   +:+ encodeURIComponent (File.originalName file) +:+ JSString.chr 34))
  /\ writes = [Store.IncDownloads (params_id req) 1]
  /\ Store.files (fold_right Store.apply s writes) !! params_id req
     = Some (File.inc_downloads 1 file)
  /\ Store.videos (fold_right Store.apply s writes) = Store.videos s
  /\ Store.courses (fold_right Store.apply s writes) = Store.courses s.
Proof.
  intros Hf Ha Hc Hg Hdisk.
  unfold Files.download, Files.download_try.
  rewrite Hf, Ha. cbn [negb]. rewrite Hc. cbn [bind].
  rewrite <- negb_orb, Hg. cbn [negb].
  unfold Fs.existsSync, Fs.createReadStream. rewrite Hdisk. cbn [negb bind default from_option].
  split; [reflexivity |]. split; [reflexivity |].
  split; [reflexivity |]. split; [reflexivity |]. split; [reflexivity |].
  split; [reflexivity |]. cbn [fold_right Store.apply].
  split; [| split; reflexivity].
  unfold Store.set_files. cbn [Store.files]. now rewrite lookup_alter_eq, Hf.
Qed.

Lemma download_sends_the_file_witness :
  let '(r, writes) :=
    Files.download Demo.encode Demo.store Demo.fs
      (mkRequest "f1" (Db.mkUser "u1" "student") (Some "bytes=0-3")) in
  status r = 200
  /\ body r = Sample.bytes_upto 20
  /\ header "Content-Length" (headers r) = Some (HNum (JS.Num 12))
  /\ header "Content-Type" (headers r) = Some (HStr "application/pdf")
  /\ header "Content-Disposition" (headers r)
     = Some (HStr ("attachment; filename=" +:+ JSString.chr 34
                   +:+ Demo.encode "notes.pdf" +:+ JSString.chr 34))
  /\ writes = [Store.IncDownloads "f1" 1]
  /\ Store.files (fold_right Store.apply Demo.store writes) !! "f1"
     = Some (File.inc_downloads 1
               (File.mk "notes.pdf" "/uploads/files/notes.pdf" 12 "application/pdf" "c1" true 4))
  /\ Store.videos (fold_right Store.apply Demo.store writes) = Store.videos Demo.store
  /\ Store.courses (fold_right Store.apply Demo.store writes) = Store.courses Demo.store.
Proof.
  apply (download_sends_the_file Demo.encode Demo.store Demo.fs
           (mkRequest "f1" (Db.mkUser "u1" "student") (Some "bytes=0-3"))
           (File.mk "notes.pdf" "/uploads/files/notes.pdf" 12 "application/pdf" "c1" true 4)
           (Course.mk "Rocq" ["u1"; "u2"] ["v1"; "v2"] ["f1"] true)
           (Sample.bytes_upto 20)); reflexivity.
Defined.

(** X13. An inactive file cannot be told from a file that is not
    stored: the download is answered exactly as if the record did not
    exist, for administrators too and whatever is on disk. *)
Theorem inactive_file_is_as_if_absent encodeURIComponent s fs req file :
  Store.files s !! params_id req = Some file ->
  File.isActive file = false ->
  Files.download encodeURIComponent s fs req
  = Files.download encodeURIComponent
      (Store.set_files (delete (params_id req) (Store.files s)) s) fs req
  /\ Files.download encodeURIComponent s fs req
     = (error_json 404 "Archivo no encontrado", []).
Proof.
  intros Hf Ha. unfold Files.download, Files.download_try.
  cbn [Store.files Store.set_files]. rewrite Hf, Ha, lookup_delete_eq.
  split; reflexivity.
Qed.

Lemma inactive_file_is_as_if_absent_witness :
  Files.download Demo.encode Demo.store Demo.fs (mkRequest "f2" Sample.root None)
  = Files.download Demo.encode
      (Store.set_files (delete "f2" (Store.files Demo.store)) Demo.store)
      Demo.fs (mkRequest "f2" Sample.root None)
  /\ Files.download Demo.encode Demo.store Demo.fs (mkRequest "f2" Sample.root None)
     = (error_json 404 "Archivo no encontrado", []).
Proof.
  apply (inactive_file_is_as_if_absent Demo.encode Demo.store Demo.fs
           (mkRequest "f2" Sample.root None)
           (File.mk "old.txt" "/uploads/files/old.txt" 3 "text/plain" "c1" false 0));
    reflexivity.
Defined.

(* ===================================================================== *)
(** ** The type of an uploaded document                                  *)
(* ===================================================================== *)

(** X14. [getFileType] always answers one of eight names, each of
    which the [enum] of [fileType] accepts; the enum values [docx],
    [pptx] and [xlsx] are never produced. *)
Theorem getFileType_is_in_the_enum filename mimeType :
  In (Files.getFileType filename mimeType)
     ["pdf"; "doc"; "txt"; "ppt"; "xls"; "zip"; "image"; "other"]
  /\ In (Files.getFileType filename mimeType) Files.fileType_enum
  /\ ~ In (Files.getFileType filename mimeType) ["docx"; "pptx"; "xlsx"].
Proof.
  unfold Files.getFileType, Files.fileType_enum.
  repeat match goal with
         | |- context [if ?b then _ else _] => destruct b
         end;
    (split; [| split]); cbn; intuition discriminate.
Qed.

Section Extension.

Lemma split_nonempty sep s : JS.split sep s <> [].
Proof.
  destruct s as [| c s]; cbn; [discriminate |].
  destruct (Ascii.eqb c sep); [discriminate |].
  destruct (JS.split sep s); discriminate.
Qed.

(** Splitting around a separator splits the two sides. *)
Lemma split_app_sep sep a b :
  JS.split sep (a +:+ String sep b) = (JS.split sep a ++ JS.split sep b)%list.
Proof.
  induction a as [| c a IH]; simpl.
  - now rewrite Ascii.eqb_refl.
  - destruct (Ascii.eqb c sep); [now rewrite IH |].
    rewrite IH. pose proof (split_nonempty sep a) as Hne.
    destruct (JS.split sep a); [congruence | reflexivity].
Qed.

Lemma includes_char sep c s :
  JSString.includes (String sep EmptyString) (String c s)
  = Ascii.eqb sep c || JSString.includes (String sep EmptyString) s.
Proof.
  cbn [JSString.includes JS.strip_prefix].
  destruct (Ascii.eqb sep c); reflexivity.
Qed.

Lemma split_absent sep s :
  JSString.includes (String sep EmptyString) s = false -> JS.split sep s = [s].
Proof.
  induction s as [| c s IH]; intros H; [reflexivity |].
  rewrite includes_char in H. apply orb_false_iff in H as [Hc Hs].
  cbn [JS.split]. rewrite Ascii.eqb_sym, Hc, (IH Hs). reflexivity.
Qed.

Lemma pop_app l1 l2 : l2 <> [] -> JSString.pop (l1 ++ l2) = JSString.pop l2.
Proof.
  intros Hne. unfold JSString.pop. induction l1 as [| x l1 IH]; [reflexivity |].
  cbn [app]. destruct (l1 ++ l2)%list eqn:E.
  - apply List.app_eq_nil in E as [_ ->]. congruence.
  - rewrite <- IH. reflexivity.
Qed.

Lemma toLowerCase_app a b :
  JSString.toLowerCase (a +:+ b) = JSString.toLowerCase a +:+ JSString.toLowerCase b.
Proof.
  induction a as [| c a IH]; [reflexivity |].
  change (String (JSString.lower c) (JSString.toLowerCase (a +:+ b))
          = String (JSString.lower c) (JSString.toLowerCase a +:+ JSString.toLowerCase b)).
  now rewrite IH.
Qed.

Lemma lower_dot c : Ascii.eqb "." (JSString.lower c) = Ascii.eqb "." c.
Proof. destruct c as [[] [] [] [] [] [] [] []]; reflexivity. Qed.

Lemma lower_idempotent c : JSString.lower (JSString.lower c) = JSString.lower c.
Proof. destruct c as [[] [] [] [] [] [] [] []]; reflexivity. Qed.

Lemma toLowerCase_idempotent s :
  JSString.toLowerCase (JSString.toLowerCase s) = JSString.toLowerCase s.
Proof.
  induction s as [| c s IH]; cbn; [reflexivity |].
  now rewrite lower_idempotent, IH.
Qed.

Lemma toLowerCase_no_dot s :
  JSString.includes "." (JSString.toLowerCase s) = JSString.includes "." s.
Proof.
  induction s as [| c s IH]; [reflexivity |].
  cbn [JSString.toLowerCase]. now rewrite !includes_char, lower_dot, IH.
Qed.

(** The extension [getFileType] computes for [stem.ext]. *)
Lemma extension_of_dotted stem ext :
  JSString.includes "." ext = false ->
  JSString.pop (JS.split "." (JSString.toLowerCase (stem +:+ "." +:+ ext)))
  = JSString.toLowerCase ext.
Proof.
  intros H. rewrite toLowerCase_app.
  change (JSString.toLowerCase ("." +:+ ext))
    with (String "." (JSString.toLowerCase ext)).
  rewrite split_app_sep, pop_app by apply split_nonempty.
  rewrite split_absent by now rewrite toLowerCase_no_dot.
  reflexivity.
Qed.

Lemma extension_of_bare ext :
  JSString.includes "." ext = false ->
  JSString.pop (JS.split "." (JSString.toLowerCase (JSString.toLowerCase ext)))
  = JSString.toLowerCase ext.
Proof.
  intros H. rewrite toLowerCase_idempotent.
  rewrite split_absent by now rewrite toLowerCase_no_dot.
  reflexivity.
Qed.

End Extension.

(** X15. Of the name of a document only what follows its last dot
    counts, and its case does not: [stem.ext] has the type of the bare
    lower-cased [ext], whatever the stem. *)
Theorem getFileType_reads_the_last_extension stem ext mimeType :
  JSString.includes "." ext = false ->
  Files.getFileType (stem +:+ "." +:+ ext) mimeType
  = Files.getFileType (JSString.toLowerCase ext) mimeType.
Proof.
  intros H. unfold Files.getFileType.
  now rewrite extension_of_dotted, extension_of_bare.
Qed.

Lemma getFileType_reads_the_last_extension_witness :
  Files.getFileType ("Report.final" +:+ "." +:+ "DOCX") "application/octet-stream"
  = Files.getFileType (JSString.toLowerCase "DOCX") "application/octet-stream".
Proof.
  apply (getFileType_reads_the_last_extension "Report.final" "DOCX"
           "application/octet-stream").
  reflexivity.
Defined.

(* ===================================================================== *)
(** ** More of the streaming handler                                     *)
(* ===================================================================== *)

Lemma parse_range_suffix rest size :
  fst (parse_range ("bytes=-" +:+ rest) size) = JS.NaN.
Proof.
  unfold parse_range.
  change (JS.replace "bytes=" EmptyString ("bytes=-" +:+ rest)) with (String "-" rest).
  reflexivity.
Qed.

(** X16. A suffix range, [bytes=-N] for the last N bytes, is not
    served: whatever follows the dash, the answer is 500, nothing is
    streamed and no view is counted. *)
Theorem suffix_range_is_a_server_error db fs req v c content rest :
  Db.videos db !! params_id req = Some v ->
  Db.courses db !! Db.course v = Some c ->
  granted c (user req) = true ->
  fs !! Db.filePath v = Some content ->
  range req = Some ("bytes=-" +:+ rest) ->
  stream db fs req = fail_with 500 "Error del servidor"
  /\ snd (serve db fs req) = db.
Proof.
  intros Hv Hc Hg Hf Hr.
  assert (stream db fs req = fail_with 500 "Error del servidor") as Hs.
  { destruct (parse_range ("bytes=-" +:+ rest) (JS.Num (Z.of_nat (length content))))
      as [start end_] eqn:Hp.
    pose proof (parse_range_suffix rest (JS.Num (Z.of_nat (length content)))) as Hnan.
    rewrite Hp in Hnan. cbn [fst] in Hnan. subst start.
    apply (stream_range_throw db fs req v c Hv Hc Hg content Hf
             ("bytes=-" +:+ rest) JS.NaN end_ Hr); [discriminate | exact Hp | reflexivity]. }
  split; [exact Hs |]. unfold serve. rewrite Hs. reflexivity.
Qed.

Lemma suffix_range_is_a_server_error_witness :
  stream Sample.db Sample.fs (Sample.get "v1" Sample.alice (Some ("bytes=-" +:+ "500")))
  = fail_with 500 "Error del servidor"
  /\ snd (serve Sample.db Sample.fs
            (Sample.get "v1" Sample.alice (Some ("bytes=-" +:+ "500")))) = Sample.db.
Proof.
  apply (suffix_range_is_a_server_error Sample.db Sample.fs
           (Sample.get "v1" Sample.alice (Some ("bytes=-" +:+ "500")))
           (Db.mkVideo "/uploads/videos/a.mp4" 100 (Some "video/webm") "c1" 7)
           (Db.mkCourse "Rocq" ["u1"; "u2"])
           (Sample.bytes_upto 100) "500"); reflexivity.
Defined.






Section BareRange.

Lemma includes_first_char p pat s :
  JSString.includes (String p EmptyString) s = false ->
  JSString.includes (String p pat) s = false.
Proof.
  induction s as [| c s IH]; intros H; [reflexivity |].
  rewrite includes_char in H. apply orb_false_iff in H as [Hc Hs].
  cbn [JSString.includes JS.strip_prefix]. rewrite Hc. now apply IH.
Qed.

Lemma includes_char_app p a b :
  JSString.includes (String p EmptyString) (a +:+ b)
  = JSString.includes (String p EmptyString) a
    || JSString.includes (String p EmptyString) b.
Proof.
  induction a as [| c a IH]; [reflexivity |].
  change (String c a +:+ b) with (String c (a +:+ b)).
  rewrite !includes_char, IH. now rewrite orb_assoc.
Qed.

Lemma digits_have_no_b s :
  all_digits s = true -> JSString.includes "b" s = false.
Proof.
  induction s as [| c s IH]; intros H; [reflexivity |].
  simpl in H. destruct (JS.digit_of c) as [d |] eqn:Hc; [| discriminate].
  rewrite includes_char, (IH H), orb_false_r.
  destruct (Ascii.eqb "b" c) eqn:E; [| reflexivity].
  apply Ascii.eqb_eq in E. subst c. discriminate Hc.
Qed.

Lemma parse_range_bare s e size :
  0 <= s -> 0 <= e ->
  parse_range (JS.decimal s +:+ "-" +:+ JS.decimal e) size = (JS.of_Z s, JS.of_Z e).
Proof.
  intros Hs He. unfold parse_range.
  rewrite replace_absent.
  2:{ apply includes_first_char. rewrite !includes_char_app.
      rewrite (digits_have_no_b (JS.decimal s)), (digits_have_no_b (JS.decimal e))
        by apply decimal_all_digits.
      reflexivity. }
  change (JS.decimal s +:+ "-" +:+ JS.decimal e)
    with (JS.decimal s +:+ String "-" (JS.decimal e)).
  rewrite split_digits_dash by apply decimal_all_digits.
  rewrite split_all_digits by apply decimal_all_digits.
  simpl lookup. simpl default.
  rewrite truthy_nonempty by apply decimal_nonempty.
  now rewrite !parseInt_decimal_any.
Qed.

(** The handler reads a [Range] header through its truthiness and what
    it parses to. *)
Lemma stream_range_ext db fs id u h h' :
  JS.truthy (Some h) = JS.truthy (Some h') ->
  (forall size, parse_range h size = parse_range h' size) ->
  stream db fs (mkRequest id u (Some h)) = stream db fs (mkRequest id u (Some h')).
Proof.
  intros Ht Hp. unfold stream, stream_try. cbn [params_id user range].
  destruct (Db.findById_populate db id) as [[video |] |]; try reflexivity. cbn [bind].
  destruct (Db.populated_course video) as [course |]; [| reflexivity]. cbn [bind].
  destruct (negb _ && negb _); [reflexivity |].
  destruct (negb (Fs.existsSync fs (Db.filePath (Db.doc video)))); [reflexivity |].
  destruct (Fs.statSync_size fs (Db.filePath (Db.doc video))) as [fileSize |];
    [| reflexivity]. cbn [bind].
  rewrite Ht. cbn [default from_option]. unfold Datatypes.id. rewrite Hp. reflexivity.
Qed.

End BareRange.

(** X18. The unit of the [Range] header is not required: a header
    [<start>-<end>] is served exactly as [bytes=<start>-<end>]. *)
Theorem range_unit_is_optional db fs id u s e :
  0 <= s -> 0 <= e ->
  stream db fs (mkRequest id u (Some (JS.decimal s +:+ "-" +:+ JS.decimal e)))
  = stream db fs (mkRequest id u (Some (range_header s (Some e)))).
Proof.
  intros Hs He. apply stream_range_ext.
  - rewrite truthy_nonempty; [reflexivity |].
    pose proof (decimal_nonempty s) as Hne.
    destruct (JS.decimal s); [congruence | discriminate].
  - intros size. now rewrite parse_range_bare, parse_range_closed_any.
Qed.

Lemma range_unit_is_optional_witness :
  stream Sample.db Sample.fs
    (mkRequest "v1" Sample.alice (Some (JS.decimal 10 +:+ "-" +:+ JS.decimal 19)))
  = stream Sample.db Sample.fs
      (mkRequest "v1" Sample.alice (Some (range_header 10 (Some 19)))).
Proof.
  apply (range_unit_is_optional Sample.db Sample.fs "v1" Sample.alice 10 19); lia.
Defined.

(** X19. A video whose course document is not in the database cannot
    be streamed by anyone, administrators included: the answer is 500,
    whatever the [Range] header and whether or not the file is on disk,
    and no view is counted. *)
Theorem video_without_course_is_a_server_error s fs req v :
  Store.videos s !! params_id req = Some v ->
  Store.courses s !! Db.course v = None ->
  Videos.stream s fs req = fail_with 500 "Error del servidor"
  /\ Videos.settle (detached (Videos.stream s fs req)) s = s.
Proof.
  intros Hv Hc. unfold Videos.stream.
  rewrite (stream_course_missing (Store.to_db s) fs req v).
  - split; reflexivity.
  - exact Hv.
  - rewrite to_db_course, Hc. reflexivity.
Qed.

Lemma video_without_course_is_a_server_error_witness :
  let s := Store.set_courses (delete "c1" (Store.courses Demo.store)) Demo.store in
  Videos.stream s Demo.fs (mkRequest "v1" Sample.root None)
  = fail_with 500 "Error del servidor"
  /\ Videos.settle (detached (Videos.stream s Demo.fs (mkRequest "v1" Sample.root None))) s = s.
Proof.
  apply (video_without_course_is_a_server_error
           (Store.set_courses (delete "c1" (Store.courses Demo.store)) Demo.store)
           Demo.fs (mkRequest "v1" Sample.root None)
           (Db.mkVideo "/uploads/videos/a.mp4" 100 (Some "video/webm") "c1" 7));
    reflexivity.
Defined.

(* ===================================================================== *)
(** ** What enrolment keeps                                              *)
(* ===================================================================== *)

Section EnrolmentInvariants.

Lemma NoDup_snoc_fresh (x : string) l :
  List.NoDup l -> ~ In x l -> List.NoDup (l ++ [x])%list.
Proof.
  induction l as [| y l IH]; intros Hnd Hx; cbn.
  - constructor; [intros [] | constructor].
  - inversion Hnd as [| ? ? Hy Hl]; subst. constructor.
    + rewrite List.in_app_iff. intros [H | [H | []]]; [contradiction |].
      subst y. apply Hx. now left.
    + apply IH; [assumption |]. intros H. apply Hx. now right.
Qed.

Lemma In_addToSet x y l : In x (Store.addToSet y l) <-> x = y \/ In x l.
Proof.
  unfold Store.addToSet. destruct (existsb (String.eqb y) l) eqn:E.
  - split; [now right |]. intros [-> | H]; [| assumption].
    apply existsb_exists in E as (z & Hz & Heq).
    apply String.eqb_eq in Heq. now subst z.
  - rewrite List.in_app_iff. cbn. intuition.
Qed.

Lemma In_pull x y l : In x (Store.pull y l) <-> x <> y /\ In x l.
Proof.
  unfold Store.pull. rewrite List.filter_In, negb_true_iff, String.eqb_neq. tauto.
Qed.

Lemma In_filter_out x y l :
  In x (List.filter (fun z => negb (String.eqb z y)) l) <-> x <> y /\ In x l.
Proof. apply In_pull. Qed.

Lemma unenroll_found s id u course :
  Store.courses s !! id = Some course ->
  Courses.unenroll s id u =
  (ok_json "Te has desinscrito del curso exitosamente",
   Store.mk
     (alter (fun d => User.set_enrolledCourses (Store.pull id (User.enrolledCourses d)) d)
            (Db._id u) (Store.users s))
     (<[id := Course.set_enrolledStudents
                (List.filter (fun studentId => negb (String.eqb studentId (Db._id u)))
                             (Course.enrolledStudents course)) course]>
        (Store.courses s))
     (Store.videos s) (Store.files s)).
Proof. intros Hc. unfold Courses.unenroll. rewrite Hc. reflexivity. Qed.

Lemma enroll_cases s id u :
  snd (Courses.enroll s id u) = s
  \/ exists course,
       Store.courses s !! id = Some course
       /\ is_enrolled (Course.enrolledStudents course) u = false
       /\ snd (Courses.enroll s id u) =
          Store.mk
            (alter (fun d => User.set_enrolledCourses
                               (Store.addToSet id (User.enrolledCourses d)) d)
                   (Db._id u) (Store.users s))
            (<[id := Course.set_enrolledStudents
                       (Course.enrolledStudents course ++ [Db._id u])%list course]>
               (Store.courses s))
            (Store.videos s) (Store.files s).
Proof.
  unfold Courses.enroll.
  destruct (Store.courses s !! id) as [course |] eqn:Hc; [| now left].
  destruct (Course.isActive course); cbn [negb]; [| now left].
  destruct (is_enrolled (Course.enrolledStudents course) u) eqn:He; [now left |].
  right. exists course. repeat split. assumption.
Qed.

Lemma unenroll_cases s id u :
  snd (Courses.unenroll s id u) = s
  \/ exists course,
       Store.courses s !! id = Some course
       /\ snd (Courses.unenroll s id u) =
          Store.mk
            (alter (fun d => User.set_enrolledCourses
                               (Store.pull id (User.enrolledCourses d)) d)
                   (Db._id u) (Store.users s))
            (<[id := Course.set_enrolledStudents
                       (List.filter (fun studentId => negb (String.eqb studentId (Db._id u)))
                                    (Course.enrolledStudents course)) course]>
               (Store.courses s))
            (Store.videos s) (Store.files s).
Proof.
  destruct (Store.courses s !! id) as [course |] eqn:Hc.
  - right. exists course. split; [reflexivity |].
    now rewrite (unenroll_found s id u course Hc).
  - left. unfold Courses.unenroll. now rewrite Hc.
Qed.

End EnrolmentInvariants.

(** X20. Enrolling and leaving keep every course free of duplicate
    students. *)
Theorem enrolment_keeps_students_distinct s id u :
  students_distinct s ->
  students_distinct (snd (Courses.enroll s id u))
  /\ students_distinct (snd (Courses.unenroll s id u)).
Proof.
  intros Hinv. split.
  - destruct (enroll_cases s id u) as [-> | (course & Hc & He & ->)]; [assumption |].
    intros cid c. cbn [Store.courses]. rewrite lookup_insert.
    destruct (decide (id = cid)) as [<- | Hne]; [| apply Hinv].
    intros [= <-]. cbn [Course.enrolledStudents Course.set_enrolledStudents].
    apply NoDup_snoc_fresh; [now apply (Hinv id) |].
    intros Hin. apply is_enrolled_In in Hin. congruence.
  - destruct (unenroll_cases s id u) as [-> | (course & Hc & ->)]; [assumption |].
    intros cid c. cbn [Store.courses]. rewrite lookup_insert.
    destruct (decide (id = cid)) as [<- | Hne]; [| apply Hinv].
    intros [= <-]. cbn [Course.enrolledStudents Course.set_enrolledStudents].
    apply List.NoDup_filter. now apply (Hinv id).
Qed.

(** X21. Enrolling and leaving keep the two sides of the enrolment
    records in step: afterwards a stored course lists a stored user
    exactly when that user lists the course. *)
Theorem enrolment_stays_in_step s id u :
  enrolment_agrees s ->
  enrolment_agrees (snd (Courses.enroll s id u))
  /\ enrolment_agrees (snd (Courses.unenroll s id u)).
Proof.
  intros Hinv. split.
  - destruct (enroll_cases s id u) as [-> | (course & Hc & He & ->)]; [assumption |].
    intros uid cid d c. cbn [Store.users Store.courses].
    rewrite lookup_alter, lookup_insert.
    destruct (decide (Db._id u = uid)) as [<- | Hu];
      destruct (decide (id = cid)) as [<- | Hcid].
    + destruct (Store.users s !! Db._id u) as [d0 |] eqn:Hd; [| discriminate].
      intros [= <-] [= <-].
      cbn [Course.enrolledStudents Course.set_enrolledStudents
           User.enrolledCourses User.set_enrolledCourses].
      rewrite List.in_app_iff, In_addToSet. cbn. tauto.
    + destruct (Store.users s !! Db._id u) as [d0 |] eqn:Hd; [| discriminate].
      intros [= <-] Hc'.
      cbn [User.enrolledCourses User.set_enrolledCourses].
      rewrite In_addToSet, (Hinv _ _ _ _ Hd Hc'). intuition congruence.
    + intros Hd [= <-].
      cbn [Course.enrolledStudents Course.set_enrolledStudents].
      rewrite List.in_app_iff, <- (Hinv _ _ _ _ Hd Hc). cbn. intuition congruence.
    + apply Hinv.
  - destruct (unenroll_cases s id u) as [-> | (course & Hc & ->)]; [assumption |].
    intros uid cid d c. cbn [Store.users Store.courses].
    rewrite lookup_alter, lookup_insert.
    destruct (decide (Db._id u = uid)) as [<- | Hu];
      destruct (decide (id = cid)) as [<- | Hcid].
    + destruct (Store.users s !! Db._id u) as [d0 |] eqn:Hd; [| discriminate].
      intros [= <-] [= <-].
      cbn [Course.enrolledStudents Course.set_enrolledStudents
           User.enrolledCourses User.set_enrolledCourses].
      rewrite In_filter_out, In_pull. tauto.
    + destruct (Store.users s !! Db._id u) as [d0 |] eqn:Hd; [| discriminate].
      intros [= <-] Hc'.
      cbn [User.enrolledCourses User.set_enrolledCourses].
      rewrite In_pull, (Hinv _ _ _ _ Hd Hc'). intuition congruence.
    + intros Hd [= <-].
      cbn [Course.enrolledStudents Course.set_enrolledStudents].
      rewrite In_filter_out, <- (Hinv _ _ _ _ Hd Hc). intuition congruence.
    + apply Hinv.
Qed.

Lemma enrolment_keeps_students_distinct_witness :
  students_distinct (snd (Courses.enroll Demo.store "c1" Demo.carol))
  /\ students_distinct (snd (Courses.unenroll Demo.store "c1" (Db.mkUser "u1" "student"))).
Proof.
  split.
  - apply (enrolment_keeps_students_distinct Demo.store "c1" Demo.carol).
    intros id c H. unfold Demo.store in H. cbn [Store.courses] in H.
    each_entry H ltac:(cbn; repeat (constructor; [cbn; intuition discriminate |]);
                       constructor).
  - apply (enrolment_keeps_students_distinct Demo.store "c1" (Db.mkUser "u1" "student")).
    intros id c H. unfold Demo.store in H. cbn [Store.courses] in H.
    each_entry H ltac:(cbn; repeat (constructor; [cbn; intuition discriminate |]);
                       constructor).
Defined.

Lemma enrolment_stays_in_step_witness :
  enrolment_agrees (snd (Courses.enroll Demo.store "c1" Demo.carol))
  /\ enrolment_agrees (snd (Courses.unenroll Demo.store "c1" (Db.mkUser "u1" "student"))).
Proof.
  assert (enrolment_agrees Demo.store) as Hdemo.
  { intros uid cid d c Hd Hc. unfold Demo.store in Hd, Hc.
    cbn [Store.users Store.courses] in Hd, Hc.
    each_entry Hd ltac:(each_entry Hc ltac:(cbn; intuition discriminate)). }
  split.
  - apply (enrolment_stays_in_step Demo.store "c1" Demo.carol). exact Hdemo.
  - apply (enrolment_stays_in_step Demo.store "c1" (Db.mkUser "u1" "student")). exact Hdemo.
Defined.

Lemma admin_only_lets_admins_through_witness :
  Auth.admin_only Demo.verify (Store.users Demo.store) (Some "Bearer u0")
  = Auth.Next (Some (Db.mkUser "u0" "admin")).
Proof.
  apply (proj2 (proj1 (admin_only_lets_admins_through Demo.verify (Store.users Demo.store)
                         (Some "Bearer u0")) (Some (Db.mkUser "u0" "admin")))).
  exists (Db.mkUser "u0" "admin"). repeat split; reflexivity.
Defined.

(* ===================================================================== *)
(** ** Removing a document                                               *)
(* ===================================================================== *)

(** X22. Once a document is removed ([DELETE /api/files/:id]), its
    record is gone, its file is off the disk, its course no longer
    lists it, every download of it is answered 404 whoever asks, the
    videos and the enrolments are untouched, and removing it again is
    answered 404 without touching anything. *)
Theorem removed_file_is_gone encodeURIComponent s fs id file :
  Store.files s !! id = Some file ->
  let '(r, s', fs') := Files.remove s fs id in
  status r = 200
  /\ Store.files s' !! id = None
  /\ fs' !! File.filePath file = None
  /\ (forall c, Store.courses s' !! File.course file = Some c -> ~ In id (Course.files c))
  /\ (forall u range,
        Files.download encodeURIComponent s' fs' (mkRequest id u range)
        = (error_json 404 "Archivo no encontrado", []))
  /\ Store.to_db s' = Store.to_db s
  /\ Files.remove s' fs' id = (error_json 404 "Archivo no encontrado", s', fs').
Proof.
  intros Hf. unfold Files.remove at 1. rewrite Hf.
  unfold Store.set_courses, Store.set_files.
  cbn [Store.users Store.courses Store.videos Store.files].
  split; [reflexivity |].
  split; [apply lookup_delete_eq |].
  split; [apply lookup_delete_eq |].
  split.
  { intros c. rewrite lookup_alter_eq.
    destruct (Store.courses s !! File.course file) as [c0 |]; [| discriminate].
    intros [= <-]. cbn [Course.files Course.set_files]. apply not_In_pull. }
  split.
  { intros u range. unfold Files.download, Files.download_try.
    cbn [params_id Store.files]. now rewrite lookup_delete_eq. }
  split.
  - unfold Store.to_db. cbn [Store.videos Store.courses]. f_equal.
    rewrite (fmap_alter Store.select_course _ (fun x => x)) by reflexivity.
    apply alter_id. reflexivity.
  - unfold Files.remove. cbn [Store.files]. now rewrite lookup_delete_eq.
Qed.

Lemma removed_file_is_gone_witness :
  let '(r, s', fs') := Files.remove Demo.store Demo.fs "f1" in
  status r = 200
  /\ Store.files s' !! "f1" = None
  /\ fs' !! "/uploads/files/notes.pdf" = None
  /\ (forall c, Store.courses s' !! "c1" = Some c -> ~ In "f1" (Course.files c))
  /\ (forall u range,
        Files.download Demo.encode s' fs' (mkRequest "f1" u range)
        = (error_json 404 "Archivo no encontrado", []))
  /\ Store.to_db s' = Store.to_db Demo.store
  /\ Files.remove s' fs' "f1" = (error_json 404 "Archivo no encontrado", s', fs').
Proof.
  apply (removed_file_is_gone Demo.encode Demo.store Demo.fs "f1"
           (File.mk "notes.pdf" "/uploads/files/notes.pdf" 12 "application/pdf" "c1" true 4)).
  reflexivity.
Defined.
